(** * psychopy.hardware.base: response records and response devices

    A shallow embedding of [psychopy/hardware/base.py]: the response record
    [BaseResponse] with its JSON envelope, and the device base classes
    [BaseDevice] and [BaseResponseDevice] with their response log and their
    synchronous relay of responses to listeners.

    Python is embedded as follows.
    - Values are the inductive [PyVal]; classes are [pyclass] descriptors
      carrying [__name__], the bases and the class attribute [fields].
    - Statements that can raise return a [Result]; methods of a device run
      in the monad [M], which threads the device's attributes and the state
      of the world outside the device, and collects the calls the method
      makes to code outside this module.
    - [assert] is the statement of the default interpreter mode
      ([__debug__] true).
    - The built-ins whose outcome the class of an object decides
      ([getattr], iteration, [format]) are parameters, gathered in
      [Interpreter]; [json.dumps] and [json.loads] are embedded with
      their default arguments.
    - The listener module and the subclasses of the device classes are
      outside this file: a listener is taken by the methods this module
      calls on it, a subclass by the methods it overrides. *)

From Stdlib Require Import String Ascii List ZArith Bool Lia.
From Stdlib Require Import DecimalString.
From Stdlib Require DecimalFacts DecimalPos DecimalZ.
Import ListNotations.
Set Warnings "-register-all".
Local Open Scope string_scope.
Local Open Scope list_scope.

(** ** Python classes *)

(** A class: [__module__], [__name__], its direct bases, and the value of
    the class attribute [fields] as resolved on the class (the empty list
    on classes that neither define nor inherit one). *)
Inductive pyclass : Type :=
| PyClass (module name : string) (bases : list pyclass) (fields : list string).

Definition cls_module (c : pyclass) : string :=
  match c with PyClass m _ _ _ => m end.

Definition cls_name (c : pyclass) : string :=
  match c with PyClass _ n _ _ => n end.

Definition cls_bases (c : pyclass) : list pyclass :=
  match c with PyClass _ _ bs _ => bs end.

Definition cls_fields (c : pyclass) : list string :=
  match c with PyClass _ _ _ fs => fs end.

(** Classes are told apart by their qualified name, the string this module
    itself uses to identify a class ([__init_subclass__] registers
    [module + "." + name]). *)
Definition same_class (a b : pyclass) : bool :=
  String.eqb (cls_module a) (cls_module b) && String.eqb (cls_name a) (cls_name b).

(** [issubclass(a, b)]: [a] is [b] or one of [a]'s bases is a subclass of [b]. *)
Fixpoint issubclass (a b : pyclass) : bool :=
  same_class a b ||
  match a with
  | PyClass _ _ bases _ => existsb (fun c => issubclass c b) bases
  end.

Definition builtin (name : string) (bases : list pyclass) : pyclass :=
  PyClass "builtins" name bases [].

Definition object_ : pyclass := builtin "object" [].
Definition NoneType : pyclass := builtin "NoneType" [object_].
Definition int_ : pyclass := builtin "int" [object_].
Definition bool_ : pyclass := builtin "bool" [int_].
Definition float_ : pyclass := builtin "float" [object_].
Definition str_ : pyclass := builtin "str" [object_].
Definition bytes_ : pyclass := builtin "bytes" [object_].
Definition list_ : pyclass := builtin "list" [object_].
Definition tuple_ : pyclass := builtin "tuple" [object_].
Definition dict_ : pyclass := builtin "dict" [object_].

(** ** Python values *)

(** A float is kept as what [float.__repr__] prints for it, which
    determines a finite float; the three non-finite floats are apart. *)
Inductive PyFloat : Type :=
| FNaN
| FInfinity (negative : bool)
| FFinite (repr : string).

(** Values.  A [str] is a [string] whose characters are code points below
    256; a [dict] is keyed by strings and keeps insertion order; an
    instance of a user class carries its class and its instance
    attributes. *)
Inductive PyVal : Type :=
| VNone
| VBool (b : bool)
| VInt (z : Z)
| VFloat (f : PyFloat)
| VStr (s : string)
| VBytes (s : string)
| VList (items : list PyVal)
| VTuple (items : list PyVal)
| VDict (items : list (string * PyVal))
| VInstance (cls : pyclass) (attrs : list (string * PyVal)).

(** [type(v)] *)
Definition type_of (v : PyVal) : pyclass :=
  match v with
  | VNone => NoneType
  | VBool _ => bool_
  | VInt _ => int_
  | VFloat _ => float_
  | VStr _ => str_
  | VBytes _ => bytes_
  | VList _ => list_
  | VTuple _ => tuple_
  | VDict _ => dict_
  | VInstance c _ => c
  end.

(** [isinstance(v, c)] *)
Definition isinstance (v : PyVal) (c : pyclass) : bool :=
  issubclass (type_of v) c.

(** ** Exceptions and results *)

Inductive Exn : Type :=
| AssertionError (msg : string)
| NotImplementedError (msg : string)
| AttributeError (msg : string)
| TypeError (msg : string)
| OtherError (kind msg : string).

Inductive Result (A : Type) : Type :=
| Return (a : A)
| Raise (e : Exn).
Arguments Return {A} a.
Arguments Raise {A} e.

Definition rbind {A B} (r : Result A) (k : A -> Result B) : Result B :=
  match r with
  | Return a => k a
  | Raise e => Raise e
  end.

(** The message of the [AttributeError] raised by [o.attr] when [o] has no
    such attribute. *)
Definition no_attribute (c : pyclass) (attr : string) : string :=
  ("'" ++ cls_name c ++ "' object has no attribute '" ++ attr ++ "'")%string.

(** ** Dictionaries and attributes *)

Section Assoc.
Context {V : Type}.

(** [d.get(key)] *)
Fixpoint dict_get (key : string) (d : list (string * V)) : option V :=
  match d with
  | [] => None
  | (k, v) :: rest => if String.eqb key k then Some v else dict_get key rest
  end.

(** [d[key] = v]: an existing key keeps its position, a new key goes last. *)
Fixpoint dict_set (key : string) (v : V) (d : list (string * V)) : list (string * V) :=
  match d with
  | [] => [(key, v)]
  | (k, w) :: rest =>
      if String.eqb key k then (k, v) :: rest else (k, w) :: dict_set key v rest
  end.

Definition dict_keys (d : list (string * V)) : list string := map fst d.

Definition dict_remove (key : string) (d : list (string * V)) : list (string * V) :=
  filter (fun kv => negb (String.eqb key (fst kv))) d.
End Assoc.

(** ** The interpreter

    [BaseResponse] goes through built-ins whose outcome the class of the
    object decides, and through the [json] module, whose encoder and
    decoder stop at a depth of nesting the interpreter sets.  These are
    parameters of the methods. *)
Record Interpreter : Type := {
  (* [getattr(o, name)] for a string [name]: the value however the class
     of [o] resolves the name (instance attribute, class attribute,
     descriptor, [__getattr__]), or the exception raised *)
  py_getattr : PyVal -> string -> Result PyVal;
  (* the iteration over an instance of a user class, run to its end: the
     exception of [iter(o)], or the items yielded and the exception that
     ended the iteration early, if one did *)
  py_iter_instance : pyclass -> list (string * PyVal) -> Result (list PyVal * option Exn);
  (* [format(v, '')], the text of a replacement field of an f-string, for
     a value other than a [str] *)
  py_format : PyVal -> Result string;
  (* [float(text)] for the text of a JSON number *)
  py_float : string -> PyFloat;
  (* how many containers deep [json.dumps] and [json.loads] can go before
     the interpreter raises [RecursionError] *)
  dumps_room : nat;
  loads_room : nat
}.

Definition ValueError (msg : string) : Exn := OtherError "ValueError" msg.

Definition RecursionError (msg : string) : Exn := OtherError "RecursionError" msg.

(** The exception of [iter(v)] on a value that cannot be iterated. *)
Definition not_iterable (v : PyVal) : Exn :=
  TypeError ("'" ++ cls_name (type_of v) ++ "' object is not iterable")%string.

(** The iteration [for key in v], run to its end: the items in order,
    and the exception that ended it early, if one did. *)
Definition py_iter (py : Interpreter) (v : PyVal) : Result (list PyVal * option Exn) :=
  match v with
  | VList items | VTuple items => Return (items, None)
  | VStr s => Return (map (fun c => VStr (String c EmptyString)) (list_ascii_of_string s), None)
  | VBytes s =>
      Return (map (fun c => VInt (Z.of_nat (nat_of_ascii c))) (list_ascii_of_string s), None)
  | VDict items => Return (map (fun kv => VStr (fst kv)) items, None)
  | VInstance c attrs => py_iter_instance py c attrs
  | VNone | VBool _ | VInt _ | VFloat _ => Raise (not_iterable v)
  end.

(** The name [getattr] is asked for: it has to be a string. *)
Definition attribute_name (key : PyVal) : Result string :=
  match key with
  | VStr name => Return name
  | _ =>
      Raise (TypeError ("attribute name must be string, not '"
                        ++ cls_name (type_of key) ++ "'")%string)
  end.

(** [getattr(self, key)] *)
Definition getattr (py : Interpreter) (self key : PyVal) : Result PyVal :=
  rbind (attribute_name key) (py_getattr py self).

(** [format(v, '')]: a [str] is its own text. *)
Definition format_value (py : Interpreter) (v : PyVal) : Result string :=
  match v with
  | VStr s => Return s
  | _ => py_format py v
  end.

(** ** [json.dumps]

    The encoder of the standard library with its default arguments:
    separators [", "] and [": "], [ensure_ascii] on, [allow_nan] on, a
    [TypeError] for each object outside the conversion table, the
    [ValueError] of the conversion of an integer of more than 4300 digits
    to text, and a [RecursionError] when the containers nest deeper than
    the interpreter allows. *)

Definition dquote : ascii := ascii_of_nat 34.

Definition hex_digit (n : nat) : ascii :=
  nth n (list_ascii_of_string "0123456789abcdef") "0"%char.

(** One character of a string under [ensure_ascii]. *)
Definition escape_char (c : ascii) : string :=
  let n := nat_of_ascii c in
  if Nat.eqb n 92 then "\\"
  else if Nat.eqb n 34 then String "\"%char (String dquote EmptyString)
  else if Nat.eqb n 8 then "\b"
  else if Nat.eqb n 12 then "\f"
  else if Nat.eqb n 10 then "\n"
  else if Nat.eqb n 13 then "\r"
  else if Nat.eqb n 9 then "\t"
  else if Nat.leb 32 n && Nat.leb n 126 then String c EmptyString
  else ("\u00" ++ String (hex_digit (n / 16)) (String (hex_digit (n mod 16)) EmptyString))%string.

Fixpoint escape_string (s : string) : string :=
  match s with
  | EmptyString => EmptyString
  | String c rest => (escape_char c ++ escape_string rest)%string
  end.

Definition json_string (s : string) : string :=
  String dquote (escape_string s ++ String dquote EmptyString)%string.

(** The limit the interpreter puts on the conversion between [int] and
    decimal text ([sys.get_int_max_str_digits()], 4300 unless changed). *)
Definition max_str_digits : nat := 4300.

(** The decimal digits of [z]. *)
Definition int_text (z : Z) : string := NilZero.string_of_int (Z.to_int z).

(** [int.__repr__]: the digits, or a [ValueError] when there are more of
    them than the limit (the sign does not count). *)
Definition json_int (z : Z) : Result string :=
  if Nat.ltb max_str_digits (String.length (int_text (Z.abs z)))
  then Raise (ValueError "Exceeds the limit (4300 digits) for integer string conversion")
  else Return (int_text z).

Definition json_float (f : PyFloat) : string :=
  match f with
  | FNaN => "NaN"
  | FInfinity false => "Infinity"
  | FInfinity true => "-Infinity"
  | FFinite repr => repr
  end.

Definition not_serializable (v : PyVal) : Exn :=
  TypeError ("Object of type " ++ cls_name (type_of v) ++ " is not JSON serializable")%string.

Definition too_deep_to_encode : Exn :=
  RecursionError "maximum recursion depth exceeded while encoding a JSON object".

(** The encoder, with [room] containers left to enter. *)
Fixpoint json_encode (room : nat) (v : PyVal) {struct v} : Result string :=
  match v with
  | VNone => Return "null"
  | VBool true => Return "true"
  | VBool false => Return "false"
  | VInt z => json_int z
  | VFloat f => Return (json_float f)
  | VStr s => Return (json_string s)
  | VList items | VTuple items =>
      match room with
      | O => Raise too_deep_to_encode
      | S room' =>
          rbind
            ((fix encode_items (l : list PyVal) : Result (list string) :=
                match l with
                | [] => Return []
                | x :: rest =>
                    rbind (json_encode room' x) (fun s =>
                    rbind (encode_items rest) (fun ss => Return (s :: ss)))
                end) items)
            (fun chunks => Return ("[" ++ String.concat ", " chunks ++ "]")%string)
      end
  | VDict items =>
      match room with
      | O => Raise too_deep_to_encode
      | S room' =>
          rbind
            ((fix encode_pairs (l : list (string * PyVal)) : Result (list string) :=
                match l with
                | [] => Return []
                | (k, x) :: rest =>
                    rbind (json_encode room' x) (fun s =>
                    rbind (encode_pairs rest) (fun ss =>
                    Return ((json_string k ++ ": " ++ s)%string :: ss)))
                end) items)
            (fun chunks => Return ("{" ++ String.concat ", " chunks ++ "}")%string)
      end
  | VBytes _ | VInstance _ _ => Raise (not_serializable v)
  end.

(** [json.dumps(v)] *)
Definition json_dumps (py : Interpreter) (v : PyVal) : Result string :=
  json_encode (dumps_room py) v.

(** ** [json.loads]

    The decoder of the standard library with its default arguments, on a
    [str].  Every text that is not JSON raises [JSONDecodeError] (the
    messages are abridged).  A [\u] escape at or above [U+0100] names a
    character that [str] as kept here does not have: the decoding of such
    a text is not followed ([ScanOutside]). *)

Definition JSONDecodeError (msg : string) : Exn := OtherError "JSONDecodeError" msg.

Definition too_deep_to_decode : Exn :=
  RecursionError "maximum recursion depth exceeded while decoding a JSON object".

Inductive Scan (A : Type) : Type :=
| Scanned (a : A) (rest : string)
| ScanRaise (e : Exn)
| ScanOutside.
Arguments Scanned {A} a rest.
Arguments ScanRaise {A} e.
Arguments ScanOutside {A}.

Definition scan_map {A B} (f : A -> B) (r : Scan A) : Scan B :=
  match r with
  | Scanned a rest => Scanned (f a) rest
  | ScanRaise e => ScanRaise e
  | ScanOutside => ScanOutside
  end.

Definition is_ws (c : ascii) : bool :=
  let n := nat_of_ascii c in
  Nat.eqb n 32 || Nat.eqb n 9 || Nat.eqb n 10 || Nat.eqb n 13.

Fixpoint skip_ws (s : string) : string :=
  match s with
  | EmptyString => EmptyString
  | String c rest => if is_ws c then skip_ws rest else s
  end.

Definition is_digit (c : ascii) : bool :=
  let n := nat_of_ascii c in
  Nat.leb 48 n && Nat.leb n 57.

Definition hex_value (c : ascii) : option nat :=
  let n := nat_of_ascii c in
  if Nat.leb 48 n && Nat.leb n 57 then Some (n - 48)
  else if Nat.leb 97 n && Nat.leb n 102 then Some (n - 87)
  else if Nat.leb 65 n && Nat.leb n 70 then Some (n - 55)
  else None.

(** The character a backslash escape other than [\u] stands for. *)
Definition unescape (c : ascii) : option ascii :=
  let n := nat_of_ascii c in
  if Nat.eqb n 34 then Some dquote
  else if Nat.eqb n 92 then Some "\"%char
  else if Nat.eqb n 47 then Some "/"%char
  else if Nat.eqb n 98 then Some (ascii_of_nat 8)
  else if Nat.eqb n 102 then Some (ascii_of_nat 12)
  else if Nat.eqb n 110 then Some (ascii_of_nat 10)
  else if Nat.eqb n 114 then Some (ascii_of_nat 13)
  else if Nat.eqb n 116 then Some (ascii_of_nat 9)
  else None.

(** A string, from the character after its opening quote. *)
Fixpoint scanstring (s : string) : Scan string :=
  match s with
  | EmptyString => ScanRaise (JSONDecodeError "Unterminated string")
  | String c rest =>
      if Ascii.eqb c dquote then Scanned EmptyString rest
      else if Ascii.eqb c "\"%char then
        match rest with
        | EmptyString => ScanRaise (JSONDecodeError "Unterminated string")
        | String e rest1 =>
            if Ascii.eqb e "u"%char then
              match rest1 with
              | String h1 (String h2 (String h3 (String h4 rest2))) =>
                  match hex_value h1, hex_value h2, hex_value h3, hex_value h4 with
                  | Some d1, Some d2, Some d3, Some d4 =>
                      if Nat.eqb d1 0 && Nat.eqb d2 0
                      then scan_map (String (ascii_of_nat (16 * d3 + d4))) (scanstring rest2)
                      else ScanOutside
                  | _, _, _, _ => ScanRaise (JSONDecodeError "Invalid \uXXXX escape")
                  end
              | _ => ScanRaise (JSONDecodeError "Invalid \uXXXX escape")
              end
            else
              match unescape e with
              | Some ch => scan_map (String ch) (scanstring rest1)
              | None => ScanRaise (JSONDecodeError "Invalid \escape")
              end
        end
      else if Nat.leb (nat_of_ascii c) 31
      then ScanRaise (JSONDecodeError "Invalid control character")
      else scan_map (String c) (scanstring rest)
  end.

(** The digits [s] starts with, and what follows them. *)
Fixpoint span_digits (s : string) : string * string :=
  match s with
  | EmptyString => (EmptyString, EmptyString)
  | String c rest =>
      if is_digit c
      then let (d, r) := span_digits rest in (String c d, r)
      else (EmptyString, s)
  end.

(** The integer part of a number: [0], or a digit other than [0] and the
    digits after it. *)
Definition match_int (s : string) : option (string * string) :=
  match s with
  | EmptyString => None
  | String c rest =>
      if Ascii.eqb c "0"%char then Some (String c EmptyString, rest)
      else if is_digit c then let (d, r) := span_digits rest in Some (String c d, r)
      else None
  end.

(** The fraction of a number, if it has one: a point and one digit or
    more. *)
Definition match_frac (s : string) : string * string :=
  match s with
  | EmptyString => (EmptyString, s)
  | String c rest =>
      if Ascii.eqb c "."%char then
        match span_digits rest with
        | (EmptyString, _) => (EmptyString, s)
        | (d, r) => (String c d, r)
        end
      else (EmptyString, s)
  end.

(** The exponent of a number, if it has one: [e] or [E], a sign or none,
    and one digit or more. *)
Definition match_exp (s : string) : string * string :=
  match s with
  | EmptyString => (EmptyString, s)
  | String c rest =>
      if Ascii.eqb c "e"%char || Ascii.eqb c "E"%char then
        let (sign, digits) :=
          match rest with
          | String g rest' =>
              if Ascii.eqb g "+"%char || Ascii.eqb g "-"%char
              then (String g EmptyString, rest') else (EmptyString, rest)
          | EmptyString => (EmptyString, rest)
          end in
        match span_digits digits with
        | (EmptyString, _) => (EmptyString, s)
        | (d, r) => (String c (sign ++ d), r)
        end
      else (EmptyString, s)
  end.

(** The number [s] starts with: its integer part with the sign, its
    fraction and exponent, and what follows. *)
Definition match_number (s : string) : option (string * string * string) :=
  let (sign, s1) :=
    match s with
    | String c rest =>
        if Ascii.eqb c "-"%char then (String c EmptyString, rest) else (EmptyString, s)
    | EmptyString => (EmptyString, s)
    end in
  match match_int s1 with
  | None => None
  | Some (i, s2) =>
      let (f, s3) := match_frac s2 in
      let (e, s4) := match_exp s3 in
      Some ((sign ++ i)%string, (f ++ e)%string, s4)
  end.

(** [int(text)] for the integer part of a number. *)
Definition int_of_text (text : string) : Result Z :=
  let digits :=
    match text with
    | String c rest => if Ascii.eqb c "-"%char then rest else text
    | EmptyString => text
    end in
  if Nat.ltb max_str_digits (String.length digits)
  then Raise (ValueError "Exceeds the limit (4300 digits) for integer string conversion")
  else
    match NilZero.int_of_string text with
    | Some d => Return (Z.of_int d)
    | None => Raise (ValueError "invalid literal for int() with base 10")
    end.

(** What is left of [s] after the prefix [p], if [s] starts with [p]. *)
Fixpoint after_prefix (p s : string) : option string :=
  match p with
  | EmptyString => Some s
  | String a p' =>
      match s with
      | String b s' => if Ascii.eqb a b then after_prefix p' s' else None
      | EmptyString => None
      end
  end.

(** A value that is neither a string nor a container. *)
Definition scan_scalar (py : Interpreter) (s : string) : Scan PyVal :=
  match after_prefix "null" s with
  | Some rest => Scanned VNone rest
  | None =>
  match after_prefix "true" s with
  | Some rest => Scanned (VBool true) rest
  | None =>
  match after_prefix "false" s with
  | Some rest => Scanned (VBool false) rest
  | None =>
  match after_prefix "NaN" s with
  | Some rest => Scanned (VFloat FNaN) rest
  | None =>
  match after_prefix "Infinity" s with
  | Some rest => Scanned (VFloat (FInfinity false)) rest
  | None =>
  match after_prefix "-Infinity" s with
  | Some rest => Scanned (VFloat (FInfinity true)) rest
  | None =>
  match match_number s with
  | Some (i, EmptyString, rest) =>
      match int_of_text i with
      | Return z => Scanned (VInt z) rest
      | Raise e => ScanRaise e
      end
  | Some (i, fe, rest) => Scanned (VFloat (py_float py (i ++ fe))) rest
  | None => ScanRaise (JSONDecodeError "Expecting value")
  end end end end end end end.

(** The items of an array, from its first value on; [n] bounds their
    number. *)
Fixpoint array_items (scan : string -> Scan PyVal) (n : nat) (s : string)
  : Scan (list PyVal) :=
  match n with
  | O => ScanOutside
  | S n' =>
      match scan s with
      | Scanned v rest =>
          match skip_ws rest with
          | String c rest' =>
              if Ascii.eqb c "]"%char then Scanned [v] rest'
              else if Ascii.eqb c ","%char
              then scan_map (cons v) (array_items scan n' (skip_ws rest'))
              else ScanRaise (JSONDecodeError "Expecting ',' delimiter")
          | EmptyString => ScanRaise (JSONDecodeError "Expecting ',' delimiter")
          end
      | ScanRaise e => ScanRaise e
      | ScanOutside => ScanOutside
      end
  end.

(** An array, from the character after its opening bracket. *)
Definition parse_array (scan : string -> Scan PyVal) (n : nat) (s : string)
  : Scan (list PyVal) :=
  match skip_ws s with
  | String c rest =>
      if Ascii.eqb c "]"%char then Scanned [] rest
      else array_items scan n (String c rest)
  | EmptyString => ScanRaise (JSONDecodeError "Expecting value")
  end.

(** The pairs of an object, from its first key on. *)
Fixpoint object_items (scan : string -> Scan PyVal) (n : nat) (s : string)
  : Scan (list (string * PyVal)) :=
  match n with
  | O => ScanOutside
  | S n' =>
      match s with
      | String q s1 =>
          if Ascii.eqb q dquote then
            match scanstring s1 with
            | Scanned key s2 =>
                match skip_ws s2 with
                | String c s3 =>
                    if Ascii.eqb c ":"%char then
                      match scan (skip_ws s3) with
                      | Scanned v s4 =>
                          match skip_ws s4 with
                          | String d s5 =>
                              if Ascii.eqb d "}"%char then Scanned [(key, v)] s5
                              else if Ascii.eqb d ","%char
                              then scan_map (cons (key, v)) (object_items scan n' (skip_ws s5))
                              else ScanRaise (JSONDecodeError "Expecting ',' delimiter")
                          | EmptyString => ScanRaise (JSONDecodeError "Expecting ',' delimiter")
                          end
                      | ScanRaise e => ScanRaise e
                      | ScanOutside => ScanOutside
                      end
                    else ScanRaise (JSONDecodeError "Expecting ':' delimiter")
                | EmptyString => ScanRaise (JSONDecodeError "Expecting ':' delimiter")
                end
            | ScanRaise e => ScanRaise e
            | ScanOutside => ScanOutside
            end
          else ScanRaise (JSONDecodeError "Expecting property name enclosed in double quotes")
      | EmptyString =>
          ScanRaise (JSONDecodeError "Expecting property name enclosed in double quotes")
      end
  end.

(** An object, from the character after its opening brace. *)
Definition parse_object (scan : string -> Scan PyVal) (n : nat) (s : string)
  : Scan (list (string * PyVal)) :=
  match skip_ws s with
  | String c rest =>
      if Ascii.eqb c "}"%char then Scanned [] rest
      else object_items scan n (String c rest)
  | EmptyString =>
      ScanRaise (JSONDecodeError "Expecting property name enclosed in double quotes")
  end.

(** The dictionary the pairs of an object make: each is assigned in
    turn. *)
Definition dict_of_pairs (pairs : list (string * PyVal)) : list (string * PyVal) :=
  fold_left (fun d kv => dict_set (fst kv) (snd kv) d) pairs [].

(** The value [s] starts with, with [room] containers left to enter;
    [fuel] bounds the number of values in it. *)
Fixpoint scan_once (py : Interpreter) (fuel room : nat) (s : string) {struct fuel}
  : Scan PyVal :=
  match fuel with
  | O => ScanOutside
  | S fuel' =>
      match s with
      | EmptyString => ScanRaise (JSONDecodeError "Expecting value")
      | String c rest =>
          if Ascii.eqb c dquote then scan_map VStr (scanstring rest)
          else if Ascii.eqb c "{"%char then
            match room with
            | O => ScanRaise too_deep_to_decode
            | S room' =>
                scan_map (fun pairs => VDict (dict_of_pairs pairs))
                  (parse_object (scan_once py fuel' room') fuel' rest)
            end
          else if Ascii.eqb c "["%char then
            match room with
            | O => ScanRaise too_deep_to_decode
            | S room' => scan_map VList (parse_array (scan_once py fuel' room') fuel' rest)
            end
          else scan_scalar py s
      end
  end.

(** [json.loads(s)]: the value, the exception, or [None] for a text whose
    decoding is not followed. *)
Definition json_loads (py : Interpreter) (s : string) : option (Result PyVal) :=
  match scan_once py (S (String.length s)) (loads_room py) (skip_ws s) with
  | Scanned v rest =>
      match skip_ws rest with
      | EmptyString => Some (Return v)
      | _ => Some (Raise (JSONDecodeError "Extra data"))
      end
  | ScanRaise e => Some (Raise e)
  | ScanOutside => None
  end.

(** ** [BaseResponse] *)

Definition KeyError (key : string) : Exn := OtherError "KeyError" key.

(** Binding of a call's positional and keyword arguments to the named
    parameters of a function, as a Python call does it: a [TypeError] for
    an argument too many, given twice, unknown or missing (the text of the
    message is abridged). *)
Fixpoint bind_params (params : list string) (args : list PyVal)
    (kwargs : list (string * PyVal)) : Result (list (string * PyVal)) :=
  match params, args with
  | [], [] =>
      match kwargs with
      | [] => Return []
      | (k, _) :: _ => Raise (TypeError ("got an unexpected keyword argument '" ++ k ++ "'")%string)
      end
  | [], _ :: _ => Raise (TypeError "too many positional arguments")
  | p :: ps, a :: rest =>
      match dict_get p kwargs with
      | Some _ => Raise (TypeError ("got multiple values for argument '" ++ p ++ "'")%string)
      | None => rbind (bind_params ps rest kwargs) (fun bound => Return ((p, a) :: bound))
      end
  | p :: ps, [] =>
      match dict_get p kwargs with
      | Some v =>
          rbind (bind_params ps [] (dict_remove p kwargs)) (fun bound => Return ((p, v) :: bound))
      | None => Raise (TypeError ("missing a required argument: '" ++ p ++ "'")%string)
      end
  end.

(** A response class together with its [__init__]: from the arguments of
    the call to the instance attributes it sets, or the exception it
    raises. *)
Record RespClass : Type := {
  rc_class : pyclass;
  rc_init : list PyVal -> list (string * PyVal) -> Result (list (string * PyVal))
}.

(** A call of the class with positional and keyword arguments: a new
    instance, initialised by [__init__]. *)
Definition construct (rc : RespClass) (args : list PyVal) (kwargs : list (string * PyVal))
  : Result PyVal :=
  rbind (rc_init rc args kwargs) (fun attrs => Return (VInstance (rc_class rc) attrs)).

Module BaseResponse.

(** [fields = ["t", "value"]] *)
Definition fields : list string := ["t"; "value"].

Definition cls : pyclass :=
  PyClass "psychopy.hardware.base" "BaseResponse" [object_] fields.

(** [def __init__(self, t, value): self.t = t; self.value = value] *)
Definition __init__ (args : list PyVal) (kwargs : list (string * PyVal))
  : Result (list (string * PyVal)) :=
  rbind (bind_params ["t"; "value"] args kwargs) (fun bound =>
  match dict_get "t" bound, dict_get "value" bound with
  | Some t, Some value => Return (dict_set "value" value (dict_set "t" t []))
  | _, _ => Raise (TypeError "unbound parameter")
  end).

Definition class : RespClass := {| rc_class := cls; rc_init := __init__ |}.

(** [message['data'][key] = v] *)
Definition setitem_data (message : list (string * PyVal)) (key : string) (v : PyVal)
  : Result (list (string * PyVal)) :=
  match dict_get "data" message with
  | Some (VDict data) => Return (dict_set "data" (VDict (dict_set key v data)) message)
  | Some other =>
      Raise (TypeError ("'" ++ cls_name (type_of other)
                        ++ "' object does not support item assignment")%string)
  | None => Raise (KeyError "data")
  end.

Section Methods.
Variable py : Interpreter.

(** [for key in ...: message['data'][key] = getattr(self, key)], over the
    keys the iteration yields; [stop] is the exception that ends the
    iteration early, if one does. *)
Fixpoint add_fields (self : PyVal) (keys : list PyVal) (stop : option Exn)
    (message : list (string * PyVal)) : Result (list (string * PyVal)) :=
  match keys with
  | [] =>
      match stop with
      | Some e => Raise e
      | None => Return message
      end
  | key :: rest =>
      rbind (attribute_name key) (fun name =>
      rbind (py_getattr py self name) (fun v =>
      rbind (setitem_data message name v) (fun message' =>
      add_fields self rest stop message')))
  end.

(** The dictionary [message] as [getJSON] has built it when it reaches
    its [return]. *)
Definition getJSON_message (self : PyVal) : Result (list (string * PyVal)) :=
  (* construct message as dict *)
  let message :=
    [("type", VStr "hardware_response");
     ("class", VStr (cls_name (type_of self)));
     ("data", VDict [])] in
  (* add all fields to "data" *)
  rbind (py_getattr py self "fields") (fun fields =>
  rbind (py_iter py fields) (fun iteration =>
  add_fields self (fst iteration) (snd iteration) message)).

(** [getJSON]: [return json.dumps(message)] *)
Definition getJSON (self : PyVal) : Result string :=
  rbind (getJSON_message self) (fun message => json_dumps py (VDict message)).

(** [for key in ...: attrs.append(f"{key}={getattr(self, key)}")]: the
    f-string formats [key], then calls [getattr] and formats what it
    gives. *)
Fixpoint repr_attrs (self : PyVal) (keys : list PyVal) (stop : option Exn)
    (attrs : list string) : Result (list string) :=
  match keys with
  | [] =>
      match stop with
      | Some e => Raise e
      | None => Return attrs
      end
  | key :: rest =>
      rbind (format_value py key) (fun key_text =>
      rbind (getattr py self key) (fun v =>
      rbind (format_value py v) (fun v_text =>
      repr_attrs self rest stop (attrs ++ [(key_text ++ "=" ++ v_text)%string]))))
  end.

(** [__repr__] *)
Definition __repr__ (self : PyVal) : Result string :=
  (* make key=val strings *)
  rbind (py_getattr py self "fields") (fun fields =>
  rbind (py_iter py fields) (fun iteration =>
  rbind (repr_attrs self (fst iteration) (snd iteration) []) (fun attrs =>
  let attrs := String.concat ", " attrs in
  (* construct *)
  Return ("<" ++ cls_name (type_of self) ++ ": " ++ attrs ++ ">")%string))).

End Methods.

End BaseResponse.

(** ** Listeners

    [psychopy/hardware/listener.py] is outside this module.  A listener is
    taken by what this module asks of it: its class, its [receiveMessage],
    and, where it has them, its [startLoop] and the [removeDevice] of its
    [loop].  Each acts on the world outside the device and returns or
    raises; the device's own attributes are written by the device alone. *)

(** [lsnr.BaseListener], the class [addListener] tests its argument
    against; a class is identified by its qualified name. *)
Definition BaseListener : pyclass :=
  PyClass "psychopy.hardware.listener" "BaseListener" [object_] [].

Section Runtime.

(** [World]: the state of everything outside the device object (hardware
    and transport, output streams and logs, the listeners' own state and
    their loops).  [Liaison]: the type of a liaison server, the value of
    [DeviceManager.liaison] when it is not [None]. *)
Context {World Liaison : Type}.

Definition Effect : Type := World -> Result unit * World.

Record Loop : Type := {
  removeDevice : Effect
}.

Record Listener : Type := {
  l_class : pyclass;
  l_receiveMessage : PyVal -> Effect;
  l_startLoop : option Effect;
  l_loop : option Loop
}.

(** What [addListener] is given and what the list [listeners] holds: a
    listener object, or any other Python value. *)
Inductive Handle : Type :=
| HListener (l : Listener)
| HValue (v : PyVal).

(** [type(h)] *)
Definition handle_type (h : Handle) : pyclass :=
  match h with
  | HListener l => l_class l
  | HValue v => type_of v
  end.

(** [h == s] for a string literal [s] *)
Definition handle_eq_str (h : Handle) (s : string) : bool :=
  match h with
  | HValue (VStr s') => String.eqb s' s
  | _ => false
  end.

(** The constructors this module calls in the listener module. *)
Record ListenerModule : Type := {
  LiaisonListener : Liaison -> Listener;
  PrintListener : Listener;
  LoggingListener : Listener
}.

(** ** Device state and the method monad *)

(** The attributes of a device set by [__init__], with the process-wide
    [DeviceManager.liaison] and the world outside. *)
Record State : Type := {
  responses : list PyVal;
  listeners : list Handle;
  DeviceManager_liaison : option Liaison;
  world : World
}.

Definition set_responses (rs : list PyVal) (st : State) : State :=
  {| responses := rs; listeners := listeners st;
     DeviceManager_liaison := DeviceManager_liaison st; world := world st |}.

Definition set_listeners (ls : list Handle) (st : State) : State :=
  {| responses := responses st; listeners := ls;
     DeviceManager_liaison := DeviceManager_liaison st; world := world st |}.

Definition set_world (w : World) (st : State) : State :=
  {| responses := responses st; listeners := listeners st;
     DeviceManager_liaison := DeviceManager_liaison st; world := w |}.

(** A call a method of the device makes to code outside this module: to
    its own [dispatchMessages], which a subclass overrides (with the calls
    made inside it), or to a listener. *)
Inductive Call : Type :=
| CallDispatchMessages (inner : list Call)
| CallReceiveMessage (listener : Listener) (message : PyVal)
| CallStartLoop (listener : Listener)
| CallRemoveDevice (listener : Listener).

(** What running a method gives: its result, the state it leaves (also
    when it raises), and the calls it made, in order. *)
Record Outcome (A : Type) : Type := mkOut {
  out_res : Result A;
  out_state : State;
  out_calls : list Call
}.
Arguments mkOut {A} _ _ _.
Arguments out_res {A} _.
Arguments out_state {A} _.
Arguments out_calls {A} _.

Definition M (A : Type) : Type := State -> Outcome A.

Definition ret {A} (a : A) : M A := fun st => mkOut (Return a) st [].

Definition raise {A} (e : Exn) : M A := fun st => mkOut (Raise e) st [].

Definition bind {A B} (m : M A) (k : A -> M B) : M B :=
  fun st =>
    let o := m st in
    match out_res o with
    | Return a =>
        let o' := k a (out_state o) in
        mkOut (out_res o') (out_state o') (out_calls o ++ out_calls o')
    | Raise e => mkOut (Raise e) (out_state o) (out_calls o)
    end.

Definition lift {A} (r : Result A) : M A :=
  fun st => mkOut r st [].

Definition gets {A} (f : State -> A) : M A := fun st => mkOut (Return (f st)) st [].

Definition modify (f : State -> State) : M unit := fun st => mkOut (Return tt) (f st) [].

(** [try: m except: pass] *)
Definition try_except_pass (m : M unit) : M unit :=
  fun st =>
    let o := m st in
    mkOut (Return tt) (out_state o) (out_calls o).

(** [assert cond, msg] *)
Definition py_assert (cond : bool) (msg : string) : M unit :=
  if cond then ret tt else raise (AssertionError msg).

(** [for x in xs: body(x)] *)
Fixpoint for_each {A} (xs : list A) (body : A -> M unit) : M unit :=
  match xs with
  | [] => ret tt
  | x :: rest => bind (body x) (fun _ => for_each rest body)
  end.

(** A call of a collaborator's method: it acts on the world, and the
    call is recorded. *)
Definition call_out (c : Call) (f : Effect) : M unit :=
  fun st =>
    let (r, w) := f (world st) in
    mkOut r (set_world w st) [c].

(** A method of a class, as a call on an instance resolves it: the
    override of the subclass where there is one, the inherited method
    otherwise. *)
Definition resolve {A} (override : option A) (inherited : A) : A :=
  match override with
  | Some m => m
  | None => inherited
  end.

(** A device class: its own class object, the class attribute
    [responseClass], and the methods a subclass is meant to override. *)
Record DeviceClass : Type := {
  dc_class : pyclass;
  responseClass : RespClass;
  override_dispatchMessages : option (M unit);
  override_parseMessage : option (PyVal -> M PyVal);
  override_getAvailableDevices : option (M PyVal)
}.

End Runtime.

Arguments Listener : clear implicits.
Arguments Loop : clear implicits.
Arguments Handle : clear implicits.
Arguments ListenerModule : clear implicits.
Arguments State : clear implicits.
Arguments Call : clear implicits.
Arguments Outcome : clear implicits.
Arguments M : clear implicits.
Arguments DeviceClass : clear implicits.
Arguments Effect : clear implicits.
Arguments mkOut {World Liaison A} _ _ _.
Arguments out_res {World Liaison A} _.
Arguments out_state {World Liaison A} _.
Arguments out_calls {World Liaison A} _.

Declare Scope py_scope.
Delimit Scope py_scope with py.
Notation "x <- m ;; k" := (bind m (fun x => k))
  (at level 61, m at next level, right associativity) : py_scope.
Notation "m ;; k" := (bind m (fun _ => k))
  (at level 61, right associativity) : py_scope.

(** ** [BaseDevice] *)

Module BaseDevice.
Section Methods.
Context {World Liaison : Type}.

(** [getAvailableDevices] (a static method) *)
Definition getAvailableDevices : M World Liaison PyVal :=
  raise (NotImplementedError
    "All subclasses of BaseDevice must implement the method `getAvailableDevices`").

End Methods.

Section Registration.

(** [DeviceManager] ([psychopy/hardware/manager.py]) is outside this file.
    It is taken by what [__init_subclass__] uses of it: the list
    [deviceClasses], and [registerClassAlias(alias, mro)], which acts on
    what the manager keeps of its aliases and returns or raises. *)
Context {Aliases : Type}.
Variable registerClassAlias : PyVal -> string -> Aliases -> Result unit * Aliases.

Record DeviceManager : Type := {
  deviceClasses : list string;
  aliases : Aliases
}.

(** The keyword argument [aliases] of a class statement: left out
    ([None]), a list or tuple, or a single string. *)
Inductive AliasesArg : Type :=
| AliasesNone
| AliasesSeq (items : list PyVal)
| AliasesStr (s : string).

(** What [for alias in aliases] runs through, [None] having been replaced
    by the empty list; a string is run through character by character. *)
Definition aliases_items (arg : AliasesArg) : list PyVal :=
  match arg with
  | AliasesNone => []
  | AliasesSeq items => items
  | AliasesStr s => map (fun c => VStr (String c EmptyString)) (list_ascii_of_string s)
  end.

(** What a class declaration gives: the result of the hook, the manager
    it leaves, and the calls of [registerClassAlias] it made. *)
Record Declared : Type := mkDeclared {
  decl_res : Result pyclass;
  decl_manager : DeviceManager;
  decl_calls : list (PyVal * string)
}.

(** [inspect.getmodule(cls)] as far as the hook uses it: the [__name__] of
    the module it finds for the class, or [None] when it finds none (the
    module the class names is not among the loaded ones). *)
Variable getmodule : pyclass -> option string.

(** [inspect.getmodule(cls).__name__ + "." + cls.__name__] *)
Definition class_string (cls : pyclass) : Result string :=
  match getmodule cls with
  | Some module_name => Return (module_name ++ "." ++ cls_name cls)%string
  | None => Raise (AttributeError (no_attribute NoneType "__name__"))
  end.

(** [for alias in aliases: DeviceManager.registerClassAlias(alias, mro)] *)
Fixpoint register_aliases (items : list PyVal) (mro : string) (a : Aliases)
  : Result unit * Aliases * list (PyVal * string) :=
  match items with
  | [] => (Return tt, a, [])
  | alias :: rest =>
      match registerClassAlias alias mro a with
      | (Return _, a1) =>
          let '(r, a2, calls) := register_aliases rest mro a1 in
          (r, a2, (alias, mro) :: calls)
      | (Raise e, a1) => (Raise e, a1, [(alias, mro)])
      end
  end.

(** [__init_subclass__] *)
Definition __init_subclass__ (cls : pyclass) (arg : AliasesArg) (dm : DeviceManager)
  : Declared :=
  (* handle no aliases *)
  let items := aliases_items arg in
  (* if given a class, get its class string *)
  match class_string cls with
  | Raise e => mkDeclared (Raise e) dm []
  | Return mro =>
      (* register aliases *)
      match register_aliases items mro (aliases dm) with
      | (Return _, a, calls) =>
          (* store class string *)
          mkDeclared (Return cls)
            {| deviceClasses := deviceClasses dm ++ [mro]; aliases := a |} calls
      | (Raise e, a, calls) =>
          mkDeclared (Raise e) {| deviceClasses := deviceClasses dm; aliases := a |} calls
      end
  end.

(** A sequence of class declarations, each made whatever the previous one
    gave. *)
Fixpoint declare_all (decls : list (pyclass * AliasesArg)) (dm : DeviceManager)
  : DeviceManager :=
  match decls with
  | [] => dm
  | (cls, arg) :: rest => declare_all rest (decl_manager (__init_subclass__ cls arg dm))
  end.

(** The registration of the aliases [items], in order, from [a]: every
    call returns, and the aliases are left as [a']. *)
Inductive registered (mro : string) : list PyVal -> Aliases -> Aliases -> Prop :=
| registered_nil : forall a, registered mro [] a a
| registered_cons : forall alias rest a a1 a',
    registerClassAlias alias mro a = (Return tt, a1) ->
    registered mro rest a1 a' ->
    registered mro (alias :: rest) a a'.

End Registration.
End BaseDevice.

(** ** [BaseResponseDevice] *)

Module BaseResponseDevice.
Section Methods.
Context {World Liaison : Type}.
Local Open Scope py_scope.

Abbreviation M := (M World Liaison).
Abbreviation DeviceClass := (DeviceClass World Liaison).
Abbreviation Handle := (Handle World).

(** [from . import listener as lsnr] *)
Variable lsnr : ListenerModule World Liaison.

(** [__init__]: [self.listeners = []; self.responses = []] *)
Definition __init__ (liaison : option Liaison) (w : World) : State World Liaison :=
  {| responses := []; listeners := []; DeviceManager_liaison := liaison; world := w |}.

(** [dispatchMessages]: [pass] *)
Definition dispatchMessages : M unit := ret tt.

(** [parseMessage] *)
Definition parseMessage (message : PyVal) : M PyVal :=
  raise (NotImplementedError
    "All subclasses of BaseDevice must implement the method `parseMessage`").

(** The message of the assertion in [receiveMessage], after [format]. *)
Definition receiveMessage_error (ownType targetType msgType : string) : string :=
  (ownType ++ ".receiveMessage() can only receive messages of type " ++ targetType
   ++ ", instead received " ++ msgType
   ++ ". Try parsing the message first using " ++ ownType ++ ".parseMessage()")%string.

(** [listener.receiveMessage(message)] *)
Definition call_receiveMessage (listener : Handle) (message : PyVal) : M unit :=
  match listener with
  | HListener l => call_out (CallReceiveMessage l message) (l_receiveMessage l message)
  | HValue v => raise (AttributeError (no_attribute (type_of v) "receiveMessage"))
  end.

(** [receiveMessage] *)
Definition receiveMessage (self : DeviceClass) (message : PyVal) : M bool :=
  py_assert (isinstance message (rc_class (responseClass self)))
    (receiveMessage_error (cls_name (dc_class self))
       (cls_name (rc_class (responseClass self)))
       (cls_name (type_of message))) ;;
  (* add message to responses *)
  modify (fun st => set_responses (responses st ++ [message]) st) ;;
  (* relay message to listener *)
  ls <- gets listeners ;;
  for_each ls (fun listener => call_receiveMessage listener message) ;;
  ret true.

(** [makeResponse] *)
Definition makeResponse (self : DeviceClass) (args : list PyVal)
    (kwargs : list (string * PyVal)) : M PyVal :=
  (* create response *)
  resp <- lift (construct (responseClass self) args kwargs) ;;
  (* receive response *)
  receiveMessage self resp ;;
  ret resp.

(** [self.dispatchMessages()] *)
Definition call_dispatchMessages (self : DeviceClass) : M unit :=
  fun st =>
    let o := resolve (override_dispatchMessages self) dispatchMessages st in
    mkOut (out_res o) (out_state o) [CallDispatchMessages (out_calls o)].

(** [clearResponses] *)
Definition clearResponses (self : DeviceClass) : M bool :=
  (* try to dispatch messages *)
  try_except_pass (call_dispatchMessages self) ;;
  (* clear resp list *)
  modify (set_responses []) ;;
  ret true.

(** [getListenerNames] *)
Definition getListenerNames : M (list string) :=
  ls <- gets listeners ;;
  ret (map (fun l => cls_name (handle_type l)) ls).

(** [listener.startLoop(self)] *)
Definition call_startLoop (listener : Handle) : M unit :=
  match listener with
  | HListener l =>
      match l_startLoop l with
      | Some f => call_out (CallStartLoop l) f
      | None => raise (AttributeError (no_attribute (l_class l) "startLoop"))
      end
  | HValue v => raise (AttributeError (no_attribute (type_of v) "startLoop"))
  end.

(** The first block of [addListener] ("make listener if needed"): the
    value [listener] holds after it. *)
Definition make_listener (listener : Handle) : M Handle :=
  if negb (issubclass (handle_type listener) BaseListener) then
    (* if given a string rather than an object handle, make an object of correct type *)
    listener <-
      (if handle_eq_str listener "liaison" then
         liaison <- gets DeviceManager_liaison ;;
         match liaison with
         | None =>
             raise (AttributeError
               "Cannot create a `liaison` listener as no liaison server is connected to DeviceManager.")
         | Some server => ret (HListener (LiaisonListener lsnr server))
         end
       else ret listener) ;;
    listener <-
      (if handle_eq_str listener "print" then ret (HListener (PrintListener lsnr))
       else ret listener) ;;
    listener <-
      (if handle_eq_str listener "log" then ret (HListener (LoggingListener lsnr))
       else ret listener) ;;
    ret listener
  else ret listener.

(** [addListener] *)
Definition addListener (self : DeviceClass) (listener : Handle) (startLoop : bool)
  : M Handle :=
  (* make listener if needed *)
  listener <- make_listener listener ;;
  (* add listener handle *)
  modify (fun st => set_listeners (listeners st ++ [listener]) st) ;;
  (* start loop if requested *)
  (if startLoop then call_startLoop listener else ret tt) ;;
  ret listener.

(** [listener.loop.removeDevice(listener)] *)
Definition call_removeDevice (listener : Handle) : M unit :=
  match listener with
  | HListener l =>
      match l_loop l with
      | Some loop => call_out (CallRemoveDevice l) (removeDevice loop)
      | None => raise (AttributeError (no_attribute (l_class l) "loop"))
      end
  | HValue v => raise (AttributeError (no_attribute (type_of v) "loop"))
  end.

(** [clearListeners] *)
Definition clearListeners (self : DeviceClass) : M bool :=
  (* remove listeners from loop *)
  ls <- gets listeners ;;
  for_each ls call_removeDevice ;;
  (* clear list *)
  modify (set_listeners []) ;;
  ret true.

(** The class itself: [responseClass = BaseResponse], nothing overridden. *)
Definition cls : DeviceClass :=
  {| dc_class := PyClass "psychopy.hardware.base" "BaseResponseDevice"
                   [PyClass "psychopy.hardware.base" "BaseDevice" [object_] []] [];
     responseClass := BaseResponse.class;
     override_dispatchMessages := None;
     override_parseMessage := None;
     override_getAvailableDevices := None |}.

End Methods.
End BaseResponseDevice.

(** ** Calls resolved on a device class *)

Section Resolution.
Context {World Liaison : Type}.

(** [cls.getAvailableDevices()] *)
Definition getAvailableDevices_of (self : DeviceClass World Liaison) : M World Liaison PyVal :=
  resolve (override_getAvailableDevices self) BaseDevice.getAvailableDevices.

(** [self.parseMessage(raw)] *)
Definition parseMessage_of (self : DeviceClass World Liaison) (raw : PyVal)
  : M World Liaison PyVal :=
  resolve (override_parseMessage self) BaseResponseDevice.parseMessage raw.

(** [self.dispatchMessages()], as a caller of the device runs it. *)
Definition dispatchMessages_of (self : DeviceClass World Liaison) : M World Liaison unit :=
  resolve (override_dispatchMessages self) BaseResponseDevice.dispatchMessages.

(** The operations on a device. *)
Inductive Op : Type :=
| OpReceiveMessage (message : PyVal)
| OpMakeResponse (args : list PyVal) (kwargs : list (string * PyVal))
| OpClearResponses
| OpDispatchMessages
| OpAddListener (listener : Handle World) (startLoop : bool)
| OpClearListeners.

(** The state an operation leaves, whether it returns or raises. *)
Definition run_op (lsnr : ListenerModule World Liaison) (self : DeviceClass World Liaison)
    (op : Op) (st : State World Liaison) : State World Liaison :=
  match op with
  | OpReceiveMessage message => out_state (BaseResponseDevice.receiveMessage self message st)
  | OpMakeResponse args kwargs => out_state (BaseResponseDevice.makeResponse self args kwargs st)
  | OpClearResponses => out_state (BaseResponseDevice.clearResponses self st)
  | OpDispatchMessages => out_state (dispatchMessages_of self st)
  | OpAddListener listener startLoop =>
      out_state (BaseResponseDevice.addListener lsnr self listener startLoop st)
  | OpClearListeners => out_state (BaseResponseDevice.clearListeners self st)
  end.

Fixpoint run_ops (lsnr : ListenerModule World Liaison) (self : DeviceClass World Liaison)
    (ops : list Op) (st : State World Liaison) : State World Liaison :=
  match ops with
  | [] => st
  | op :: rest => run_ops lsnr self rest (run_op lsnr self op st)
  end.

(** A sequence of calls of [receiveMessage], one per message, each made
    whatever the previous one returned or raised. *)
Fixpoint receive_all (self : DeviceClass World Liaison) (messages : list PyVal)
    (st : State World Liaison) : State World Liaison :=
  match messages with
  | [] => st
  | m :: rest => receive_all self rest (out_state (BaseResponseDevice.receiveMessage self m st))
  end.

(** Every stored response is an instance of the device's [responseClass]. *)
Definition responses_typed (self : DeviceClass World Liaison) (st : State World Liaison) : bool :=
  forallb (fun r => isinstance r (rc_class (responseClass self))) (responses st).

(** A computation that keeps the stored responses typed. *)
Definition keeps_typed {A} (self : DeviceClass World Liaison) (m : M World Liaison A) : Prop :=
  forall st, responses_typed self st = true -> responses_typed self (out_state (m st)) = true.

(** The override of [dispatchMessages], where the class has one, keeps
    the stored responses typed. *)
Definition drain_keeps_typed (self : DeviceClass World Liaison) : Prop :=
  forall d, override_dispatchMessages self = Some d -> keeps_typed self d.

(** The relay of [message] to the listeners [ls], in order, from the
    world [w]: every one of them is a listener whose [receiveMessage]
    returns, and the relay leaves the world [w']. *)
Inductive relay_returns (message : PyVal) : list (Handle World) -> World -> World -> Prop :=
| relay_nil : forall w, relay_returns message [] w w
| relay_cons : forall l ls w w1 w',
    l_receiveMessage l message w = (Return tt, w1) ->
    relay_returns message ls w1 w' ->
    relay_returns message (HListener l :: ls) w w'.

(** [h.receiveMessage(message)] raises [e] from the world [w] and leaves
    the world [w']: a listener whose method raises, or a value that has
    no such method. *)
Inductive relay_raises (message : PyVal) : Handle World -> World -> Exn -> World -> Prop :=
| raises_listener : forall l w e w',
    l_receiveMessage l message w = (Raise e, w') ->
    relay_raises message (HListener l) w e w'
| raises_value : forall v w,
    relay_raises message (HValue v) w
      (AttributeError (no_attribute (type_of v) "receiveMessage")) w.

(** A computation that leaves the state as it is and makes no call. *)
Definition pure_m {A} (m : M World Liaison A) : Prop :=
  forall st, out_state (m st) = st /\ out_calls (m st) = [].

(** A computation that leaves [responses] as it is. *)
Definition keeps_responses {A} (m : M World Liaison A) : Prop :=
  forall st, responses (out_state (m st)) = responses st.

(** The calls of [receiveMessage] on the listeners among [hs], in order. *)
Definition receive_calls (message : PyVal) (hs : list (Handle World)) : list (Call World) :=
  flat_map (fun h => match h with
                     | HListener l => [CallReceiveMessage l message]
                     | HValue _ => []
                     end) hs.

End Resolution.

Arguments Op : clear implicits.

(** ** Auxiliary notions for the statements *)

Definition is_return {A} (r : Result A) : bool :=
  match r with
  | Return _ => true
  | Raise _ => false
  end.

(** [s] with each apostrophe turned into a double quote, to write down
    JSON text. *)
Fixpoint with_dquotes (s : string) : string :=
  match s with
  | EmptyString => EmptyString
  | String c rest =>
      String (if Ascii.eqb c "'"%char then dquote else c) (with_dquotes rest)
  end.

(** [sub] occurs in [s]. *)
Definition occurs_in (sub s : string) : Prop :=
  exists pre post, s = (pre ++ sub ++ post)%string.

Definition mem (k : string) (ks : list string) : bool := existsb (String.eqb k) ks.

(** The keys of a dictionary that starts empty and is assigned at the
    names [keys], in that order: each name once, at its first position. *)
Definition add_key (acc : list string) (k : string) : list string :=
  if mem k acc then acc else acc ++ [k].

Definition insertion_order (keys : list string) : list string :=
  fold_left add_key keys [].

(** The items [(k, value k)] for the names [ks]. *)
Definition field_items (value : string -> PyVal) (ks : list string)
  : list (string * PyVal) :=
  map (fun k => (k, value k)) ks.

(** Attribute access on the instances of the class [c] finds the class
    attribute [fields], where the instance has no attribute of that name,
    and the instance attributes named in it (the class defines [fields]
    and no descriptor of these names). *)
Definition reads_record (py : Interpreter) (c : pyclass) : Prop :=
  forall attrs,
    dict_get "fields" attrs = None ->
    py_getattr py (VInstance c attrs) "fields" = Return (VList (map VStr (cls_fields c)))
    /\ forall k v, In k (cls_fields c) -> dict_get k attrs = Some v ->
                   py_getattr py (VInstance c attrs) k = Return v.

(** The three items of the dictionary [getJSON] builds. *)
Definition envelope (name : string) (data : list (string * PyVal)) : list (string * PyVal) :=
  [("type", VStr "hardware_response"); ("class", VStr name); ("data", VDict data)].

(** The JSON text of the envelope, given the text of its [data]. *)
Definition envelope_text (name sdata : string) : string :=
  ("{" ++ json_string "type" ++ ": " ++ json_string "hardware_response" ++ ", "
   ++ json_string "class" ++ ": " ++ json_string name ++ ", "
   ++ json_string "data" ++ ": " ++ sdata ++ "}")%string.

(** The chunks [json_encode] computes for the items of a dictionary. *)
Definition json_pairs (room : nat) : list (string * PyVal) -> Result (list string) :=
  fix encode_pairs (l : list (string * PyVal)) : Result (list string) :=
    match l with
    | [] => Return []
    | (k, x) :: rest =>
        rbind (json_encode room x) (fun s =>
        rbind (encode_pairs rest) (fun ss =>
        Return ((json_string k ++ ": " ++ s)%string :: ss)))
    end.

(** The chunks [json_encode] computes for the items of a list or tuple. *)
Definition json_items (room : nat) : list PyVal -> Result (list string) :=
  fix encode_items (l : list PyVal) : Result (list string) :=
    match l with
    | [] => Return []
    | x :: rest =>
        rbind (json_encode room x) (fun s =>
        rbind (encode_items rest) (fun ss => Return (s :: ss)))
    end.

(** The two floats are the same float. *)
Definition PyFloat_eqb (a b : PyFloat) : bool :=
  match a, b with
  | FNaN, FNaN => true
  | FInfinity x, FInfinity y => Bool.eqb x y
  | FFinite r, FFinite r' => String.eqb r r'
  | _, _ => false
  end.

(** No name occurs twice. *)
Fixpoint distinct (ks : list string) : bool :=
  match ks with
  | [] => true
  | k :: rest => negb (mem k rest) && distinct rest
  end.

(** The text is a JSON number with a fraction or an exponent, which
    [json.loads] reads as a float. *)
Definition float_literal (r : string) : bool :=
  match match_number r with
  | Some (_, EmptyString, _) => false
  | Some (_, _, EmptyString) => true
  | _ => false
  end.

(** The values that JSON text gives back as they are: [None], booleans,
    integers within the limit on digits, floats, strings, and the lists
    and dictionaries of these.  A finite float is one whose text is a
    float literal of JSON that [float] reads as that float. *)
Fixpoint json_plain (py : Interpreter) (v : PyVal) : bool :=
  match v with
  | VNone | VBool _ | VStr _ => true
  | VInt z => Nat.leb (String.length (int_text (Z.abs z))) max_str_digits
  | VFloat (FFinite r) => float_literal r && PyFloat_eqb (py_float py r) (FFinite r)
  | VFloat _ => true
  | VList items => forallb (json_plain py) items
  | VDict items =>
      distinct (map fst items) && forallb (fun kv => json_plain py (snd kv)) items
  | VTuple _ | VBytes _ | VInstance _ _ => false
  end.

(** How deep the containers of a value nest. *)
Fixpoint depth (v : PyVal) : nat :=
  match v with
  | VList items | VTuple items => S (fold_right (fun x m => Nat.max (depth x) m) 0 items)
  | VDict items => S (fold_right (fun kv m => Nat.max (depth (snd kv)) m) 0 items)
  | _ => 0
  end.

(** The number of values in a value. *)
Fixpoint weight (v : PyVal) : nat :=
  match v with
  | VList items | VTuple items => S (fold_right (fun x m => weight x + m) 0 items)
  | VDict items => S (fold_right (fun kv m => weight (snd kv) + m) 0 items)
  | _ => 1
  end.

(** The text starts with a character that starts a value. *)
Definition value_start (s : string) : bool :=
  match s with
  | String c _ => negb (is_ws c || Ascii.eqb c "]"%char || Ascii.eqb c "}"%char)
  | EmptyString => false
  end.

(** The text is at its end or goes on with a comma or a closing bracket. *)
Definition delimited (rest : string) : bool :=
  match rest with
  | EmptyString => true
  | String c _ => Ascii.eqb c ","%char || Ascii.eqb c "]"%char || Ascii.eqb c "}"%char
  end.

(** What follows a number does not go on as a number. *)
Definition number_end (rest : string) : bool :=
  match rest with
  | EmptyString => true
  | String c _ =>
      negb (is_digit c || Ascii.eqb c "."%char || Ascii.eqb c "e"%char || Ascii.eqb c "E"%char
            || Ascii.eqb c "+"%char || Ascii.eqb c "-"%char)
  end.

(** The text starts as a number does: with a digit, or with a minus sign
    and a digit. *)
Definition is_number_start (s : string) : bool :=
  match s with
  | String c s' =>
      is_digit c
      || (Ascii.eqb c "-"%char
          && match s' with String c' _ => is_digit c' | EmptyString => false end)
  | EmptyString => false
  end.

(** The text [s] is read back as [x]: by a decoder with fuel and room
    for [x], before any text that goes on as after a value. *)
Definition reads_back (py : Interpreter) (x : PyVal) (s : string) : Prop :=
  value_start s = true
  /\ weight x <= String.length s
  /\ forall fuel room rest,
       weight x <= fuel -> depth x <= room -> delimited rest = true ->
       scan_once py fuel room (s ++ rest) = Scanned x rest.

(** The encoder, given room for [v], writes a text that is read back as
    [v], when [v] is a value that JSON gives back. *)
Definition decodes_back (py : Interpreter) (v : PyVal) : Prop :=
  json_plain py v = true ->
  forall room, depth v <= room ->
  exists s, json_encode room v = Return s /\ reads_back py v s.

(** ** A concrete world, for the examples *)

Module Examples.

(** The world is the list of lines the listeners have written. *)
Definition World : Type := list string.
Definition Liaison : Type := unit.

Definition idle : Effect World := fun w => (Return tt, w).

(** A listener that writes its name for each message it receives. *)
Definition recorder (name : string) : Listener World :=
  {| l_class := PyClass "psychopy.hardware.listener" name [BaseListener] [];
     l_receiveMessage := fun _ w => (Return tt, w ++ [name]);
     l_startLoop := Some idle;
     l_loop := Some {| removeDevice := idle |} |}.

Definition printer : Listener World := recorder "PrintListener".
Definition logger : Listener World := recorder "LoggingListener".

(** A listener whose [receiveMessage] raises. *)
Definition faulty : Listener World :=
  {| l_class := PyClass "psychopy.hardware.listener" "FaultyListener" [BaseListener] [];
     l_receiveMessage := fun _ w => (Raise (OtherError "RuntimeError" "listener failed"), w);
     l_startLoop := Some idle;
     l_loop := Some {| removeDevice := idle |} |}.

Definition lsnr : ListenerModule World Liaison :=
  {| LiaisonListener := fun _ => recorder "LiaisonListener";
     PrintListener := printer;
     LoggingListener := logger |}.

(** A plain [BaseResponseDevice]. *)
Definition device : DeviceClass World Liaison := BaseResponseDevice.cls.

(** A device class whose [dispatchMessages] stores a response and then
    raises. *)
Definition broken_drain : DeviceClass World Liaison :=
  {| dc_class := PyClass "tests" "BrokenDevice" [dc_class device] [];
     responseClass := BaseResponse.class;
     override_dispatchMessages :=
       Some (bind (modify (fun st => set_responses (responses st ++ [VNone]) st))
                  (fun _ => raise (OtherError "IOError" "port closed")));
     override_parseMessage := None;
     override_getAvailableDevices := None |}.

(** A device class whose [dispatchMessages] passes two pending messages
    to [receiveMessage], the second of them unparsed. *)
Definition polling : DeviceClass World Liaison :=
  {| dc_class := PyClass "tests" "PollingDevice" [dc_class device] [];
     responseClass := BaseResponse.class;
     override_dispatchMessages :=
       Some (bind (BaseResponseDevice.receiveMessage device
                     (VInstance BaseResponse.cls [("t", VInt 0); ("value", VStr "key")]))
               (fun _ =>
             bind (BaseResponseDevice.receiveMessage device (VBytes "raw"))
               (fun _ => ret tt)));
     override_parseMessage := None;
     override_getAvailableDevices := None |}.

(** A fresh device, with no liaison server connected. *)
Definition fresh : State World Liaison := BaseResponseDevice.__init__ None [].

Definition with_listeners (hs : list (Handle World)) : State World Liaison :=
  set_listeners hs fresh.

(** [BaseResponse(t=1.0, value="a")] and [BaseResponse(t=2.0, value="b")] *)
Definition resp_a : PyVal :=
  VInstance BaseResponse.cls [("t", VFloat (FFinite "1.0")); ("value", VStr "a")].
Definition resp_b : PyVal :=
  VInstance BaseResponse.cls [("t", VFloat (FFinite "2.0")); ("value", VStr "b")].

(** [BaseResponse(5, value=42)] *)
Definition resp_5_42 : PyVal :=
  VInstance BaseResponse.cls [("t", VInt 5); ("value", VInt 42)].

(** Devices with listeners attached. *)
Definition only_printer : State World Liaison := with_listeners [HListener printer].
Definition only_faulty : State World Liaison := with_listeners [HListener faulty].
Definition two_listeners : State World Liaison :=
  with_listeners [HListener printer; HListener logger].
Definition faulty_first : State World Liaison :=
  with_listeners [HListener faulty; HListener printer].
Definition faulty_second : State World Liaison :=
  with_listeners [HListener printer; HListener faulty; HListener logger].

(** [BaseResponse(t=1, value=b"k")] *)
Definition resp_bytes : PyVal :=
  VInstance BaseResponse.cls [("t", VInt 1); ("value", VBytes "k")].

(** [BaseResponse(t=10**4300, value=0)] *)
Definition resp_huge : PyVal :=
  VInstance BaseResponse.cls [("t", VInt (10 ^ 4300)); ("value", VInt 0)].

(** [BaseResponse(t=1, value=(1, 2))] *)
Definition resp_tuple : PyVal :=
  VInstance BaseResponse.cls [("t", VInt 1); ("value", VTuple [VInt 1; VInt 2])].

(** Attribute access on the records of the examples, instances of
    classes that define [fields] and no descriptor: the instance
    attribute of that name, or else the class attribute [fields]. *)
Definition instance_getattr (self : PyVal) (name : string) : Result PyVal :=
  match self with
  | VInstance c attrs =>
      match dict_get name attrs with
      | Some v => Return v
      | None =>
          if String.eqb name "fields" then Return (VList (map VStr (cls_fields c)))
          else Raise (AttributeError (no_attribute c name))
      end
  | _ => Raise (AttributeError (no_attribute (type_of self) name))
  end.

(** [format(v, '')] on the values the examples format: [None], booleans,
    integers and floats. *)
Definition example_format (v : PyVal) : Result string :=
  match v with
  | VNone => Return "None"
  | VBool true => Return "True"
  | VBool false => Return "False"
  | VInt z => json_int z
  | VFloat FNaN => Return "nan"
  | VFloat (FInfinity false) => Return "inf"
  | VFloat (FInfinity true) => Return "-inf"
  | VFloat (FFinite repr) => Return repr
  | _ => Raise (OtherError "NotImplementedError" "format of a value the examples do not format")
  end.

(** The interpreter of the examples.  The classes of its records define
    no [__iter__]; a float literal is read as the float that prints as
    that literal, which is right for the literals of the examples; the
    encoder and the decoder have room for a hundred containers, well
    within what the default recursion limit leaves them. *)
Definition python : Interpreter :=
  {| py_getattr := instance_getattr;
     py_iter_instance := fun c attrs => Raise (not_iterable (VInstance c attrs));
     py_format := example_format;
     py_float := FFinite;
     dumps_room := 100;
     loads_room := 100 |}.

End Examples.

(** ** Notions for the detaching of listeners *)

Section Removal.
Context {World : Type}.

(** The removal of the listeners [ls] from their loops, in order, from the
    world [w]: every one of them is a listener that has a loop whose
    [removeDevice] returns, and the removals leave the world [w']. *)
Inductive removal_returns : list (Handle World) -> World -> World -> Prop :=
| removal_nil : forall w, removal_returns [] w w
| removal_cons : forall l loop ls w w1 w',
    l_loop l = Some loop ->
    removeDevice loop w = (Return tt, w1) ->
    removal_returns ls w1 w' ->
    removal_returns (HListener l :: ls) w w'.

(** [h.loop.removeDevice(h)] raises [e] from the world [w] and leaves the
    world [w'], having made the calls [calls]: the [removeDevice] of the
    loop raises, or there is no [loop]. *)
Inductive removal_raises : Handle World -> World -> Exn -> World -> list (Call World) -> Prop :=
| removal_raises_loop : forall l loop w e w',
    l_loop l = Some loop ->
    removeDevice loop w = (Raise e, w') ->
    removal_raises (HListener l) w e w' [CallRemoveDevice l]
| removal_no_loop : forall l w,
    l_loop l = None ->
    removal_raises (HListener l) w (AttributeError (no_attribute (l_class l) "loop")) w []
| removal_value : forall v w,
    removal_raises (HValue v) w (AttributeError (no_attribute (type_of v) "loop")) w [].

(** The calls of [removeDevice] for the listeners among [hs], in order. *)
Definition remove_calls (hs : list (Handle World)) : list (Call World) :=
  flat_map (fun h => match h with
                     | HListener l => [CallRemoveDevice l]
                     | HValue _ => []
                     end) hs.

End Removal.

(** ** More concrete values, for the examples *)

Module MoreExamples.
Import Examples.

(** A listener whose loop refuses to let it go. *)
Definition stuck : Listener World :=
  {| l_class := PyClass "psychopy.hardware.listener" "StuckListener" [BaseListener] [];
     l_receiveMessage := fun _ w => (Return tt, w ++ ["StuckListener"]);
     l_startLoop := Some (fun w => (Raise (OtherError "RuntimeError" "no loop"), w));
     l_loop := Some {| removeDevice :=
                         fun w => (Raise (OtherError "RuntimeError" "still running"), w) |} |}.

(** A listener that writes a line when it starts its loop and when it is
    removed from it. *)
Definition looping : Listener World :=
  {| l_class := PyClass "psychopy.hardware.listener" "LoopingListener" [BaseListener] [];
     l_receiveMessage := fun _ w => (Return tt, w ++ ["received"]);
     l_startLoop := Some (fun w => (Return tt, w ++ ["started"]));
     l_loop := Some {| removeDevice := fun w => (Return tt, w ++ ["removed"]) |} |}.

(** A device with a liaison server connected. *)
Definition connected : State World Liaison := BaseResponseDevice.__init__ (Some tt) [].

(** A record of a subclass that declares a field it never sets. *)
Definition resp_incomplete : PyVal :=
  VInstance (PyClass "tests" "KeyResponse" [BaseResponse.cls] ["t"; "value"; "code"])
    [("t", VInt 1); ("value", VStr "k")].

(** [inspect.getmodule] when every class is in a loaded module named as
    its [__module__] says. *)
Definition loaded (c : pyclass) : option string := Some (cls_module c).

(** [inspect.getmodule] when no module of the package [tests] is loaded. *)
Definition loaded_but_tests (c : pyclass) : option string :=
  if String.eqb (cls_module c) "tests" then None else Some (cls_module c).

(** A manager that keeps its aliases as a list of pairs and refuses the
    empty alias. *)
Definition register (alias : PyVal) (mro : string) (a : list (PyVal * string))
  : Result unit * list (PyVal * string) :=
  match alias with
  | VStr EmptyString => (Raise (OtherError "ValueError" "empty alias"), a)
  | _ => (Return tt, a ++ [(alias, mro)])
  end.

(** A manager that keeps its aliases as a list of pairs and takes any. *)
Definition register_any (alias : PyVal) (mro : string) (a : list (PyVal * string))
  : Result unit * list (PyVal * string) :=
  (Return tt, a ++ [(alias, mro)]).

(** A response class derived from [BaseResponse]. *)
Definition KeyPress : pyclass :=
  PyClass "psychopy.hardware.keyboard" "KeyPress" [BaseResponse.cls] ["t"; "value"].

Definition empty_manager : BaseDevice.DeviceManager (Aliases := list (PyVal * string)) :=
  {| BaseDevice.deviceClasses := []; BaseDevice.aliases := [] |}.

Definition keyboard_class : pyclass :=
  PyClass "psychopy.hardware.keyboard" "KeyboardDevice" [dc_class device] [].

End MoreExamples.

(** * Properties *)

Lemma same_class_refl (c : pyclass) : same_class c c = true.
Proof.
  unfold same_class. now rewrite !String.eqb_refl.
Qed.

Lemma issubclass_refl (c : pyclass) : issubclass c c = true.
Proof.
  destruct c as [m n bs fs]. cbn [issubclass].
  now rewrite same_class_refl.
Qed.

Lemma isinstance_construct (rc : RespClass) args kwargs (r : PyVal) :
  construct rc args kwargs = Return r -> isinstance r (rc_class rc) = true.
Proof.
  unfold construct, rbind. destruct (rc_init rc args kwargs); intros H; inversion H.
  apply issubclass_refl.
Qed.

Lemma string_app_assoc (a b c : string) : ((a ++ b) ++ c = a ++ b ++ c)%string.
Proof.
  induction a as [|x a IH]; cbn; [reflexivity | now rewrite IH].
Qed.

Lemma string_length_app (a b : string) :
  String.length (a ++ b) = String.length a + String.length b.
Proof. induction a as [|c a IH]; cbn; [reflexivity | now rewrite IH]. Qed.

Lemma string_app_nil (a : string) : (a ++ EmptyString)%string = a.
Proof. induction a as [|c a IH]; cbn; [reflexivity | now rewrite IH]. Qed.

Lemma mem_app k a b : mem k (a ++ b) = mem k a || mem k b.
Proof. apply existsb_app. Qed.

Lemma mem_In k ks : mem k ks = true <-> In k ks.
Proof.
  unfold mem. rewrite existsb_exists. split.
  - intros [x [Hin Heq]]. apply String.eqb_eq in Heq. now subst.
  - intros Hin. exists k. split; [exact Hin | apply String.eqb_refl].
Qed.

(** ** [json.loads] reads back what [json.dumps] writes *)



Lemma scanstring_escape_char c tail :
  scanstring (escape_char c ++ tail) = scan_map (String c) (scanstring tail).
Proof. destruct c as [[] [] [] [] [] [] [] []]; reflexivity. Qed.

Lemma scanstring_escape_string s rest :
  scanstring (escape_string s ++ String dquote rest) = Scanned s rest.
Proof.
  induction s as [|c s IH]; cbn [escape_string append].
  - reflexivity.
  - rewrite string_app_assoc, scanstring_escape_char, IH. reflexivity.
Qed.

Lemma scan_json_string s rest :
  exists tail, (json_string s ++ rest)%string = String dquote tail
               /\ scanstring tail = Scanned s rest.
Proof.
  exists (escape_string s ++ String dquote rest)%string. split.
  - unfold json_string. cbn [append]. now rewrite string_app_assoc.
  - apply scanstring_escape_string.
Qed.

Lemma span_digits_split s : forall d r, span_digits s = (d, r) -> s = (d ++ r)%string.
Proof.
  induction s as [|c s IH]; cbn [span_digits]; intros d r H.
  - now inversion H.
  - destruct (is_digit c).
    + destruct (span_digits s) as [d' r'] eqn:E. inversion H; subst. cbn. f_equal. now apply IH.
    + now inversion H.
Qed.

Lemma span_digits_app rest s : number_end rest = true ->
  forall d r, span_digits s = (d, r) -> span_digits (s ++ rest) = (d, (r ++ rest)%string).
Proof.
  intros Hend. induction s as [|c s IH]; cbn [span_digits append]; intros d r H.
  - inversion H; subst. cbn [append]. destruct rest as [|c rest]; [reflexivity|].
    cbn [span_digits]. cbn [number_end] in Hend.
    destruct (is_digit c); [discriminate | reflexivity].
  - destruct (is_digit c).
    + destruct (span_digits s) as [d' r'] eqn:E. inversion H; subst.
      now rewrite (IH _ _ eq_refl).
    + now inversion H.
Qed.

Lemma match_int_split s i r : match_int s = Some (i, r) -> s = (i ++ r)%string.
Proof.
  destruct s as [|c s]; cbn [match_int]; [discriminate|].
  destruct (Ascii.eqb c "0"%char).
  - intros H; now inversion H.
  - destruct (is_digit c); [|discriminate].
    destruct (span_digits s) as [d' r'] eqn:E. intros H; inversion H; subst.
    cbn. f_equal. now apply span_digits_split.
Qed.

Lemma match_int_app rest s i r : number_end rest = true ->
  match_int s = Some (i, r) -> match_int (s ++ rest) = Some (i, (r ++ rest)%string).
Proof.
  intros Hend. destruct s as [|c s]; cbn [match_int append]; [discriminate|].
  destruct (Ascii.eqb c "0"%char).
  - intros H; now inversion H.
  - destruct (is_digit c); [|discriminate].
    destruct (span_digits s) as [d' r'] eqn:E. intros H; inversion H; subst.
    now rewrite (span_digits_app rest s Hend _ _ E).
Qed.

Lemma match_frac_split s f r : match_frac s = (f, r) -> s = (f ++ r)%string.
Proof.
  destruct s as [|c s]; cbn [match_frac]; [intros H; now inversion H|].
  destruct (Ascii.eqb c "."%char); [|intros H; now inversion H].
  destruct (span_digits s) as [d' r'] eqn:E.
  destruct d'; intros [= <- <-]; [reflexivity|].
  cbn. f_equal. now apply (span_digits_split s (String a d') r').
Qed.

Lemma match_frac_app rest s f r : number_end rest = true ->
  match_frac s = (f, r) -> match_frac (s ++ rest) = (f, (r ++ rest)%string).
Proof.
  intros Hend. destruct s as [|c s]; cbn [match_frac append].
  - intros H; inversion H; subst. cbn [append]. destruct rest as [|c rest]; [reflexivity|].
    cbn [match_frac]. cbn [number_end] in Hend.
    destruct (Ascii.eqb c "."%char); [|reflexivity].
    rewrite !orb_true_r in Hend. cbn in Hend. discriminate.
  - destruct (Ascii.eqb c "."%char); [|intros H; now inversion H].
    destruct (span_digits s) as [d' r'] eqn:E.
    rewrite (span_digits_app rest s Hend _ _ E).
    destruct d'; intros H; now inversion H.
Qed.

Lemma match_exp_split s e r : match_exp s = (e, r) -> s = (e ++ r)%string.
Proof.
  destruct s as [|c s]; cbn [match_exp]; [intros H; now inversion H|].
  destruct (Ascii.eqb c "e"%char || Ascii.eqb c "E"%char); [|intros H; now inversion H].
  destruct s as [|g s'].
  - cbn. intros H; now inversion H.
  - destruct (Ascii.eqb g "+"%char || Ascii.eqb g "-"%char).
    + destruct (span_digits s') as [d' r'] eqn:E.
      destruct d'; intros [= <- <-]; [reflexivity|].
      cbn. do 2 f_equal. now apply (span_digits_split s' (String a d') r').
    + destruct (span_digits (String g s')) as [d' r'] eqn:E.
      destruct d'; intros [= <- <-]; [reflexivity|].
      cbn [append]. f_equal. now apply (span_digits_split (String g s') (String a d') r').
Qed.

Lemma match_exp_app rest s e r : number_end rest = true ->
  match_exp s = (e, r) -> match_exp (s ++ rest) = (e, (r ++ rest)%string).
Proof.
  intros Hend. destruct s as [|c s]; cbn [match_exp append].
  - intros H; inversion H; subst. cbn [append]. destruct rest as [|c rest]; [reflexivity|].
    cbn [match_exp]. cbn [number_end] in Hend.
    destruct (Ascii.eqb c "e"%char); [rewrite !orb_true_r in Hend; discriminate|].
    destruct (Ascii.eqb c "E"%char); [rewrite !orb_true_r in Hend; discriminate|].
    reflexivity.
  - destruct (Ascii.eqb c "e"%char || Ascii.eqb c "E"%char); [|intros H; now inversion H].
    destruct s as [|g s'].
    + cbn [append span_digits]. intros H; inversion H; subst. cbn [append].
      destruct rest as [|c' rest]; [reflexivity|].
      cbn [number_end] in Hend.
      destruct (is_digit c') eqn:Ed; [discriminate|].
      destruct (Ascii.eqb c' "+"%char || Ascii.eqb c' "-"%char) eqn:Hsign.
      * rewrite !orb_false_l in Hend.
        destruct (Ascii.eqb c' "."%char); [discriminate|].
        destruct (Ascii.eqb c' "e"%char); [discriminate|].
        destruct (Ascii.eqb c' "E"%char); [discriminate|].
        cbn in Hend, Hsign. rewrite Hsign in Hend. discriminate.
      * cbn [span_digits]. now rewrite Ed.
    + cbn [append]. destruct (Ascii.eqb g "+"%char || Ascii.eqb g "-"%char).
      * destruct (span_digits s') as [d' r'] eqn:E.
        rewrite (span_digits_app rest s' Hend _ _ E).
        destruct d'; intros H; now inversion H.
      * destruct (span_digits (String g s')) as [d' r'] eqn:E.
        pose proof (span_digits_app rest (String g s') Hend _ _ E) as E'.
        cbn [append] in E'. rewrite E'.
        destruct d'; intros H; now inversion H.
Qed.


Lemma match_number_split s i fe r :
  match_number s = Some (i, fe, r) -> s = (i ++ fe ++ r)%string.
Proof.
  unfold match_number.
  set (p := match s with
            | String c rest =>
                if Ascii.eqb c "-"%char then (String c EmptyString, rest) else (EmptyString, s)
            | EmptyString => (EmptyString, s)
            end).
  assert (Hp : s = (fst p ++ snd p)%string).
  { subst p. destruct s as [|c rest]; [reflexivity|].
    destruct (Ascii.eqb c "-"%char); reflexivity. }
  destruct p as [sign s1]. cbn [fst snd] in Hp.
  destruct (match_int s1) as [[i0 s2]|] eqn:Ei; [|discriminate].
  destruct (match_frac s2) as [f s3] eqn:Ef.
  destruct (match_exp s3) as [e s4] eqn:Ee.
  intros [= <- <- <-].
  rewrite Hp, (match_int_split _ _ _ Ei), (match_frac_split _ _ _ Ef),
    (match_exp_split _ _ _ Ee).
  now rewrite !string_app_assoc.
Qed.

Lemma match_number_app rest s i fe r : number_end rest = true ->
  match_number s = Some (i, fe, r) ->
  match_number (s ++ rest) = Some (i, fe, (r ++ rest)%string).
Proof.
  intros Hend. unfold match_number.
  destruct s as [|c s'].
  - cbn [match_int]. discriminate.
  - cbn [append]. destruct (Ascii.eqb c "-"%char).
    + destruct (match_int s') as [[i0 s2]|] eqn:Ei; [|discriminate].
      rewrite (match_int_app rest _ _ _ Hend Ei).
      destruct (match_frac s2) as [f s3] eqn:Ef.
      rewrite (match_frac_app rest _ _ _ Hend Ef).
      destruct (match_exp s3) as [e s4] eqn:Ee.
      rewrite (match_exp_app rest _ _ _ Hend Ee).
      now intros [= <- <- <-].
    + destruct (match_int (String c s')) as [[i0 s2]|] eqn:Ei; [|discriminate].
      pose proof (match_int_app rest _ _ _ Hend Ei) as Ei'. cbn [append] in Ei'.
      rewrite Ei'.
      destruct (match_frac s2) as [f s3] eqn:Ef.
      rewrite (match_frac_app rest _ _ _ Hend Ef).
      destruct (match_exp s3) as [e s4] eqn:Ee.
      rewrite (match_exp_app rest _ _ _ Hend Ee).
      now intros [= <- <- <-].
Qed.

Lemma match_int_start s x : match_int s = Some x ->
  match s with String c _ => is_digit c = true | EmptyString => False end.
Proof.
  destruct s as [|c s]; cbn [match_int]; [discriminate|].
  destruct (Ascii.eqb c "0"%char) eqn:E0.
  - intros _. apply Ascii.eqb_eq in E0. now subst c.
  - destruct (is_digit c); [reflexivity | discriminate].
Qed.

Lemma match_number_start s x : match_number s = Some x -> is_number_start s = true.
Proof.
  unfold match_number, is_number_start. destruct s as [|c s'].
  - cbn. discriminate.
  - destruct (Ascii.eqb c "-"%char).
    + destruct (match_int s') as [y|] eqn:Ei; [|discriminate]. intros _.
      apply match_int_start in Ei. destruct s'; [contradiction|]. rewrite Ei.
      cbn. now rewrite orb_true_r.
    + destruct (match_int (String c s')) as [y|] eqn:Ei; [|discriminate]. intros _.
      apply match_int_start in Ei. now rewrite Ei.
Qed.

Lemma is_number_start_app s rest :
  is_number_start s = true -> is_number_start (s ++ rest) = true.
Proof.
  destruct s as [|c s']; cbn [is_number_start append]; [discriminate|].
  destruct (is_digit c); [reflexivity|]. cbn [orb].
  destruct (Ascii.eqb c "-"%char); [|discriminate]. cbn [andb].
  destruct s'; [discriminate|]. now cbn [append].
Qed.

Lemma after_prefix_head c' p' c s : c' <> c -> after_prefix (String c' p') (String c s) = None.
Proof.
  intros Hne. cbn [after_prefix].
  destruct (Ascii.eqb_spec c' c); [contradiction | reflexivity].
Qed.

Lemma after_prefix_minus p' s : after_prefix (String "-"%char p') (String "-"%char s)
                                = after_prefix p' s.
Proof. reflexivity. Qed.

(** A text that starts like a number is none of the constants. *)
Lemma number_start_scalar py s : is_number_start s = true ->
  scan_scalar py s
  = match match_number s with
    | Some (i, EmptyString, rest) =>
        match int_of_text i with
        | Return z => Scanned (VInt z) rest
        | Raise e => ScanRaise e
        end
    | Some (i, fe, rest) => Scanned (VFloat (py_float py (i ++ fe))) rest
    | None => ScanRaise (JSONDecodeError "Expecting value")
    end.
Proof.
  destruct s as [|c s']; [discriminate|].
  unfold is_number_start.
  destruct (is_digit c) eqn:Ed.
  - intros _. unfold scan_scalar.
    rewrite !after_prefix_head; [reflexivity | intros <-; discriminate Ed ..].
  - cbn [orb]. destruct (Ascii.eqb_spec c "-"%char) as [->|]; [|discriminate].
    cbn [andb]. destruct s' as [|c' s'']; [discriminate|]. intros Hd.
    unfold scan_scalar.
    rewrite after_prefix_minus.
    rewrite !after_prefix_head; [reflexivity | try discriminate ..].
    intros <-. discriminate Hd.
Qed.

Lemma number_start_scan py fuel room s : is_number_start s = true ->
  scan_once py (S fuel) room s = scan_scalar py s.
Proof.
  destruct s as [|c s']; [discriminate|]. unfold is_number_start.
  intros H. cbn [scan_once].
  assert (Hc : is_digit c = true \/ c = "-"%char).
  { destruct (is_digit c); [now left|]. cbn [orb] in H.
    destruct (Ascii.eqb_spec c "-"%char); [now right | discriminate]. }
  assert (Hq : Ascii.eqb c dquote = false).
  { destruct (Ascii.eqb_spec c dquote) as [->|]; [|reflexivity].
    destruct Hc as [Hc|Hc]; discriminate Hc. }
  assert (Hb : Ascii.eqb c "{"%char = false).
  { destruct (Ascii.eqb_spec c "{"%char) as [->|]; [|reflexivity].
    destruct Hc as [Hc|Hc]; discriminate Hc. }
  assert (Hk : Ascii.eqb c "["%char = false).
  { destruct (Ascii.eqb_spec c "["%char) as [->|]; [|reflexivity].
    destruct Hc as [Hc|Hc]; discriminate Hc. }
  now rewrite Hq, Hb, Hk.
Qed.

(** *** Integers *)

Lemma span_digits_uint d :
  span_digits (NilEmpty.string_of_uint d) = (NilEmpty.string_of_uint d, EmptyString).
Proof.
  induction d; cbn [NilEmpty.string_of_uint span_digits]; try reflexivity;
    (change (is_digit _) with true; cbv iota; now rewrite IHd).
Qed.

Lemma to_uint_no_leading_zero p u : Pos.to_uint p <> Decimal.D0 u.
Proof.
  intros H.
  pose proof (DecimalPos.Unsigned.to_of (Pos.to_uint p)) as Hnorm.
  rewrite DecimalPos.Unsigned.of_to in Hnorm. cbn [N.to_uint] in Hnorm.
  rewrite H in Hnorm. rewrite DecimalFacts.unorm_D0 in Hnorm.
  destruct (Decimal.uint_eq_dec u Decimal.Nil) as [->|Hu].
  - apply (DecimalPos.Unsigned.to_uint_nonzero p). exact H.
  - pose proof (DecimalFacts.nb_digits_unorm u Hu) as Hle.
    rewrite <- Hnorm in Hle. cbn [Decimal.nb_digits] in Hle. lia.
Qed.

Lemma match_int_to_uint p :
  match_int (NilEmpty.string_of_uint (Pos.to_uint p))
  = Some (NilEmpty.string_of_uint (Pos.to_uint p), EmptyString).
Proof.
  pose proof (to_uint_no_leading_zero p) as H0.
  pose proof (DecimalPos.Unsigned.to_uint_nonnil p) as Hn.
  destruct (Pos.to_uint p) as [|u|u|u|u|u|u|u|u|u|u];
    [now destruct Hn | now destruct (H0 u) | ..];
    cbn [NilEmpty.string_of_uint match_int]; change (Ascii.eqb _ _) with false;
    change (is_digit _) with true; cbv iota; now rewrite span_digits_uint.
Qed.

Lemma uint_text_nonnil p :
  NilZero.string_of_uint (Pos.to_uint p) = NilEmpty.string_of_uint (Pos.to_uint p).
Proof.
  pose proof (DecimalPos.Unsigned.to_uint_nonnil p) as Hn.
  destruct (Pos.to_uint p); [now destruct Hn | reflexivity ..].
Qed.

Lemma match_number_int_text z :
  match_number (int_text z) = Some (int_text z, EmptyString, EmptyString).
Proof.
  unfold int_text. destruct z as [|p|p]; cbn [Z.to_int NilZero.string_of_int].
  - reflexivity.
  - rewrite uint_text_nonnil. unfold match_number.
    pose proof (match_int_to_uint p) as Hm.
    pose proof (match_int_start _ _ Hm) as Hs.
    destruct (NilEmpty.string_of_uint (Pos.to_uint p)) as [|c s] eqn:E; [contradiction|].
    destruct (Ascii.eqb_spec c "-"%char) as [->|]; [discriminate Hs|].
    rewrite Hm. reflexivity.
  - rewrite uint_text_nonnil. unfold match_number.
    change (Ascii.eqb "-"%char "-"%char) with true. cbv iota.
    rewrite match_int_to_uint. reflexivity.
Qed.

Lemma int_of_text_int_text z :
  (String.length (int_text (Z.abs z)) <= max_str_digits)%nat ->
  int_of_text (int_text z) = Return z.
Proof.
  intros Hlen. unfold int_of_text.
  assert (Hdigits : match int_text z with
                    | String c rest => if Ascii.eqb c "-"%char then rest else int_text z
                    | EmptyString => int_text z
                    end = int_text (Z.abs z)).
  { unfold int_text. destruct z as [|p|p]; cbn [Z.abs Z.to_int NilZero.string_of_int].
    - reflexivity.
    - rewrite uint_text_nonnil.
      pose proof (match_int_start _ _ (match_int_to_uint p)) as Hs.
      destruct (NilEmpty.string_of_uint (Pos.to_uint p)) as [|c s] eqn:E; [contradiction|].
      destruct (Ascii.eqb_spec c "-"%char) as [->|]; [discriminate Hs | reflexivity].
    - reflexivity. }
  rewrite Hdigits.
  destruct (Nat.ltb_spec max_str_digits (String.length (int_text (Z.abs z)))) as [Hlt|_];
    [lia|].
  unfold int_text. rewrite NilZero.isi.
  - now rewrite DecimalZ.of_to.
  - destruct z as [|p|p]; cbn [Z.to_int]; try discriminate.
    intros [= H]. exact (DecimalPos.Unsigned.to_uint_nonnil p H).
  - destruct z as [|p|p]; cbn [Z.to_int]; try discriminate.
    intros [= H]. exact (DecimalPos.Unsigned.to_uint_nonnil p H).
Qed.


Section PyValInduction.
Variable P : PyVal -> Prop.
Hypothesis HNone : P VNone.
Hypothesis HBool : forall b, P (VBool b).
Hypothesis HInt : forall z, P (VInt z).
Hypothesis HFloat : forall f, P (VFloat f).
Hypothesis HStr : forall s, P (VStr s).
Hypothesis HBytes : forall s, P (VBytes s).
Hypothesis HList : forall items, Forall P items -> P (VList items).
Hypothesis HTuple : forall items, Forall P items -> P (VTuple items).
Hypothesis HDict : forall items, Forall (fun kv => P (snd kv)) items -> P (VDict items).
Hypothesis HInstance :
  forall c attrs, Forall (fun kv => P (snd kv)) attrs -> P (VInstance c attrs).

(** Induction on a value, with the property for the values held inside it. *)
Lemma PyVal_nested_ind : forall v, P v.
Proof.
  fix IH 1. intros [ | b | z | f | s | s | items | items | items | c attrs].
  - exact HNone.
  - apply HBool.
  - apply HInt.
  - apply HFloat.
  - apply HStr.
  - apply HBytes.
  - apply HList. induction items as [|x rest IHrest]; constructor; [apply IH | exact IHrest].
  - apply HTuple. induction items as [|x rest IHrest]; constructor; [apply IH | exact IHrest].
  - apply HDict. induction items as [|[k x] rest IHrest]; constructor; [apply IH | exact IHrest].
  - apply HInstance.
    induction attrs as [|[k x] rest IHrest]; constructor; [apply IH | exact IHrest].
Qed.
End PyValInduction.




Lemma json_encode_list room items :
  json_encode (S room) (VList items)
  = rbind (json_items room items)
      (fun chunks => Return ("[" ++ String.concat ", " chunks ++ "]")%string).
Proof. reflexivity. Qed.

Lemma json_encode_tuple room items :
  json_encode (S room) (VTuple items)
  = rbind (json_items room items)
      (fun chunks => Return ("[" ++ String.concat ", " chunks ++ "]")%string).
Proof. reflexivity. Qed.

Lemma json_encode_dict room items :
  json_encode (S room) (VDict items)
  = rbind (json_pairs room items)
      (fun chunks => Return ("{" ++ String.concat ", " chunks ++ "}")%string).
Proof. reflexivity. Qed.

Lemma delimited_number_end rest : delimited rest = true -> number_end rest = true.
Proof.
  destruct rest as [|c rest]; [reflexivity|]. cbn [delimited number_end].
  intros H. apply orb_true_iff in H as [H|H]; [apply orb_true_iff in H as [H|H]|];
    apply Ascii.eqb_eq in H; subst c; reflexivity.
Qed.

Lemma delimited_skip_ws rest : delimited rest = true -> skip_ws rest = rest.
Proof.
  destruct rest as [|c rest]; [reflexivity|]. cbn [delimited skip_ws].
  intros H. apply orb_true_iff in H as [H|H]; [apply orb_true_iff in H as [H|H]|];
    apply Ascii.eqb_eq in H; subst c; reflexivity.
Qed.

Lemma value_start_skip_ws s rest : value_start s = true -> skip_ws (s ++ rest) = (s ++ rest)%string.
Proof.
  destruct s as [|c s]; [discriminate|]. cbn [value_start append skip_ws].
  destruct (is_ws c); [discriminate | reflexivity].
Qed.

Lemma value_start_not_closing s rest : value_start s = true ->
  exists c tail, (s ++ rest)%string = String c tail
                 /\ Ascii.eqb c "]"%char = false /\ Ascii.eqb c "}"%char = false.
Proof.
  destruct s as [|c s]; [discriminate|]. cbn [value_start append].
  intros H. exists c, (s ++ rest)%string. apply negb_true_iff in H.
  apply orb_false_iff in H as [H H2]. apply orb_false_iff in H as [_ H1]. auto.
Qed.

Lemma number_start_value_start s : is_number_start s = true -> value_start s = true.
Proof.
  destruct s as [|c s]; [discriminate|]. cbn [is_number_start value_start].
  intros H. apply orb_true_iff in H as [H|H].
  - destruct c as [[] [] [] [] [] [] [] []]; try discriminate H; reflexivity.
  - apply andb_true_iff in H as [H _]. apply Ascii.eqb_eq in H. now subst c.
Qed.

(** The round trip of one scalar. *)

Lemma scan_int py fuel room z rest :
  (String.length (int_text (Z.abs z)) <= max_str_digits)%nat ->
  delimited rest = true ->
  scan_once py (S fuel) room (int_text z ++ rest) = Scanned (VInt z) rest.
Proof.
  intros Hlen Hend.
  pose proof (match_number_int_text z) as Hm.
  pose proof (match_number_start _ _ Hm) as Hs.
  rewrite (number_start_scan py fuel room _ (is_number_start_app _ rest Hs)).
  rewrite (number_start_scalar py _ (is_number_start_app _ rest Hs)).
  rewrite (match_number_app rest _ _ _ _ (delimited_number_end _ Hend) Hm).
  cbn [append]. now rewrite (int_of_text_int_text z Hlen).
Qed.

Lemma scan_float py fuel room r rest :
  float_literal r = true -> py_float py r = FFinite r ->
  delimited rest = true ->
  scan_once py (S fuel) room (r ++ rest) = Scanned (VFloat (FFinite r)) rest.
Proof.
  intros Hlit Hfloat Hend. unfold float_literal in Hlit.
  destruct (match_number r) as [[[i fe] tail]|] eqn:Hm; [|discriminate].
  destruct fe as [|c fe]; [discriminate|]. destruct tail; [|discriminate].
  pose proof (match_number_start _ _ Hm) as Hs.
  rewrite (number_start_scan py fuel room _ (is_number_start_app _ rest Hs)).
  rewrite (number_start_scalar py _ (is_number_start_app _ rest Hs)).
  rewrite (match_number_app rest _ _ _ _ (delimited_number_end _ Hend) Hm).
  cbn [append]. pose proof (match_number_split _ _ _ _ Hm) as Hr.
  rewrite string_app_nil in Hr. rewrite <- Hr. now rewrite Hfloat.
Qed.

Lemma float_literal_start r : float_literal r = true -> is_number_start r = true.
Proof.
  unfold float_literal. destruct (match_number r) as [x|] eqn:Hm; [|discriminate].
  intros _. exact (match_number_start _ _ Hm).
Qed.

Lemma skip_ws_space s : skip_ws (String " "%char s) = skip_ws s.
Proof. reflexivity. Qed.

(** The items of a list and the pairs of a dictionary. *)

Lemma array_items_roundtrip (scan : string -> Scan PyVal) items chunks rest :
  Forall2 (fun x s => value_start s = true
                      /\ forall rest, delimited rest = true ->
                                      scan (s ++ rest)%string = Scanned x rest) items chunks ->
  items <> [] ->
  forall n, length items <= n ->
  array_items scan n (String.concat ", " chunks ++ String "]"%char rest) = Scanned items rest.
Proof.
  induction 1 as [|x s items chunks [Hstart Hscan] Hrest IH]; [congruence|].
  intros _ n Hn. destruct n as [|n]; [cbn in Hn; lia|].
  cbn [array_items]. destruct Hrest as [|x' s' items' chunks' Hx' Hrest'].
  - cbn [String.concat]. rewrite (Hscan (String "]"%char rest) eq_refl). reflexivity.
  - change (String.concat ", " (s :: s' :: chunks'))
      with (s ++ ", " ++ String.concat ", " (s' :: chunks'))%string.
    rewrite !string_app_assoc. cbn [append].
    rewrite (Hscan (String ","%char _) eq_refl).
    rewrite (delimited_skip_ws (String ","%char _) eq_refl).
    change (Ascii.eqb ","%char "]"%char) with false.
    change (Ascii.eqb ","%char ","%char) with true. cbv iota.
    rewrite skip_ws_space.
    assert (Hs' : value_start (String.concat ", " (s' :: chunks')) = true).
    { destruct Hx' as [Hs' _]. destruct chunks'; cbn [String.concat]; [exact Hs'|].
      destruct s'; [discriminate | exact Hs']. }
    rewrite (value_start_skip_ws _ _ Hs').
    rewrite IH; [reflexivity | discriminate | cbn [length] in *; lia].
Qed.

Lemma object_items_roundtrip (scan : string -> Scan PyVal) items chunks rest :
  Forall2 (fun kv c => exists s, c = (json_string (fst kv) ++ ": " ++ s)%string
                      /\ value_start s = true
                      /\ forall rest, delimited rest = true ->
                                      scan (s ++ rest)%string = Scanned (snd kv) rest)
          items chunks ->
  items <> [] ->
  forall n, length items <= n ->
  object_items scan n (String.concat ", " chunks ++ String "}"%char rest) = Scanned items rest.
Proof.
  induction 1 as [|[k x] c items chunks (s & -> & Hstart & Hscan) Hrest IH]; [congruence|].
  intros _ n Hn. destruct n as [|n]; [cbn in Hn; lia|].
  cbn [fst snd] in *.
  destruct Hrest as [|[k' x'] c' items' chunks' Hx' Hrest'].
  - cbn [String.concat]. unfold json_string. cbn [append object_items].
    change (Ascii.eqb dquote dquote) with true. cbv iota.
    rewrite !string_app_assoc. cbn [append].
    rewrite scanstring_escape_string.
    change (skip_ws (String ":"%char ?r)) with (String ":"%char r).
    change (Ascii.eqb ":"%char ":"%char) with true. cbv iota.
    rewrite skip_ws_space, (value_start_skip_ws _ _ Hstart).
    rewrite (Hscan (String "}"%char rest) eq_refl). reflexivity.
  - change (String.concat ", " ((json_string k ++ ": " ++ s)%string :: c' :: chunks'))
      with ((json_string k ++ ": " ++ s) ++ ", " ++ String.concat ", " (c' :: chunks'))%string.
    unfold json_string at 1. cbn [append object_items].
    change (Ascii.eqb dquote dquote) with true. cbv iota.
    rewrite !string_app_assoc. cbn [append].
    rewrite scanstring_escape_string.
    change (skip_ws (String ":"%char ?r)) with (String ":"%char r).
    change (Ascii.eqb ":"%char ":"%char) with true. cbv iota.
    rewrite skip_ws_space, (value_start_skip_ws _ _ Hstart).
    rewrite (Hscan (String ","%char _) eq_refl).
    rewrite (delimited_skip_ws (String ","%char _) eq_refl).
    change (Ascii.eqb ","%char "}"%char) with false.
    change (Ascii.eqb ","%char ","%char) with true. cbv iota.
    rewrite skip_ws_space.
    assert (Hc' : exists tail, String.concat ", " (c' :: chunks') = String dquote tail).
    { destruct Hx' as (s' & -> & _). unfold json_string.
      destruct chunks'; cbn [String.concat append]; eauto. }
    destruct Hc' as [tail' Hc'].
    assert (Hskip : forall r, skip_ws (String.concat ", " (c' :: chunks') ++ r)
                              = (String.concat ", " (c' :: chunks') ++ r)%string).
    { intros r. rewrite Hc'. reflexivity. }
    rewrite Hskip.
    rewrite IH; [reflexivity | discriminate | cbn [length] in *; lia].
Qed.

Lemma weight_pos v : 1 <= weight v.
Proof. destruct v; cbn [weight]; lia. Qed.

Lemma weight_In x items : In x items ->
  weight x <= fold_right (fun x m => weight x + m) 0 items.
Proof.
  induction items as [|y items IH]; cbn [In fold_right]; [contradiction|].
  intros [->|Hin]; [lia | specialize (IH Hin); lia].
Qed.

Lemma depth_In x items : In x items ->
  depth x <= fold_right (fun x m => Nat.max (depth x) m) 0 items.
Proof.
  induction items as [|y items IH]; cbn [In fold_right]; [contradiction|].
  intros [->|Hin]; [lia | specialize (IH Hin); lia].
Qed.

Lemma length_le_weights items :
  length items <= fold_right (fun x m => weight x + m) 0 items.
Proof.
  induction items as [|y items IH]; cbn [length fold_right]; [lia|].
  pose proof (weight_pos y). lia.
Qed.

Lemma weight_In_pairs (kv : string * PyVal) items : In kv items ->
  weight (snd kv) <= fold_right (fun kv m => weight (snd kv) + m) 0 items.
Proof.
  induction items as [|y items IH]; cbn [In fold_right]; [contradiction|].
  intros [->|Hin]; [lia | specialize (IH Hin); lia].
Qed.

Lemma depth_In_pairs (kv : string * PyVal) items : In kv items ->
  depth (snd kv) <= fold_right (fun kv m => Nat.max (depth (snd kv)) m) 0 items.
Proof.
  induction items as [|y items IH]; cbn [In fold_right]; [contradiction|].
  intros [->|Hin]; [lia | specialize (IH Hin); lia].
Qed.

Lemma length_le_weights_pairs (items : list (string * PyVal)) :
  length items <= fold_right (fun kv m => weight (snd kv) + m) 0 items.
Proof.
  induction items as [|y items IH]; cbn [length fold_right]; [lia|].
  pose proof (weight_pos (snd y)). lia.
Qed.

Lemma json_items_chunks py room items :
  Forall (decodes_back py) items ->
  forallb (json_plain py) items = true ->
  (forall x, In x items -> depth x <= room) ->
  exists chunks, json_items room items = Return chunks
                 /\ Forall2 (reads_back py) items chunks.
Proof.
  induction 1 as [|x items Hx _ IH]; intros Hplain Hdepth.
  - exists []. split; [reflexivity | constructor].
  - cbn [forallb] in Hplain. apply andb_true_iff in Hplain as [Hpx Hprest].
    destruct (Hx Hpx room (Hdepth x (or_introl eq_refl))) as (s & Hs & Hback).
    destruct (IH Hprest (fun y Hy => Hdepth y (or_intror Hy))) as (chunks & Hchunks & Hall).
    exists (s :: chunks). split; [|now constructor].
    change (json_items room (x :: items))
      with (rbind (json_encode room x) (fun s =>
            rbind (json_items room items) (fun ss => Return (s :: ss)))).
    now rewrite Hs, Hchunks.
Qed.

Lemma json_pairs_chunks py room (items : list (string * PyVal)) :
  Forall (fun kv => decodes_back py (snd kv)) items ->
  forallb (fun kv => json_plain py (snd kv)) items = true ->
  (forall kv, In kv items -> depth (snd kv) <= room) ->
  exists chunks, json_pairs room items = Return chunks
                 /\ Forall2 (fun kv c => exists s, c = (json_string (fst kv) ++ ": " ++ s)%string
                                                   /\ reads_back py (snd kv) s) items chunks.
Proof.
  induction 1 as [|[k x] items Hx _ IH]; intros Hplain Hdepth.
  - exists []. split; [reflexivity | constructor].
  - cbn [forallb snd] in Hplain. apply andb_true_iff in Hplain as [Hpx Hprest].
    cbn [snd] in Hx.
    destruct (Hx Hpx room (Hdepth (k, x) (or_introl eq_refl))) as (s & Hs & Hback).
    destruct (IH Hprest (fun y Hy => Hdepth y (or_intror Hy))) as (chunks & Hchunks & Hall).
    exists ((json_string k ++ ": " ++ s)%string :: chunks). split.
    + change (json_pairs room ((k, x) :: items))
        with (rbind (json_encode room x) (fun s =>
              rbind (json_pairs room items) (fun ss =>
              Return ((json_string k ++ ": " ++ s)%string :: ss)))).
      now rewrite Hs, Hchunks.
    + constructor; [|exact Hall]. exists s. now split.
Qed.

Lemma concat_length_items py items chunks :
  Forall2 (reads_back py) items chunks ->
  fold_right (fun x m => weight x + m) 0 items <= String.length (String.concat ", " chunks).
Proof.
  induction 1 as [|x s items chunks (_ & Hw & _) Hrest IH]; [cbn; lia|].
  cbn [fold_right]. destruct chunks as [|s' chunks].
  - inversion Hrest; subst. cbn [fold_right String.concat]. lia.
  - change (String.concat ", " (s :: s' :: chunks))
      with (s ++ ", " ++ String.concat ", " (s' :: chunks))%string.
    rewrite !string_length_app. lia.
Qed.

Lemma concat_length_pairs py (items : list (string * PyVal)) chunks :
  Forall2 (fun kv c => exists s, c = (json_string (fst kv) ++ ": " ++ s)%string
                                 /\ reads_back py (snd kv) s) items chunks ->
  fold_right (fun kv m => weight (snd kv) + m) 0 items
  <= String.length (String.concat ", " chunks).
Proof.
  induction 1 as [|kv c items chunks (s & -> & _ & Hw & _) Hrest IH]; [cbn; lia|].
  cbn [fold_right]. destruct chunks as [|c' chunks].
  - inversion Hrest; subst. cbn [fold_right String.concat]. rewrite !string_length_app. lia.
  - change (String.concat ", " ((json_string (fst kv) ++ ": " ++ s)%string :: c' :: chunks))
      with ((json_string (fst kv) ++ ": " ++ s) ++ ", "
            ++ String.concat ", " (c' :: chunks))%string.
    rewrite !string_length_app. lia.
Qed.

Lemma concat_value_start (P : string -> Prop) chunks :
  (forall c, In c chunks -> value_start c = true) -> chunks <> [] ->
  value_start (String.concat ", " chunks) = true.
Proof.
  destruct chunks as [|c chunks]; [congruence|]. intros H _.
  pose proof (H c (or_introl eq_refl)) as Hc.
  destruct chunks; cbn [String.concat]; [exact Hc|].
  destruct c; [discriminate | exact Hc].
Qed.

(** A dictionary without a repeated key is the dictionary of its own
    pairs. *)
Lemma dict_set_new k v (d : list (string * PyVal)) :
  mem k (map fst d) = false -> dict_set k v d = d ++ [(k, v)].
Proof.
  induction d as [|[k' w] d IH]; cbn [map fst mem existsb dict_set app]; [reflexivity|].
  fold (mem k (map fst d)). intros H. apply orb_false_iff in H as [Hk Hrest].
  rewrite Hk. now rewrite IH.
Qed.


Lemma dict_of_pairs_from (acc items : list (string * PyVal)) :
  distinct (map fst items) = true ->
  (forall k, In k (map fst items) -> mem k (map fst acc) = false) ->
  fold_left (fun d kv => dict_set (fst kv) (snd kv) d) items acc = acc ++ items.
Proof.
  revert acc. induction items as [|[k v] items IH]; intros acc Hd Hfresh; cbn [fold_left].
  - now rewrite app_nil_r.
  - cbn [map fst distinct] in Hd. apply andb_true_iff in Hd as [Hk Hd].
    apply negb_true_iff in Hk. cbn [fst snd].
    rewrite dict_set_new by (apply Hfresh; now left).
    rewrite IH; [now rewrite <- app_assoc | exact Hd |].
    intros k' Hin. rewrite map_app, mem_app. cbn [map fst mem existsb].
    rewrite (Hfresh k' (or_intror Hin)). cbn [orb]. rewrite orb_false_r.
    destruct (String.eqb_spec k' k) as [->|]; [|reflexivity].
    exfalso. assert (Hin' : mem k (map fst items) = true); [|congruence].
    apply existsb_exists. exists k. split; [exact Hin | apply String.eqb_refl].
Qed.

Lemma dict_of_pairs_distinct (items : list (string * PyVal)) :
  distinct (map fst items) = true -> dict_of_pairs items = items.
Proof.
  intros Hd. unfold dict_of_pairs. now rewrite dict_of_pairs_from.
Qed.


Lemma PyFloat_eqb_eq a b : PyFloat_eqb a b = true -> a = b.
Proof.
  destruct a as [|x|r], b as [|y|r']; cbn [PyFloat_eqb]; try discriminate; intros H.
  - reflexivity.
  - apply Bool.eqb_prop in H. now subst.
  - apply String.eqb_eq in H. now subst.
Qed.

Lemma scan_once_array py fuel room tail :
  scan_once py (S fuel) (S room) (String "["%char tail)
  = scan_map VList (parse_array (scan_once py fuel room) fuel tail).
Proof. reflexivity. Qed.

Lemma scan_once_object py fuel room tail :
  scan_once py (S fuel) (S room) (String "{"%char tail)
  = scan_map (fun pairs => VDict (dict_of_pairs pairs))
      (parse_object (scan_once py fuel room) fuel tail).
Proof. reflexivity. Qed.

Lemma scan_once_string py fuel room tail :
  scan_once py (S fuel) room (String dquote tail) = scan_map VStr (scanstring tail).
Proof. reflexivity. Qed.

Lemma parse_object_key scan n tail :
  parse_object scan n (String dquote tail) = object_items scan n (String dquote tail).
Proof. reflexivity. Qed.

Lemma decodes_back_list py items :
  Forall (decodes_back py) items -> decodes_back py (VList items).
Proof.
  intros Hall Hplain room Hroom. cbn [json_plain] in Hplain. cbn [depth] in Hroom.
  destruct room as [|room]; [lia|].
  destruct (json_items_chunks py room items Hall Hplain) as (chunks & Hchunks & Hback).
  { intros x Hin. pose proof (depth_In x items Hin). lia. }
  exists ("[" ++ String.concat ", " chunks ++ "]")%string. split.
  { rewrite json_encode_list, Hchunks. reflexivity. }
  split; [reflexivity|]. split.
  { cbn [weight]. pose proof (concat_length_items py items chunks Hback).
    cbn [append String.length]. rewrite string_length_app. cbn [String.length]. lia. }
  intros fuel droom rest Hfuel Hdroom Hend. cbn [weight] in Hfuel. cbn [depth] in Hdroom.
  destruct fuel as [|fuel]; [lia|]. destruct droom as [|droom]; [lia|].
  cbn [append]. rewrite scan_once_array, string_app_assoc. cbn [append].
  unfold parse_array.
  destruct Hback as [|x s items chunks Hx Hrest].
  - reflexivity.
  - assert (Hstart : value_start (String.concat ", " (s :: chunks)) = true).
    { destruct Hx as [Hs _]. destruct chunks; cbn [String.concat]; [exact Hs|].
      destruct s; [discriminate | exact Hs]. }
    rewrite (value_start_skip_ws _ _ Hstart).
    destruct (value_start_not_closing _ (String "]"%char rest) Hstart)
      as (c & tail & Heq & Hc & _).
    rewrite Heq, Hc, <- Heq.
    rewrite (array_items_roundtrip (scan_once py fuel droom) (x :: items) (s :: chunks) rest).
    + reflexivity.
    + assert (Hall2 : Forall2 (reads_back py) (x :: items) (s :: chunks))
        by now constructor.
      assert (Hin : forall y, In y (x :: items) -> weight y <= fuel /\ depth y <= droom).
      { intros y Hy. pose proof (weight_In y _ Hy). pose proof (depth_In y _ Hy). lia. }
      clear - Hall2 Hin. induction Hall2 as [|y t ys ts (Hs & _ & Hscan) _ IH]; constructor.
      * split; [exact Hs|]. intros r Hr.
        destruct (Hin y (or_introl eq_refl)). now apply Hscan.
      * apply IH. intros z Hz. apply Hin. now right.
    + discriminate.
    + pose proof (length_le_weights (x :: items)). lia.
Qed.

Lemma decodes_back_dict py items :
  Forall (fun kv => decodes_back py (snd kv)) items -> decodes_back py (VDict items).
Proof.
  intros Hall Hplain room Hroom. cbn [json_plain] in Hplain. cbn [depth] in Hroom.
  apply andb_true_iff in Hplain as [Hkeys Hplain].
  destruct room as [|room]; [lia|].
  destruct (json_pairs_chunks py room items Hall Hplain) as (chunks & Hchunks & Hback).
  { intros x Hin. pose proof (depth_In_pairs x items Hin). lia. }
  exists ("{" ++ String.concat ", " chunks ++ "}")%string. split.
  { rewrite json_encode_dict, Hchunks. reflexivity. }
  split; [reflexivity|]. split.
  { cbn [weight]. pose proof (concat_length_pairs py items chunks Hback).
    cbn [append String.length]. rewrite string_length_app. cbn [String.length]. lia. }
  intros fuel droom rest Hfuel Hdroom Hend. cbn [weight] in Hfuel. cbn [depth] in Hdroom.
  destruct fuel as [|fuel]; [lia|]. destruct droom as [|droom]; [lia|].
  cbn [append]. rewrite scan_once_object, string_app_assoc. cbn [append].
  destruct Hback as [|[k x] c items chunks Hx Hrest].
  - reflexivity.
  - assert (Hstart : exists tail, String.concat ", " (c :: chunks) = String dquote tail).
    { destruct Hx as (s & -> & _). unfold json_string.
      destruct chunks; cbn [String.concat append]; eauto. }
    destruct Hstart as [tail Hstart].
    assert (Hhead : (String.concat ", " (c :: chunks) ++ String "}"%char rest)%string
                    = String dquote (tail ++ String "}"%char rest)).
    { now rewrite Hstart. }
    rewrite Hhead, parse_object_key, <- Hhead.
    rewrite (object_items_roundtrip (scan_once py fuel droom) ((k, x) :: items)
               (c :: chunks) rest).
    + cbn [scan_map]. now rewrite (dict_of_pairs_distinct _ Hkeys).
    + assert (Hall2 : Forall2 (fun kv c => exists s,
                          c = (json_string (fst kv) ++ ": " ++ s)%string
                          /\ reads_back py (snd kv) s) ((k, x) :: items) (c :: chunks))
        by now constructor.
      assert (Hin : forall y, In y ((k, x) :: items) ->
                              weight (snd y) <= fuel /\ depth (snd y) <= droom).
      { intros y Hy. pose proof (weight_In_pairs y _ Hy).
        pose proof (depth_In_pairs y _ Hy). lia. }
      clear - Hall2 Hin.
      induction Hall2 as [|y t ys ts (s & -> & Hs & _ & Hscan) _ IH]; constructor.
      * exists s. split; [reflexivity|]. split; [exact Hs|]. intros r Hr.
        destruct (Hin y (or_introl eq_refl)). now apply Hscan.
      * apply IH. intros z Hz. apply Hin. now right.
    + discriminate.
    + pose proof (length_le_weights_pairs ((k, x) :: items)). lia.
Qed.

(** Each value [json.loads] can give back is read back from the text
    [json.dumps] writes for it. *)
Lemma json_decodes_back py : forall v, decodes_back py v.
Proof.
  apply PyVal_nested_ind.
  - intros _ room _. exists "null". split; [reflexivity|]. split; [reflexivity|].
    split; [cbn; lia|]. intros [|fuel] droom rest Hfuel _ _; [cbn in Hfuel; lia | reflexivity].
  - intros b _ room _. destruct b.
    + exists "true". split; [reflexivity|]. split; [reflexivity|].
      split; [cbn; lia|].
      intros [|fuel] droom rest Hfuel _ _; [cbn in Hfuel; lia | reflexivity].
    + exists "false". split; [reflexivity|]. split; [reflexivity|].
      split; [cbn; lia|].
      intros [|fuel] droom rest Hfuel _ _; [cbn in Hfuel; lia | reflexivity].
  - intros z Hplain room _. cbn [json_plain] in Hplain. apply Nat.leb_le in Hplain.
    exists (int_text z). split.
    { cbn [json_encode]. unfold json_int.
      destruct (Nat.ltb_spec max_str_digits (String.length (int_text (Z.abs z))));
        [lia | reflexivity]. }
    pose proof (match_number_start _ _ (match_number_int_text z)) as Hs.
    split; [now apply number_start_value_start|]. split.
    { cbn [weight]. destruct (int_text z); [discriminate | cbn; lia]. }
    intros [|fuel] droom rest Hfuel _ Hend; [cbn in Hfuel; lia|].
    now apply scan_int.
  - intros [ | [|] | r] Hplain room _.
    + exists "NaN". split; [reflexivity|]. split; [reflexivity|]. split; [cbn; lia|].
      intros [|fuel] droom rest Hfuel _ _; [cbn in Hfuel; lia | reflexivity].
    + exists "-Infinity". split; [reflexivity|]. split; [reflexivity|]. split; [cbn; lia|].
      intros [|fuel] droom rest Hfuel _ _; [cbn in Hfuel; lia | reflexivity].
    + exists "Infinity". split; [reflexivity|]. split; [reflexivity|]. split; [cbn; lia|].
      intros [|fuel] droom rest Hfuel _ _; [cbn in Hfuel; lia | reflexivity].
    + cbn [json_plain] in Hplain. apply andb_true_iff in Hplain as [Hlit Hfloat].
      apply PyFloat_eqb_eq in Hfloat.
      exists r. split; [reflexivity|].
      pose proof (float_literal_start _ Hlit) as Hs.
      split; [now apply number_start_value_start|]. split.
      { cbn [weight]. destruct r; [discriminate | cbn; lia]. }
      intros [|fuel] droom rest Hfuel _ Hend; [cbn in Hfuel; lia|].
      now apply scan_float.
  - intros s _ room _. exists (json_string s). split; [reflexivity|].
    split; [reflexivity|]. split; [cbn; lia|].
    intros [|fuel] droom rest Hfuel _ _; [cbn in Hfuel; lia|].
    destruct (scan_json_string s rest) as (tail & -> & Htail).
    now rewrite scan_once_string, Htail.
  - intros s Hplain. discriminate Hplain.
  - apply decodes_back_list.
  - intros items _ Hplain. discriminate Hplain.
  - apply decodes_back_dict.
  - intros c attrs _ Hplain. discriminate Hplain.
Qed.

(** [json.loads(json.dumps(v))] is [v]. *)
Lemma json_loads_dumps py v :
  json_plain py v = true -> depth v <= dumps_room py -> depth v <= loads_room py ->
  exists s, json_dumps py v = Return s /\ json_loads py s = Some (Return v).
Proof.
  intros Hplain Hd Hl.
  destruct (json_decodes_back py v Hplain (dumps_room py) Hd) as (s & Hs & Hstart & Hw & Hscan).
  exists s. split; [exact Hs|]. unfold json_loads.
  pose proof (value_start_skip_ws s EmptyString Hstart) as Hskip.
  rewrite string_app_nil in Hskip. rewrite Hskip.
  specialize (Hscan (S (String.length s)) (loads_room py) EmptyString).
  rewrite string_app_nil in Hscan. rewrite Hscan; [reflexivity | lia | exact Hl | reflexivity].
Qed.

(** ** The envelope of a response *)

Lemma mem_add_key k acc x : mem k (add_key acc x) = mem k acc || String.eqb k x.
Proof.
  unfold add_key. destruct (mem x acc) eqn:Hx.
  - destruct (String.eqb k x) eqn:Hkx; [|now rewrite orb_false_r].
    apply String.eqb_eq in Hkx. subst. now rewrite Hx.
  - rewrite mem_app. cbn. now rewrite orb_false_r.
Qed.

Lemma mem_fold_add_key k keys acc :
  mem k (fold_left add_key keys acc) = mem k acc || mem k keys.
Proof.
  revert acc. induction keys as [|x keys IH]; intros acc; cbn [fold_left].
  - cbn. now rewrite orb_false_r.
  - rewrite IH, mem_add_key. cbn. now rewrite orb_assoc.
Qed.

Lemma insertion_order_In k keys : In k (insertion_order keys) <-> In k keys.
Proof.
  unfold insertion_order. rewrite <- !mem_In, mem_fold_add_key. reflexivity.
Qed.

Lemma fold_add_key_NoDup keys : forall acc,
  NoDup (acc ++ keys) -> fold_left add_key keys acc = acc ++ keys.
Proof.
  induction keys as [|x keys IH]; intros acc Hnd; cbn [fold_left].
  - now rewrite app_nil_r.
  - assert (Hx : mem x acc = false).
    { destruct (mem x acc) eqn:E; [|reflexivity]. apply mem_In in E.
      apply NoDup_remove_2 in Hnd. exfalso. apply Hnd. apply in_or_app. now left. }
    unfold add_key. rewrite Hx, IH; rewrite <- app_assoc; [reflexivity | exact Hnd].
Qed.

Lemma insertion_order_NoDup keys : NoDup keys -> insertion_order keys = keys.
Proof.
  intros Hnd. unfold insertion_order. now rewrite fold_add_key_NoDup.
Qed.

Lemma distinct_app_one acc k :
  distinct acc = true -> mem k acc = false -> distinct (acc ++ [k]) = true.
Proof.
  induction acc as [|a acc IH]; cbn [app distinct mem existsb]; [reflexivity|].
  fold (mem k acc). intros Hd Hk.
  apply andb_true_iff in Hd as [Ha Hd]. apply orb_false_iff in Hk as [Hka Hk].
  rewrite mem_app. cbn [mem existsb]. rewrite orb_false_r.
  rewrite String.eqb_sym, Hka, orb_false_r, Ha. cbn [andb]. now apply IH.
Qed.

Lemma distinct_fold_add_key keys : forall acc,
  distinct acc = true -> distinct (fold_left add_key keys acc) = true.
Proof.
  induction keys as [|k keys IH]; intros acc Hd; cbn [fold_left]; [exact Hd|].
  apply IH. unfold add_key. destruct (mem k acc) eqn:Hk; [exact Hd|].
  now apply distinct_app_one.
Qed.

Lemma distinct_insertion_order keys : distinct (insertion_order keys) = true.
Proof. now apply distinct_fold_add_key. Qed.

Lemma dict_keys_field_items value ks : dict_keys (field_items value ks) = ks.
Proof.
  unfold dict_keys, field_items. rewrite map_map. cbn [fst]. apply map_id.
Qed.

Lemma dict_get_field_items value k ks :
  dict_get k (field_items value ks) = if mem k ks then Some (value k) else None.
Proof.
  induction ks as [|k' ks IH]; [reflexivity|].
  cbn [field_items map dict_get mem existsb]. fold (mem k ks). fold (field_items value ks).
  destruct (String.eqb_spec k k') as [->|]; cbn [orb]; [reflexivity | exact IH].
Qed.

Lemma dict_set_field_items value k ks :
  dict_set k (value k) (field_items value ks) = field_items value (add_key ks k).
Proof.
  unfold add_key. induction ks as [|k' ks IH]; [reflexivity|].
  cbn [mem existsb field_items map dict_set]. fold (mem k ks). fold (field_items value ks).
  destruct (String.eqb_spec k k') as [->|]; cbn [orb]; [reflexivity|].
  rewrite IH. now destruct (mem k ks).
Qed.

Lemma dict_keys_field_items_map value ks : map fst (field_items value ks) = ks.
Proof. exact (dict_keys_field_items value ks). Qed.

Lemma setitem_data_envelope name data key v :
  BaseResponse.setitem_data (envelope name data) key v
  = Return (envelope name (dict_set key v data)).
Proof. reflexivity. Qed.

Lemma add_fields_envelope py self name value keys : forall ks,
  (forall k, In k keys -> py_getattr py self k = Return (value k)) ->
  BaseResponse.add_fields py self (map VStr keys) None (envelope name (field_items value ks))
  = Return (envelope name (field_items value (fold_left add_key keys ks))).
Proof.
  induction keys as [|k keys IH]; intros ks Hall;
    cbn [map BaseResponse.add_fields fold_left attribute_name rbind]; [reflexivity|].
  rewrite (Hall k (or_introl eq_refl)). cbn [rbind].
  rewrite setitem_data_envelope. cbn [rbind].
  rewrite dict_set_field_items. apply IH. intros k' Hin. apply Hall. now right.
Qed.

(** The dictionary [getJSON] builds for a record whose [fields] runs
    through the names [keys] and that has a value for each. *)
Lemma getJSON_message_envelope py self fields keys value :
  py_getattr py self "fields" = Return fields ->
  py_iter py fields = Return (map VStr keys, None) ->
  (forall k, In k keys -> py_getattr py self k = Return (value k)) ->
  BaseResponse.getJSON_message py self
  = Return (envelope (cls_name (type_of self)) (field_items value (insertion_order keys))).
Proof.
  intros Hfields Hiter Hall. unfold BaseResponse.getJSON_message.
  rewrite Hfields. cbn [rbind]. rewrite Hiter. cbn [rbind fst snd].
  exact (add_fields_envelope py self _ value keys [] Hall).
Qed.

Lemma json_pairs_cons room k x rest :
  json_pairs room ((k, x) :: rest)
  = rbind (json_encode room x) (fun s =>
    rbind (json_pairs room rest) (fun ss =>
    Return ((json_string k ++ ": " ++ s)%string :: ss))).
Proof. reflexivity. Qed.

(** The text of the envelope, from the text of its [data]. *)
Lemma json_encode_envelope room name data :
  json_encode (S (S room)) (VDict (envelope name data))
  = rbind (json_encode (S room) (VDict data)) (fun sdata => Return (envelope_text name sdata)).
Proof.
  rewrite json_encode_dict. unfold envelope. rewrite !json_pairs_cons.
  change (json_encode (S room) (VStr ?x)) with (Return (A := string) (json_string x)).
  cbn [rbind].
  destruct (json_encode (S room) (VDict data)) as [sdata|e]; [|reflexivity].
  cbn [rbind json_pairs String.concat]. unfold envelope_text. f_equal.
  rewrite !string_app_assoc. reflexivity.
Qed.

Lemma json_pairs_field_items room value ks :
  (forall k, In k ks -> is_return (json_encode room (value k)) = true) ->
  exists chunks, json_pairs room (field_items value ks) = Return chunks.
Proof.
  induction ks as [|k ks IH]; intros Hok; [now exists []|].
  destruct IH as [chunks Hchunks]; [intros k' Hin; apply Hok; now right|].
  pose proof (Hok k (or_introl eq_refl)) as Hk.
  cbn [field_items map]. fold (field_items value ks). rewrite json_pairs_cons.
  destruct (json_encode room (value k)) as [s|e]; [|discriminate].
  cbn [rbind]. rewrite Hchunks. cbn [rbind]. eauto.
Qed.

Lemma json_pairs_field_items_raises room value ks k e :
  In k ks -> json_encode room (value k) = Raise e ->
  exists k' e', In k' ks /\ json_encode room (value k') = Raise e'
                /\ json_pairs room (field_items value ks) = Raise e'.
Proof.
  induction ks as [|k0 ks IH]; intros Hin He; [contradiction|].
  cbn [field_items map]. fold (field_items value ks). rewrite json_pairs_cons.
  destruct (json_encode room (value k0)) as [s0|e0] eqn:E0; cbn [rbind].
  - destruct Hin as [->|Hin]; [congruence|].
    destruct (IH Hin He) as (k' & e' & Hin' & He' & Hraise).
    exists k', e'. rewrite Hraise. cbn [rbind]. repeat split; [now right | exact He'].
  - exists k0, e0. repeat split; [now left | exact E0].
Qed.

Lemma depth_pairs_le (items : list (string * PyVal)) n :
  (forall kv, In kv items -> depth (snd kv) <= n) ->
  fold_right (fun kv m => Nat.max (depth (snd kv)) m) 0 items <= n.
Proof.
  induction items as [|kv items IH]; intros H; cbn [fold_right]; [lia|].
  pose proof (H kv (or_introl eq_refl)).
  specialize (IH (fun kv' Hin => H kv' (or_intror Hin))). lia.
Qed.

Lemma In_field_items value ks kv :
  In kv (field_items value ks) -> In (fst kv) ks /\ snd kv = value (fst kv).
Proof.
  unfold field_items. intros Hin. apply in_map_iff in Hin as (k & <- & Hk). now split.
Qed.

(** The envelope of values that JSON gives back is such a value. *)
Lemma json_plain_envelope py name value ks :
  distinct ks = true ->
  (forall k, In k ks -> json_plain py (value k) = true) ->
  json_plain py (VDict (envelope name (field_items value ks))) = true.
Proof.
  intros Hd Hplain.
  assert (Hdata : json_plain py (VDict (field_items value ks)) = true).
  { cbn [json_plain]. rewrite dict_keys_field_items_map, Hd. cbn [andb].
    apply forallb_forall. intros kv Hin. apply In_field_items in Hin as [Hin ->].
    now apply Hplain. }
  unfold envelope.
  change (distinct ["type"; "class"; "data"]
          && (true && (true && (json_plain py (VDict (field_items value ks)) && true))) = true).
  now rewrite Hdata.
Qed.

Lemma depth_envelope name value ks n :
  (forall k, In k ks -> depth (value k) + 2 <= n) -> 2 <= n ->
  depth (VDict (envelope name (field_items value ks))) <= n.
Proof.
  intros Hdepth Hn. unfold envelope. cbn [depth fold_right snd].
  assert (fold_right (fun kv m => Nat.max (depth (snd kv)) m) 0 (field_items value ks) <= n - 2).
  { apply depth_pairs_le. intros kv Hin. apply In_field_items in Hin as [Hin ->].
    specialize (Hdepth _ Hin). lia. }
  lia.
Qed.

(** C5.  For a record whose [fields] runs through the names [keys] and
    that has a value for each of them, [getJSON] builds the dictionary
    with the items [type], [class] (the name of the record's class) and
    [data], where [data] has exactly the names of [keys] in their order
    (a name listed twice once, at its first position) with the values of
    the record, and it returns or raises what [json.dumps] does on that
    dictionary.  When each value is one that JSON gives back ([None], a
    boolean, an integer within the limit on digits, a float, a string, a
    list or dictionary of these) and nests no deeper than the interpreter
    lets the encoder and the decoder go, [getJSON] returns a text from
    which [json.loads] gives that dictionary back, so that looking the
    names up in its [data] gives the values of the record.  When
    [json.dumps] can encode each value, [getJSON] returns the text of the
    envelope; when it cannot encode one of them, [getJSON] raises the
    exception of such a value. *)
Theorem getJSON_envelope (py : Interpreter) (self fields : PyVal)
    (keys : list string) (value : string -> PyVal) :
  py_getattr py self "fields" = Return fields ->
  py_iter py fields = Return (map VStr keys, None) ->
  (forall k, In k keys -> py_getattr py self k = Return (value k)) ->
  let name := cls_name (type_of self) in
  let data := field_items value (insertion_order keys) in
  BaseResponse.getJSON_message py self = Return (envelope name data)
  /\ dict_keys data = insertion_order keys
  /\ (NoDup keys -> dict_keys data = keys)
  /\ map (fun k => dict_get k data) keys = map (fun k => Some (value k)) keys
  /\ BaseResponse.getJSON py self = json_dumps py (VDict (envelope name data))
  /\ (2 <= dumps_room py -> 2 <= loads_room py ->
      (forall k, In k keys ->
         json_plain py (value k) = true
         /\ depth (value k) + 2 <= dumps_room py
         /\ depth (value k) + 2 <= loads_room py) ->
      exists text,
        BaseResponse.getJSON py self = Return text
        /\ json_loads py text = Some (Return (VDict (envelope name data))))
  /\ (forall room, dumps_room py = S (S room) ->
      (forall k, In k keys -> is_return (json_encode room (value k)) = true) ->
      exists sdata,
        json_encode (S room) (VDict data) = Return sdata
        /\ BaseResponse.getJSON py self = Return (envelope_text name sdata))
  /\ (forall room k e, dumps_room py = S (S room) ->
      In k keys -> json_encode room (value k) = Raise e ->
      exists k' e', In k' keys /\ json_encode room (value k') = Raise e'
                    /\ BaseResponse.getJSON py self = Raise e')
  /\ (dumps_room py < 2 -> BaseResponse.getJSON py self = Raise too_deep_to_encode).
Proof.
  intros Hfields Hiter Hhas name data.
  pose proof (getJSON_message_envelope py self fields keys value Hfields Hiter Hhas) as Hmsg.
  fold name in Hmsg. fold data in Hmsg.
  assert (Hjson : BaseResponse.getJSON py self = json_dumps py (VDict (envelope name data))).
  { unfold BaseResponse.getJSON. now rewrite Hmsg. }
  split; [exact Hmsg|].
  split; [apply dict_keys_field_items|].
  split.
  { intros Hnd. subst data. rewrite dict_keys_field_items. now apply insertion_order_NoDup. }
  split.
  { apply map_ext_in. intros k Hin. subst data. rewrite dict_get_field_items.
    apply (proj2 (insertion_order_In k keys)) in Hin.
    apply (proj2 (mem_In k (insertion_order keys))) in Hin. now rewrite Hin. }
  split; [exact Hjson|].
  split; [|split; [|split]].
  - intros Hd Hl Hplain.
    destruct (json_loads_dumps py (VDict (envelope name data))) as (text & Hdumps & Hloads).
    + apply json_plain_envelope; [apply distinct_insertion_order|].
      intros k Hin. apply (proj1 (insertion_order_In k keys)) in Hin.
      now destruct (Hplain k Hin).
    + apply depth_envelope; [|exact Hd].
      intros k Hin. apply (proj1 (insertion_order_In k keys)) in Hin.
      now destruct (Hplain k Hin) as (_ & ? & _).
    + apply depth_envelope; [|exact Hl].
      intros k Hin. apply (proj1 (insertion_order_In k keys)) in Hin.
      now destruct (Hplain k Hin) as (_ & _ & ?).
    + exists text. split; [now rewrite Hjson | exact Hloads].
  - intros room Hroom Hok.
    destruct (json_pairs_field_items room value (insertion_order keys)) as [chunks Hchunks].
    { intros k Hin. apply (proj1 (insertion_order_In k keys)) in Hin. now apply Hok. }
    exists ("{" ++ String.concat ", " chunks ++ "}")%string.
    assert (Hdata : json_encode (S room) (VDict data)
                    = Return ("{" ++ String.concat ", " chunks ++ "}")%string).
    { subst data. now rewrite json_encode_dict, Hchunks. }
    split; [exact Hdata|].
    rewrite Hjson. unfold json_dumps. now rewrite Hroom, json_encode_envelope, Hdata.
  - intros room k e Hroom Hin He.
    apply (proj2 (insertion_order_In k keys)) in Hin.
    destruct (json_pairs_field_items_raises room value _ k e Hin He)
      as (k' & e' & Hin' & He' & Hraise).
    exists k', e'. split; [now apply (proj1 (insertion_order_In k' keys))|].
    split; [exact He'|].
    rewrite Hjson. unfold json_dumps. rewrite Hroom, json_encode_envelope.
    subst data. now rewrite json_encode_dict, Hraise.
  - intros Hroom. rewrite Hjson. unfold json_dumps.
    destruct (dumps_room py) as [|[|room]]; [reflexivity | reflexivity | lia].
Qed.

Section DeviceProperties.
Context {World Liaison : Type}.
Implicit Types (self : DeviceClass World Liaison) (st : State World Liaison).
Implicit Types (message : PyVal) (lsnr : ListenerModule World Liaison).

(** C1.  A message that is not an instance of the device's
    [responseClass] makes [receiveMessage] raise [AssertionError]; the
    message of the error names the type of the device, the expected type
    and the type received; the state of the device (its responses among
    it) is unchanged and no call is made, to a listener or otherwise. *)
Theorem receiveMessage_type_mismatch self message st :
  isinstance message (rc_class (responseClass self)) = false ->
  exists msg,
    BaseResponseDevice.receiveMessage self message st = mkOut (Raise (AssertionError msg)) st []
    /\ occurs_in (cls_name (dc_class self)) msg
    /\ occurs_in (cls_name (rc_class (responseClass self))) msg
    /\ occurs_in (cls_name (type_of message)) msg
    /\ occurs_in "Try parsing the message first" msg.
Proof.
  intros Hty.
  exists (BaseResponseDevice.receiveMessage_error (cls_name (dc_class self))
            (cls_name (rc_class (responseClass self))) (cls_name (type_of message))).
  split.
  - unfold BaseResponseDevice.receiveMessage, bind, py_assert. now rewrite Hty.
  - unfold BaseResponseDevice.receiveMessage_error, occurs_in.
    set (own := cls_name (dc_class self)).
    set (target := cls_name (rc_class (responseClass self))).
    set (received := cls_name (type_of message)).
    repeat split.
    + exists EmptyString. eexists. reflexivity.
    + exists (own ++ ".receiveMessage() can only receive messages of type ")%string.
      eexists. rewrite !string_app_assoc. reflexivity.
    + exists (own ++ ".receiveMessage() can only receive messages of type " ++ target
              ++ ", instead received ")%string.
      eexists. rewrite !string_app_assoc. reflexivity.
    + exists (own ++ ".receiveMessage() can only receive messages of type " ++ target
              ++ ", instead received " ++ received ++ ". ")%string.
      exists (" using " ++ own ++ ".parseMessage()")%string.
      rewrite !string_app_assoc. reflexivity.
Qed.

(** *** The method monad *)

Lemma bind_ret_l {A B} (a : A) (k : A -> M World Liaison B) st :
  bind (ret a) k st = k a st.
Proof. unfold bind, ret. cbn. now destruct (k a st). Qed.

Lemma bind_gets_l {A B} (f : State World Liaison -> A) (k : A -> M World Liaison B) st :
  bind (gets f) k st = k (f st) st.
Proof. unfold bind, gets. cbn. now destruct (k (f st) st). Qed.

Lemma bind_modify_l {B} f (k : unit -> M World Liaison B) st :
  bind (modify f) k st = k tt (f st).
Proof. unfold bind, modify. cbn. now destruct (k tt (f st)). Qed.

Lemma bind_raises {A B} (m : M World Liaison A) (k : A -> M World Liaison B) st e st' calls :
  m st = mkOut (Raise e) st' calls -> bind m k st = mkOut (Raise e) st' calls.
Proof. intros Hm. unfold bind. now rewrite Hm. Qed.

Lemma bind_returns {A B} (m : M World Liaison A) (k : A -> M World Liaison B) st a :
  m st = mkOut (Return a) st [] -> bind m k st = k a st.
Proof. intros Hm. unfold bind. rewrite Hm. cbn. now destruct (k a st). Qed.

Lemma pure_ret {A} (a : A) : pure_m (ret (World := World) (Liaison := Liaison) a).
Proof. now intros st. Qed.

Lemma pure_raise {A} e : pure_m (raise (World := World) (Liaison := Liaison) (A := A) e).
Proof. now intros st. Qed.

Lemma pure_gets {A} (f : State World Liaison -> A) : pure_m (gets f).
Proof. now intros st. Qed.

Lemma pure_bind {A B} (m : M World Liaison A) (k : A -> M World Liaison B) :
  pure_m m -> (forall a, pure_m (k a)) -> pure_m (bind m k).
Proof.
  intros Hm Hk st. unfold bind. destruct (Hm st) as [Hs Hc].
  destruct (out_res (m st)) as [a|e]; cbn [out_state out_calls].
  - rewrite Hs, Hc. apply Hk.
  - now split.
Qed.

Lemma keeps_pure {A} (m : M World Liaison A) : pure_m m -> keeps_responses m.
Proof. intros Hm st. now rewrite (proj1 (Hm st)). Qed.

Lemma keeps_bind {A B} (m : M World Liaison A) (k : A -> M World Liaison B) :
  keeps_responses m -> (forall a, keeps_responses (k a)) -> keeps_responses (bind m k).
Proof.
  intros Hm Hk st. unfold bind. specialize (Hm st).
  destruct (out_res (m st)) as [a|e]; cbn [out_state]; [rewrite Hk|]; exact Hm.
Qed.

(** *** The relay loop *)

Lemma set_world_same st : set_world (world st) st = st.
Proof. now destruct st. Qed.

Lemma listeners_set_responses rs st : listeners (set_responses rs st) = listeners st.
Proof. reflexivity. Qed.

Lemma for_each_preserves {A B} (f : State World Liaison -> B) (body : A -> M World Liaison unit) :
  (forall x st, f (out_state (body x st)) = f st) ->
  forall xs st, f (out_state (for_each xs body st)) = f st.
Proof.
  intros Hbody xs. induction xs as [|x xs IH]; intros st; cbn [for_each].
  - reflexivity.
  - unfold bind. specialize (Hbody x st).
    destruct (out_res (body x st)); cbn [out_state]; [rewrite IH|]; exact Hbody.
Qed.

Lemma call_out_frame (c : Call World) (f : Effect World) st :
  responses (out_state (call_out (Liaison := Liaison) c f st)) = responses st
  /\ listeners (out_state (call_out (Liaison := Liaison) c f st)) = listeners st.
Proof.
  unfold call_out. destruct (f (world st)). now split.
Qed.

Lemma call_receiveMessage_responses message h st :
  responses (out_state (BaseResponseDevice.call_receiveMessage h message st)) = responses st.
Proof.
  destruct h; cbn [BaseResponseDevice.call_receiveMessage]; [apply call_out_frame | reflexivity].
Qed.

Lemma call_receiveMessage_listeners message h st :
  listeners (out_state (BaseResponseDevice.call_receiveMessage h message st)) = listeners st.
Proof.
  destruct h; cbn [BaseResponseDevice.call_receiveMessage]; [apply call_out_frame | reflexivity].
Qed.

Lemma relay_run_returns message ls w w' :
  relay_returns message ls w w' ->
  forall st, world st = w ->
    for_each ls (fun h => BaseResponseDevice.call_receiveMessage h message) st
    = mkOut (Return tt) (set_world w' st) (receive_calls message ls).
Proof.
  induction 1 as [w | l ls w w1 w' Hl Hrest IH]; intros st Hw.
  - subst w. cbn. unfold ret. now rewrite set_world_same.
  - subst w. cbn [for_each]. unfold bind.
    cbn [BaseResponseDevice.call_receiveMessage]. unfold call_out. rewrite Hl.
    cbn [out_res out_state out_calls].
    rewrite (IH (set_world w1 st) eq_refl). reflexivity.
Qed.

Lemma relay_run_raises message pre h post w w1 e w2 :
  relay_returns message pre w w1 ->
  relay_raises message h w1 e w2 ->
  forall st, world st = w ->
    for_each (pre ++ h :: post) (fun h => BaseResponseDevice.call_receiveMessage h message) st
    = mkOut (Raise e) (set_world w2 st) (receive_calls message pre ++ receive_calls message [h]).
Proof.
  induction 1 as [w | l ls w w0 w1 Hl Hrest IH]; intros Hh st Hw.
  - cbn [app for_each]. unfold bind.
    destruct Hh as [l w e w2 Hl | v w]; subst w;
      cbn [BaseResponseDevice.call_receiveMessage receive_calls flat_map app].
    + unfold call_out. rewrite Hl. reflexivity.
    + unfold raise. cbn. now rewrite set_world_same.
  - subst w. cbn [app for_each]. unfold bind.
    cbn [BaseResponseDevice.call_receiveMessage]. unfold call_out. rewrite Hl.
    cbn [out_res out_state out_calls].
    rewrite (IH Hh (set_world w0 st) eq_refl). reflexivity.
Qed.

Lemma receive_calls_listeners message ls w w' :
  relay_returns message ls w w' ->
  exists objs : list (Listener World),
    ls = map HListener objs
    /\ receive_calls message ls = map (fun l => CallReceiveMessage l message) objs.
Proof.
  induction 1 as [w | l ls w w1 w' Hl Hrest [objs [Hls Hcalls]]].
  - now exists [].
  - exists (l :: objs). cbn. now rewrite Hls, <- Hcalls, <- Hls.
Qed.

(** [receiveMessage] on a valid message, as the relay run from the
    state that already holds the message. *)
Lemma receiveMessage_unfold self message st :
  isinstance message (rc_class (responseClass self)) = true ->
  BaseResponseDevice.receiveMessage self message st =
    let st1 := set_responses (responses st ++ [message]) st in
    let o := for_each (listeners st1)
               (fun h => BaseResponseDevice.call_receiveMessage h message) st1 in
    mkOut (rbind (out_res o) (fun _ => Return true)) (out_state o) (out_calls o).
Proof.
  intros Hty. unfold BaseResponseDevice.receiveMessage, bind, py_assert. rewrite Hty.
  cbn [ret modify gets out_res out_state out_calls app].
  destruct (out_res (for_each _ _ _)) eqn:E; cbn [rbind out_res out_state out_calls].
  - now rewrite app_nil_r.
  - reflexivity.
Qed.

Lemma receiveMessage_responses self message st :
  isinstance message (rc_class (responseClass self)) = true ->
  responses (out_state (BaseResponseDevice.receiveMessage self message st))
  = responses st ++ [message].
Proof.
  intros Hty. rewrite (receiveMessage_unfold _ _ _ Hty). cbn [out_state].
  rewrite (for_each_preserves responses); [reflexivity|].
  intros; apply call_receiveMessage_responses.
Qed.

Lemma receiveMessage_listeners self message st :
  listeners (out_state (BaseResponseDevice.receiveMessage self message st)) = listeners st.
Proof.
  destruct (isinstance message (rc_class (responseClass self))) eqn:Hty.
  - rewrite (receiveMessage_unfold _ _ _ Hty). cbn [out_state].
    rewrite (for_each_preserves listeners); [reflexivity|].
    intros; apply call_receiveMessage_listeners.
  - unfold BaseResponseDevice.receiveMessage, bind, py_assert. now rewrite Hty.
Qed.

Lemma receive_all_responses self messages :
  forallb (fun m => isinstance m (rc_class (responseClass self))) messages = true ->
  forall st, responses (receive_all self messages st) = responses st ++ messages.
Proof.
  induction messages as [|m ms IH]; cbn [forallb receive_all]; intros Hall st.
  - now rewrite app_nil_r.
  - apply andb_true_iff in Hall as [Hm Hms].
    rewrite (IH Hms), (receiveMessage_responses _ _ _ Hm), <- app_assoc. reflexivity.
Qed.

(** *** [receiveMessage] and [makeResponse] *)

(** C2 (amended).  A message that is an instance of the device's
    [responseClass] is appended to [responses], whatever the listeners
    do, and [listeners] is unchanged; when the [receiveMessage] of every
    listener returns, each listener has been called with the message, in
    the order of [listeners], and the call returns [True]; when one of
    them raises, the listeners before it having returned, the call raises
    that exception.  A sequence of such calls extends [responses] by the messages in call order, so that
    [n] calls on a fresh device leave [n] responses. *)
Theorem receiveMessage_valid self message messages st :
  isinstance message (rc_class (responseClass self)) = true ->
  forallb (fun m => isinstance m (rc_class (responseClass self))) messages = true ->
  let o := BaseResponseDevice.receiveMessage self message st in
  responses (out_state o) = responses st ++ [message]
  /\ listeners (out_state o) = listeners st
  /\ (forall w', relay_returns message (listeners st) (world st) w' ->
        o = mkOut (Return true)
              (set_world w' (set_responses (responses st ++ [message]) st))
              (receive_calls message (listeners st))
        /\ exists objs : list (Listener World),
             listeners st = map HListener objs
             /\ out_calls o = map (fun l => CallReceiveMessage l message) objs)
  /\ (forall pre h post w1 e w2,
        listeners st = pre ++ h :: post ->
        relay_returns message pre (world st) w1 ->
        relay_raises message h w1 e w2 ->
        out_res o = Raise e)
  /\ responses (receive_all self messages st) = responses st ++ messages
  /\ (forall liaison w,
        responses (receive_all self messages (BaseResponseDevice.__init__ liaison w)) = messages
        /\ length (responses (receive_all self messages (BaseResponseDevice.__init__ liaison w)))
           = length messages).
Proof.
  intros Hty Hall o. subst o.
  split; [now apply receiveMessage_responses|].
  split; [apply receiveMessage_listeners|].
  split.
  { intros w' Hrelay. rewrite (receiveMessage_unfold _ _ _ Hty). cbn zeta.
    rewrite listeners_set_responses.
    rewrite (relay_run_returns _ _ _ _ Hrelay (set_responses _ st) eq_refl).
    split; [reflexivity|].
    destruct (receive_calls_listeners _ _ _ _ Hrelay) as [objs [Hls Hcalls]].
    exists objs. split; [exact Hls | exact Hcalls]. }
  split.
  { intros pre h post w1 e w2 Hls Hpre Hh.
    rewrite (receiveMessage_unfold _ _ _ Hty). cbn zeta.
    rewrite listeners_set_responses, Hls.
    rewrite (relay_run_raises _ _ _ post _ _ _ _ Hpre Hh (set_responses _ st) eq_refl).
    reflexivity. }
  split; [now apply receive_all_responses|].
  intros liaison w. now rewrite (receive_all_responses _ _ Hall).
Qed.

(** C9.  On a valid message the relay runs from the state that already
    holds the message.  So when the listeners before the k-th return and
    the k-th raises, [receiveMessage] raises that exception, the message
    is in [responses], the listeners before the k-th have been called in
    order (and the k-th, if it has the method), and those after it have
    not. *)
Theorem receiveMessage_listener_raises self message st pre h post w1 e w2 :
  isinstance message (rc_class (responseClass self)) = true ->
  listeners st = pre ++ h :: post ->
  relay_returns message pre (world st) w1 ->
  relay_raises message h w1 e w2 ->
  let st1 := set_responses (responses st ++ [message]) st in
  let relay := for_each (listeners st1)
                 (fun l => BaseResponseDevice.call_receiveMessage l message) st1 in
  let o := BaseResponseDevice.receiveMessage self message st in
  o = mkOut (rbind (out_res relay) (fun _ => Return true)) (out_state relay) (out_calls relay)
  /\ o = mkOut (Raise e) (set_world w2 st1)
           (receive_calls message pre ++ receive_calls message [h])
  /\ responses (out_state o) = responses st ++ [message]
  /\ exists objs : list (Listener World),
       pre = map HListener objs
       /\ receive_calls message pre = map (fun l => CallReceiveMessage l message) objs.
Proof.
  intros Hty Hls Hpre Hh st1 relay o. subst o relay.
  assert (Hrun : BaseResponseDevice.receiveMessage self message st
                 = mkOut (Raise e) (set_world w2 st1)
                     (receive_calls message pre ++ receive_calls message [h])).
  { rewrite (receiveMessage_unfold _ _ _ Hty). cbn zeta. fold st1.
    replace (listeners st1) with (pre ++ h :: post) by exact (eq_sym Hls).
    rewrite (relay_run_raises _ _ _ post _ _ _ _ Hpre Hh st1 eq_refl). reflexivity. }
  repeat split.
  - now apply receiveMessage_unfold.
  - exact Hrun.
  - now apply receiveMessage_responses.
  - exact (receive_calls_listeners _ _ _ _ Hpre).
Qed.

(** C7 (amended).  When the response class accepts the arguments,
    [makeResponse] builds the very record the class builds from them and
    passes it to [receiveMessage]: it leaves the state and makes the
    calls of that [receiveMessage], so the record is appended to
    [responses]; it returns the record when [receiveMessage] returns
    (as it does when every listener returns) and raises what
    [receiveMessage] raises otherwise. *)
Theorem makeResponse_accepted self args kwargs resp st :
  construct (responseClass self) args kwargs = Return resp ->
  let o := BaseResponseDevice.makeResponse self args kwargs st in
  let r := BaseResponseDevice.receiveMessage self resp st in
  out_state o = out_state r
  /\ out_calls o = out_calls r
  /\ out_res o = rbind (out_res r) (fun _ => Return resp)
  /\ responses (out_state o) = responses st ++ [resp]
  /\ (forall w', relay_returns resp (listeners st) (world st) w' ->
        o = mkOut (Return resp)
              (set_world w' (set_responses (responses st ++ [resp]) st))
              (receive_calls resp (listeners st))).
Proof.
  intros Hnew o r.
  pose proof (isinstance_construct _ _ _ _ Hnew) as Hty.
  assert (Ho : o = mkOut (rbind (out_res r) (fun _ => Return resp)) (out_state r) (out_calls r)).
  { subst o r. unfold BaseResponseDevice.makeResponse, bind at 1, lift. rewrite Hnew.
    cbn [out_res out_state out_calls app]. unfold bind.
    destruct (out_res (BaseResponseDevice.receiveMessage self resp st));
      cbn [rbind ret out_res out_state out_calls]; [now rewrite app_nil_r | reflexivity]. }
  rewrite Ho. cbn [out_res out_state out_calls]. repeat split.
  - subst r. now apply receiveMessage_responses.
  - intros w' Hrelay. subst r. rewrite (receiveMessage_unfold _ _ _ Hty). cbn zeta.
    rewrite listeners_set_responses.
    rewrite (relay_run_returns _ _ _ _ Hrelay (set_responses _ st) eq_refl). reflexivity.
Qed.

(** *** [clearResponses] *)

(** C3.  [clearResponses] calls [dispatchMessages] once and makes no
    other call; whether that call returns or raises, [clearResponses]
    returns [True] and leaves the state the call left, with [responses]
    empty. *)
Theorem clearResponses_always_clears self st :
  let drain := dispatchMessages_of self st in
  let o := BaseResponseDevice.clearResponses self st in
  out_res o = Return true
  /\ out_calls o = [CallDispatchMessages (out_calls drain)]
  /\ out_state o = set_responses [] (out_state drain)
  /\ responses (out_state o) = []
  /\ length (responses (out_state o)) = 0.
Proof.
  cbv zeta. unfold BaseResponseDevice.clearResponses, dispatchMessages_of, bind,
    try_except_pass, BaseResponseDevice.call_dispatchMessages, modify, ret.
  cbn [out_res out_state out_calls app responses set_responses length].
  repeat split.
Qed.

(** *** Listeners *)

Lemma make_listener_liaison_none lsnr st :
  DeviceManager_liaison st = None ->
  BaseResponseDevice.make_listener lsnr (HValue (VStr "liaison")) st
  = mkOut
      (Raise (AttributeError
         "Cannot create a `liaison` listener as no liaison server is connected to DeviceManager."))
      st [].
Proof.
  intros Hnone. unfold BaseResponseDevice.make_listener.
  change (negb (issubclass (handle_type (@HValue World (VStr "liaison"))) BaseListener))
    with true.
  change (handle_eq_str (@HValue World (VStr "liaison")) "liaison") with true.
  cbv iota. apply bind_raises. rewrite bind_gets_l, Hnone. reflexivity.
Qed.

Lemma make_listener_unrecognised lsnr s st :
  s <> "liaison" -> s <> "print" -> s <> "log" ->
  BaseResponseDevice.make_listener lsnr (HValue (VStr s)) st
  = mkOut (Return (HValue (VStr s))) st [].
Proof.
  intros Hliaison Hprint Hlog. apply String.eqb_neq in Hliaison, Hprint, Hlog.
  unfold BaseResponseDevice.make_listener.
  change (negb (issubclass (handle_type (@HValue World (VStr s))) BaseListener)) with true.
  cbv iota. cbn [handle_eq_str]. rewrite Hliaison. cbv iota.
  rewrite bind_ret_l. cbn [handle_eq_str]. rewrite Hprint. cbv iota.
  rewrite bind_ret_l. cbn [handle_eq_str]. rewrite Hlog. cbv iota.
  rewrite bind_ret_l. reflexivity.
Qed.

Lemma make_listener_pure lsnr h : pure_m (BaseResponseDevice.make_listener lsnr h).
Proof.
  unfold BaseResponseDevice.make_listener.
  destruct (negb (issubclass (handle_type h) BaseListener)); [|apply pure_ret].
  apply pure_bind.
  - destruct (handle_eq_str h "liaison"); [|apply pure_ret].
    apply pure_bind; [apply pure_gets|].
    intros [server|]; [apply pure_ret | apply pure_raise].
  - intros h1. apply pure_bind.
    + destruct (handle_eq_str h1 "print"); apply pure_ret.
    + intros h2. apply pure_bind; [|intros h3; apply pure_ret].
      destruct (handle_eq_str h2 "log"); apply pure_ret.
Qed.

(** C4.  With no liaison server connected ([DeviceManager.liaison] is
    [None]), [addListener("liaison", startLoop)] raises [AttributeError]
    and leaves the state, [listeners] among it, unchanged; no call is
    made. *)
Theorem addListener_liaison_unconnected lsnr self startLoop st :
  DeviceManager_liaison st = None ->
  let o := BaseResponseDevice.addListener lsnr self (HValue (VStr "liaison")) startLoop st in
  o = mkOut
        (Raise (AttributeError
           "Cannot create a `liaison` listener as no liaison server is connected to DeviceManager."))
        st []
  /\ listeners (out_state o) = listeners st.
Proof.
  intros Hnone o. subst o.
  unfold BaseResponseDevice.addListener.
  rewrite (bind_raises _ _ _ _ _ _ (make_listener_liaison_none lsnr st Hnone)).
  split; reflexivity.
Qed.

(** C10.  A string other than ["liaison"], ["print"] and ["log"] given
    to [addListener] raises nothing: the string itself is appended to
    [listeners] and returned.  From then on [getListenerNames] reports
    [str] for it, and the relay of a valid message, once the listeners
    before it have returned, raises [AttributeError] on it. *)
Theorem addListener_unrecognised_string lsnr self s st :
  s <> "liaison" -> s <> "print" -> s <> "log" ->
  let h := HValue (VStr s) in
  let o := BaseResponseDevice.addListener lsnr self h false st in
  o = mkOut (Return h) (set_listeners (listeners st ++ [h]) st) []
  /\ BaseResponseDevice.getListenerNames (out_state o)
     = mkOut (Return (map (fun l => cls_name (handle_type l)) (listeners st) ++ ["str"]))
         (out_state o) []
  /\ (forall message w',
        isinstance message (rc_class (responseClass self)) = true ->
        relay_returns message (listeners st) (world st) w' ->
        out_res (BaseResponseDevice.receiveMessage self message (out_state o))
        = Raise (AttributeError "'str' object has no attribute 'receiveMessage'")).
Proof.
  intros Hliaison Hprint Hlog h o.
  assert (Ho : o = mkOut (Return h) (set_listeners (listeners st ++ [h]) st) []).
  { subst o h. unfold BaseResponseDevice.addListener.
    rewrite (bind_returns _ _ _ _ (make_listener_unrecognised lsnr s st Hliaison Hprint Hlog)).
    rewrite bind_modify_l. cbv iota. rewrite bind_ret_l. reflexivity. }
  rewrite Ho. cbn [out_state]. repeat split.
  - unfold BaseResponseDevice.getListenerNames, bind, gets, ret.
    cbn [out_res out_state out_calls app listeners set_listeners].
    now rewrite map_app.
  - intros message w' Hty Hrelay.
    rewrite (receiveMessage_unfold _ _ _ Hty). cbn zeta. cbn [out_res].
    rewrite listeners_set_responses. cbn [listeners set_listeners].
    replace (listeners st ++ [h]) with (listeners st ++ h :: []) by reflexivity.
    rewrite (relay_run_raises message (listeners st) h [] (world st) w'
               (AttributeError (no_attribute (type_of (VStr s)) "receiveMessage")) w'
               Hrelay (raises_value _ _ _) (set_responses _ (set_listeners _ st)) eq_refl).
    reflexivity.
Qed.

(** *** Capabilities left to subclasses *)

Lemma getAvailableDevices_not_overridden self st :
  override_getAvailableDevices self = None ->
  getAvailableDevices_of self st
  = mkOut (Raise (NotImplementedError
             "All subclasses of BaseDevice must implement the method `getAvailableDevices`"))
      st [].
Proof.
  intros Hnone. unfold getAvailableDevices_of. now rewrite Hnone.
Qed.

Lemma parseMessage_not_overridden self raw st :
  override_parseMessage self = None ->
  parseMessage_of self raw st
  = mkOut (Raise (NotImplementedError
             "All subclasses of BaseDevice must implement the method `parseMessage`"))
      st [].
Proof.
  intros Hnone. unfold parseMessage_of. now rewrite Hnone.
Qed.

(** C6.  On a class that overrides neither, [getAvailableDevices()] and
    [parseMessage(raw)] raise [NotImplementedError], and change
    nothing. *)
Theorem capabilities_not_overridden self raw st :
  override_getAvailableDevices self = None ->
  override_parseMessage self = None ->
  (exists msg, getAvailableDevices_of self st = mkOut (Raise (NotImplementedError msg)) st [])
  /\ (exists msg, parseMessage_of self raw st = mkOut (Raise (NotImplementedError msg)) st []).
Proof.
  intros Hget Hparse. split; eexists.
  - now apply getAvailableDevices_not_overridden.
  - now apply parseMessage_not_overridden.
Qed.

(** *** The stored responses stay typed *)

Lemma call_startLoop_responses h st :
  responses (out_state (BaseResponseDevice.call_startLoop (Liaison := Liaison) h st))
  = responses st.
Proof.
  destruct h as [l | v]; cbn [BaseResponseDevice.call_startLoop]; [|reflexivity].
  destruct (l_startLoop l); [apply call_out_frame | reflexivity].
Qed.

Lemma call_removeDevice_responses h st :
  responses (out_state (BaseResponseDevice.call_removeDevice (Liaison := Liaison) h st))
  = responses st.
Proof.
  destruct h as [l | v]; cbn [BaseResponseDevice.call_removeDevice]; [|reflexivity].
  destruct (l_loop l); [apply call_out_frame | reflexivity].
Qed.

Lemma addListener_responses lsnr self h startLoop st :
  responses (out_state (BaseResponseDevice.addListener lsnr self h startLoop st))
  = responses st.
Proof.
  revert st. change (keeps_responses (BaseResponseDevice.addListener lsnr self h startLoop)).
  unfold BaseResponseDevice.addListener.
  apply keeps_bind; [apply keeps_pure, make_listener_pure|].
  intros h1. apply keeps_bind; [now intros st|].
  intros _. apply keeps_bind; [|intros _; apply keeps_pure, pure_ret].
  destruct startLoop; [|apply keeps_pure, pure_ret].
  intros st. apply call_startLoop_responses.
Qed.

Lemma clearListeners_responses self st :
  responses (out_state (BaseResponseDevice.clearListeners self st)) = responses st.
Proof.
  unfold BaseResponseDevice.clearListeners, bind, gets, modify, ret.
  cbn [out_res out_state out_calls].
  pose proof (for_each_preserves responses BaseResponseDevice.call_removeDevice
                call_removeDevice_responses (listeners st) st) as Hframe.
  destruct (out_res (for_each (listeners st) BaseResponseDevice.call_removeDevice st));
    cbn [out_res out_state out_calls responses set_listeners]; exact Hframe.
Qed.

Lemma receiveMessage_typed self message st :
  responses_typed self st = true ->
  responses_typed self (out_state (BaseResponseDevice.receiveMessage self message st)) = true.
Proof.
  intros Hinv. unfold responses_typed in *.
  destruct (isinstance message (rc_class (responseClass self))) eqn:Hty.
  - rewrite (receiveMessage_responses _ _ _ Hty), forallb_app, Hinv. cbn. now rewrite Hty.
  - unfold BaseResponseDevice.receiveMessage, bind, py_assert. now rewrite Hty.
Qed.

Lemma makeResponse_typed self args kwargs st :
  responses_typed self st = true ->
  responses_typed self (out_state (BaseResponseDevice.makeResponse self args kwargs st)) = true.
Proof.
  intros Hinv. unfold BaseResponseDevice.makeResponse, bind at 1, lift.
  cbn [out_res out_state out_calls].
  destruct (construct (responseClass self) args kwargs) as [resp | e]; [|exact Hinv].
  cbn [out_state]. unfold bind.
  pose proof (receiveMessage_typed self resp st Hinv) as Hrecv.
  destruct (out_res (BaseResponseDevice.receiveMessage self resp st));
    cbn [out_state ret]; exact Hrecv.
Qed.

Lemma run_op_typed lsnr self op st :
  (op = OpDispatchMessages -> drain_keeps_typed self) ->
  responses_typed self st = true ->
  responses_typed self (run_op lsnr self op st) = true.
Proof.
  intros Hdrain Hinv. destruct op as [message | args kwargs | | | h startLoop | ];
    cbn [run_op].
  - now apply receiveMessage_typed.
  - now apply makeResponse_typed.
  - reflexivity.
  - unfold dispatchMessages_of, resolve.
    destruct (override_dispatchMessages self) as [d|] eqn:Hd.
    + now apply (Hdrain eq_refl d Hd st).
    + exact Hinv.
  - unfold responses_typed in *. now rewrite addListener_responses.
  - unfold responses_typed in *. now rewrite clearListeners_responses.
Qed.

Lemma run_ops_typed lsnr self ops :
  drain_keeps_typed self ->
  forall st, responses_typed self st = true ->
    responses_typed self (run_ops lsnr self ops st) = true.
Proof.
  intros Hdrain. induction ops as [|op ops IH]; intros st Hinv; cbn [run_ops].
  - exact Hinv.
  - apply IH. apply run_op_typed; [intros _; exact Hdrain | exact Hinv].
Qed.

Lemma drain_keeps_typed_not_overridden self :
  override_dispatchMessages self = None -> drain_keeps_typed self.
Proof.
  intros Hnone d Hd. congruence.
Qed.

Lemma keeps_typed_bind {A B} self (m : M World Liaison A) (k : A -> M World Liaison B) :
  keeps_typed self m -> (forall a, keeps_typed self (k a)) -> keeps_typed self (bind m k).
Proof.
  intros Hm Hk st Hinv. unfold bind. specialize (Hm st Hinv).
  destruct (out_res (m st)) as [a|e]; cbn [out_state]; [now apply Hk | exact Hm].
Qed.

Lemma keeps_typed_ret {A} self (a : A) : keeps_typed self (ret a).
Proof. now intros st Hinv. Qed.

Lemma keeps_typed_receiveMessage self message :
  keeps_typed self (BaseResponseDevice.receiveMessage self message).
Proof. intros st Hinv. now apply receiveMessage_typed. Qed.

(** C8.  The invariant that each stored response is an instance of the
    device's [responseClass] is kept by [receiveMessage], [makeResponse],
    [clearResponses], [addListener] and [clearListeners] on every device,
    whether the operation returns or raises and whether or not the class
    overrides [dispatchMessages]; it is kept by [dispatchMessages] when
    the class does not override it (the method of this module does
    nothing) or when its override keeps it; and a message that is not
    such an instance is not appended by [receiveMessage]. *)
Theorem responses_stay_typed lsnr self op st :
  (op = OpDispatchMessages -> drain_keeps_typed self) ->
  responses_typed self st = true ->
  responses_typed self (run_op lsnr self op st) = true
  /\ (forall message,
        isinstance message (rc_class (responseClass self)) = false ->
        responses (run_op lsnr self (OpReceiveMessage message) st) = responses st).
Proof.
  intros Hdrain Hinv. split.
  - now apply run_op_typed.
  - intros message Hty. cbn [run_op].
    unfold BaseResponseDevice.receiveMessage, bind, py_assert. now rewrite Hty.
Qed.

End DeviceProperties.


(** * The properties at concrete devices *)

Section Concrete.
Import Examples.

(** The scenario of two responses on a fresh device, a listener being
    attached in between. *)
Example scenario_two_responses :
  let names0 := out_res (BaseResponseDevice.getListenerNames fresh) in
  let st1 := out_state (BaseResponseDevice.receiveMessage device resp_a fresh) in
  let st2 :=
    out_state (BaseResponseDevice.addListener lsnr device (HValue (VStr "print")) false st1) in
  let st3 := out_state (BaseResponseDevice.receiveMessage device resp_b st2) in
  names0 = Return []
  /\ out_res (BaseResponseDevice.getListenerNames st3) = Return ["PrintListener"]
  /\ responses st3 = [resp_a; resp_b]
  /\ world st3 = ["PrintListener"].
Proof. vm_compute. repeat split. Qed.

(** [clearResponses] on a device whose [dispatchMessages] stores a value
    and raises. *)
Example clearResponses_broken_drain :
  out_res (dispatchMessages_of broken_drain (set_responses [resp_a] fresh))
  = Raise (OtherError "IOError" "port closed")
  /\ responses (out_state (dispatchMessages_of broken_drain (set_responses [resp_a] fresh)))
     = [resp_a; VNone]
  /\ BaseResponseDevice.clearResponses broken_drain (set_responses [resp_a] fresh)
     = mkOut (Return true) fresh [CallDispatchMessages []].
Proof. vm_compute. repeat split. Qed.

(** The text [getJSON] returns for [BaseResponse(t=1.0, value="a")], and
    what [json.loads] makes of it. *)
Example getJSON_resp_a :
  BaseResponse.getJSON python resp_a
  = Return (with_dquotes
      "{'type': 'hardware_response', 'class': 'BaseResponse', 'data': {'t': 1.0, 'value': 'a'}}")
  /\ json_loads python (with_dquotes
      "{'type': 'hardware_response', 'class': 'BaseResponse', 'data': {'t': 1.0, 'value': 'a'}}")
     = Some (Return (VDict [("type", VStr "hardware_response"); ("class", VStr "BaseResponse");
                            ("data", VDict [("t", VFloat (FFinite "1.0"));
                                            ("value", VStr "a")])])).
Proof. split; vm_compute; reflexivity. Qed.

(** [json.dumps] on values it refuses: a [bytes], an integer of 4301
    digits, a list nested deeper than the interpreter allows. *)
Example json_dumps_refuses :
  json_dumps python (VBytes "k")
  = Raise (TypeError "Object of type bytes is not JSON serializable")
  /\ json_dumps python (VInt (10 ^ 4300))
     = Raise (ValueError "Exceeds the limit (4300 digits) for integer string conversion")
  /\ is_return (json_dumps python (VInt (10 ^ 4300 - 1))) = true
  /\ json_encode 1 (VList [VList []]) = Raise too_deep_to_encode.
Proof. repeat apply conj; vm_compute; reflexivity. Qed.

(** [BaseResponse(5, value=42)] and [BaseResponse(value=42, t=5)] are the
    same record; a call with an argument too many, twice the same
    argument, or an argument missing is refused. *)
Example construct_BaseResponse :
  construct BaseResponse.class [VInt 5] [("value", VInt 42)] = Return resp_5_42
  /\ construct BaseResponse.class [] [("value", VInt 42); ("t", VInt 5)] = Return resp_5_42
  /\ is_return (construct BaseResponse.class [VInt 5; VInt 42; VNone] []) = false
  /\ is_return (construct BaseResponse.class [VInt 5] [("t", VInt 42)]) = false
  /\ is_return (construct BaseResponse.class [VInt 5] []) = false.
Proof. repeat split. Qed.

(** A drain that feeds its input to [receiveMessage] keeps the stored
    responses typed, so every sequence of operations on a fresh device of
    that class does; its drain stores the parsed message and raises on the
    unparsed one. *)
Example polling_stays_typed (ops : list (Op World)) :
  drain_keeps_typed polling
  /\ responses_typed polling (run_ops lsnr polling ops fresh) = true
  /\ responses (out_state (dispatchMessages_of polling fresh))
     = [VInstance BaseResponse.cls [("t", VInt 0); ("value", VStr "key")]]
  /\ is_return (out_res (dispatchMessages_of polling fresh)) = false.
Proof.
  assert (Hdrain : drain_keeps_typed polling).
  { intros d Hd. inversion Hd; subst d. clear Hd.
    apply keeps_typed_bind; [exact (keeps_typed_receiveMessage device _)|].
    intros _. apply keeps_typed_bind; [exact (keeps_typed_receiveMessage device _)|].
    intros _. apply keeps_typed_ret. }
  split; [exact Hdrain|].
  split; [now apply run_ops_typed|].
  split; reflexivity.
Qed.

(** C1 at a plain device with one listener, given a [str]. *)
Lemma receiveMessage_type_mismatch_witness :
  isinstance (VStr "raw") (rc_class (responseClass device)) = false
  /\ exists msg,
       BaseResponseDevice.receiveMessage device (VStr "raw") only_printer
       = mkOut (Raise (AssertionError msg)) only_printer []
       /\ occurs_in "BaseResponseDevice" msg
       /\ occurs_in "BaseResponse" msg
       /\ occurs_in "str" msg
       /\ occurs_in "Try parsing the message first" msg.
Proof.
  split; [reflexivity|].
  exact (receiveMessage_type_mismatch device (VStr "raw") only_printer eq_refl).
Defined.

(** C2 as stated fails: with a listener that raises first in [listeners],
    a valid message is stored, but [receiveMessage] raises instead of
    returning [True], and the second listener is never called. *)
Lemma receiveMessage_raising_listener_counterexample :
  isinstance resp_a (rc_class (responseClass device)) = true
  /\ listeners faulty_first = [HListener faulty; HListener printer]
  /\ BaseResponseDevice.receiveMessage device resp_a faulty_first
     = mkOut (Raise (OtherError "RuntimeError" "listener failed"))
         (set_responses [resp_a] faulty_first)
         [CallReceiveMessage faulty resp_a]
  /\ out_res (BaseResponseDevice.receiveMessage device resp_a faulty_first) <> Return true.
Proof.
  repeat split. vm_compute. discriminate.
Qed.

(** C2 (amended) at a device with two listeners that return. *)
Lemma receiveMessage_valid_witness :
  isinstance resp_a (rc_class (responseClass device)) = true
  /\ forallb (fun m => isinstance m (rc_class (responseClass device))) [resp_a; resp_b] = true
  /\ relay_returns resp_a (listeners two_listeners) (world two_listeners)
       ["PrintListener"; "LoggingListener"]
  /\ BaseResponseDevice.receiveMessage device resp_a two_listeners
     = mkOut (Return true)
         (set_world ["PrintListener"; "LoggingListener"] (set_responses [resp_a] two_listeners))
         [CallReceiveMessage printer resp_a; CallReceiveMessage logger resp_a]
  /\ responses (receive_all device [resp_a; resp_b] two_listeners) = [resp_a; resp_b].
Proof.
  assert (Hrelay : relay_returns resp_a (listeners two_listeners) (world two_listeners)
                     ["PrintListener"; "LoggingListener"]).
  { apply (relay_cons resp_a printer [HListener logger] [] ["PrintListener"]); [reflexivity|].
    apply (relay_cons resp_a logger [] ["PrintListener"] ["PrintListener"; "LoggingListener"]);
      [reflexivity | apply relay_nil]. }
  destruct (receiveMessage_valid device resp_a [resp_a; resp_b] two_listeners eq_refl eq_refl)
    as (_ & _ & Hret & _ & Hall & _).
  exact (conj eq_refl (conj eq_refl (conj Hrelay (conj (proj1 (Hret _ Hrelay)) Hall)))).
Defined.

(** C9 at a device whose second listener of three raises. *)
Lemma receiveMessage_listener_raises_witness :
  isinstance resp_a (rc_class (responseClass device)) = true
  /\ listeners faulty_second = [HListener printer] ++ HListener faulty :: [HListener logger]
  /\ relay_returns resp_a [HListener printer] (world faulty_second) ["PrintListener"]
  /\ relay_raises resp_a (HListener faulty) ["PrintListener"]
       (OtherError "RuntimeError" "listener failed") ["PrintListener"]
  /\ BaseResponseDevice.receiveMessage device resp_a faulty_second
     = mkOut (Raise (OtherError "RuntimeError" "listener failed"))
         (set_world ["PrintListener"] (set_responses [resp_a] faulty_second))
         [CallReceiveMessage printer resp_a; CallReceiveMessage faulty resp_a]
  /\ responses (out_state (BaseResponseDevice.receiveMessage device resp_a faulty_second))
     = [resp_a].
Proof.
  assert (Hpre : relay_returns resp_a [HListener printer] (world faulty_second)
                   ["PrintListener"]).
  { apply (relay_cons resp_a printer [] [] ["PrintListener"]); [reflexivity | apply relay_nil]. }
  assert (Hraise : relay_raises resp_a (HListener faulty) ["PrintListener"]
                     (OtherError "RuntimeError" "listener failed") ["PrintListener"]).
  { apply raises_listener. reflexivity. }
  destruct (receiveMessage_listener_raises device resp_a faulty_second
              [HListener printer] (HListener faulty) [HListener logger]
              ["PrintListener"] _ ["PrintListener"] eq_refl eq_refl Hpre Hraise)
    as (_ & Hout & Hresp & _).
  exact (conj eq_refl (conj eq_refl (conj Hpre (conj Hraise (conj Hout Hresp))))).
Defined.

(** C7 as stated fails: the arguments are accepted and the record is
    stored, but with a listener that raises [makeResponse] raises and
    returns no record. *)
Lemma makeResponse_raising_listener_counterexample :
  construct (responseClass device) [VInt 5] [("value", VInt 42)] = Return resp_5_42
  /\ BaseResponseDevice.makeResponse device [VInt 5] [("value", VInt 42)] only_faulty
     = mkOut (Raise (OtherError "RuntimeError" "listener failed"))
         (set_responses [resp_5_42] only_faulty)
         [CallReceiveMessage faulty resp_5_42]
  /\ out_res (BaseResponseDevice.makeResponse device [VInt 5] [("value", VInt 42)] only_faulty)
     <> Return resp_5_42.
Proof.
  repeat split. vm_compute. discriminate.
Qed.

(** C7 (amended) at [makeResponse(5, value=42)]. *)
Lemma makeResponse_accepted_witness :
  construct (responseClass device) [VInt 5] [("value", VInt 42)] = Return resp_5_42
  /\ out_res (BaseResponseDevice.makeResponse device [VInt 5] [("value", VInt 42)] only_printer)
     = rbind (out_res (BaseResponseDevice.receiveMessage device resp_5_42 only_printer))
         (fun _ => Return resp_5_42)
  /\ responses
       (out_state (BaseResponseDevice.makeResponse device [VInt 5] [("value", VInt 42)]
                     only_printer))
     = responses only_printer ++ [resp_5_42].
Proof.
  destruct (makeResponse_accepted device [VInt 5] [("value", VInt 42)] resp_5_42
              only_printer eq_refl)
    as (_ & _ & Hres & Hresp & _).
  exact (conj eq_refl (conj Hres Hresp)).
Defined.

(** C4 at a fresh device, with [startLoop=True]. *)
Lemma addListener_liaison_unconnected_witness :
  DeviceManager_liaison fresh = None
  /\ BaseResponseDevice.addListener lsnr device (HValue (VStr "liaison")) true fresh
     = mkOut
         (Raise (AttributeError
            "Cannot create a `liaison` listener as no liaison server is connected to DeviceManager."))
         fresh []
  /\ listeners
       (out_state (BaseResponseDevice.addListener lsnr device (HValue (VStr "liaison")) true fresh))
     = listeners fresh.
Proof.
  split; [reflexivity|].
  exact (addListener_liaison_unconnected lsnr device true fresh eq_refl).
Defined.

(** C10 at the string ["prnt"]. *)
Lemma addListener_unrecognised_string_witness :
  "prnt" <> "liaison" /\ "prnt" <> "print" /\ "prnt" <> "log"
  /\ BaseResponseDevice.addListener lsnr device (HValue (VStr "prnt")) false only_printer
     = mkOut (Return (HValue (VStr "prnt")))
         (with_listeners [HListener printer; HValue (VStr "prnt")]) [].
Proof.
  assert (H1 : "prnt" <> "liaison") by discriminate.
  assert (H2 : "prnt" <> "print") by discriminate.
  assert (H3 : "prnt" <> "log") by discriminate.
  exact (conj H1 (conj H2 (conj H3
           (proj1 (addListener_unrecognised_string lsnr device "prnt" only_printer H1 H2 H3))))).
Defined.

(** C6 at [BaseResponseDevice] itself. *)
Lemma capabilities_not_overridden_witness :
  override_getAvailableDevices device = None
  /\ override_parseMessage device = None
  /\ (exists msg, getAvailableDevices_of device fresh
                  = mkOut (Raise (NotImplementedError msg)) fresh [])
  /\ (exists msg, parseMessage_of device (VBytes "k") fresh
                  = mkOut (Raise (NotImplementedError msg)) fresh []).
Proof.
  exact (conj eq_refl (conj eq_refl
           (capabilities_not_overridden device (VBytes "k") fresh eq_refl eq_refl))).
Defined.

(** C8 at a device class whose [dispatchMessages] feeds its input to
    [receiveMessage], for [dispatchMessages] itself. *)
Lemma responses_stay_typed_witness :
  (OpDispatchMessages = OpDispatchMessages :> Op World -> drain_keeps_typed polling)
  /\ responses_typed polling (set_responses [resp_a] fresh) = true
  /\ responses_typed polling
       (run_op lsnr polling OpDispatchMessages (set_responses [resp_a] fresh)) = true.
Proof.
  assert (Hdrain : OpDispatchMessages = OpDispatchMessages :> Op World
                   -> drain_keeps_typed polling).
  { intros _ d Hd. inversion Hd; subst d. clear Hd.
    apply keeps_typed_bind; [exact (keeps_typed_receiveMessage device _)|].
    intros _. apply keeps_typed_bind; [exact (keeps_typed_receiveMessage device _)|].
    intros _. apply keeps_typed_ret. }
  exact (conj Hdrain (conj eq_refl
           (proj1 (responses_stay_typed lsnr polling OpDispatchMessages
                     (set_responses [resp_a] fresh) Hdrain eq_refl)))).
Defined.

(** C8 as stated fails for [dispatchMessages]: on a device class whose
    override of it stores what it has read without going through
    [receiveMessage], the call leaves in [responses] a value that is no
    instance of [responseClass]. *)
Lemma dispatchMessages_override_counterexample :
  responses_typed broken_drain fresh = true
  /\ responses (run_op lsnr broken_drain OpDispatchMessages fresh) = [VNone]
  /\ isinstance VNone (rc_class (responseClass broken_drain)) = false
  /\ responses_typed broken_drain (run_op lsnr broken_drain OpDispatchMessages fresh) = false.
Proof. repeat split. Qed.

(** C5 as stated fails.  A record with a value for each declared field
    makes [getJSON] raise when one of the values is a [bytes]
    ([TypeError]) or an integer of 4301 digits ([ValueError]); and from
    the text [getJSON] returns for a record that holds a tuple,
    [json.loads] gives back a list in its place. *)
Lemma getJSON_bytes_counterexample :
  py_getattr python resp_bytes "fields" = Return (VList [VStr "t"; VStr "value"])
  /\ py_getattr python resp_bytes "t" = Return (VInt 1)
  /\ py_getattr python resp_bytes "value" = Return (VBytes "k")
  /\ BaseResponse.getJSON python resp_bytes
     = Raise (TypeError "Object of type bytes is not JSON serializable")
  /\ py_getattr python resp_huge "t" = Return (VInt (10 ^ 4300))
  /\ BaseResponse.getJSON python resp_huge
     = Raise (ValueError "Exceeds the limit (4300 digits) for integer string conversion")
  /\ py_getattr python resp_tuple "value" = Return (VTuple [VInt 1; VInt 2])
  /\ BaseResponse.getJSON python resp_tuple
     = Return (with_dquotes
         "{'type': 'hardware_response', 'class': 'BaseResponse', 'data': {'t': 1, 'value': [1, 2]}}")
  /\ json_loads python (with_dquotes
         "{'type': 'hardware_response', 'class': 'BaseResponse', 'data': {'t': 1, 'value': [1, 2]}}")
     = Some (Return (VDict [("type", VStr "hardware_response"); ("class", VStr "BaseResponse");
                            ("data", VDict [("t", VInt 1);
                                            ("value", VList [VInt 1; VInt 2])])])).
Proof.
  repeat apply conj; vm_compute; reflexivity.
Qed.

(** C5 (amended) at [BaseResponse(t=1.0, value="a")]. *)
Lemma getJSON_envelope_witness :
  py_getattr python resp_a "fields" = Return (VList [VStr "t"; VStr "value"])
  /\ py_iter python (VList [VStr "t"; VStr "value"]) = Return (map VStr ["t"; "value"], None)
  /\ (forall k, In k ["t"; "value"] ->
        py_getattr python resp_a k
        = Return (if String.eqb k "t" then VFloat (FFinite "1.0") else VStr "a"))
  /\ BaseResponse.getJSON_message python resp_a
     = Return (envelope "BaseResponse" [("t", VFloat (FFinite "1.0")); ("value", VStr "a")])
  /\ exists text,
       BaseResponse.getJSON python resp_a = Return text
       /\ json_loads python text
          = Some (Return (VDict (envelope "BaseResponse"
                                   [("t", VFloat (FFinite "1.0")); ("value", VStr "a")]))).
Proof.
  set (value := fun k => if String.eqb k "t" then VFloat (FFinite "1.0") else VStr "a").
  assert (Hhas : forall k, In k ["t"; "value"] -> py_getattr python resp_a k = Return (value k)).
  { intros k [Hk | [Hk | []]]; subst k; reflexivity. }
  destruct (getJSON_envelope python resp_a (VList [VStr "t"; VStr "value"]) ["t"; "value"]
              value eq_refl eq_refl Hhas)
    as (Hmsg & _ & _ & _ & _ & Hback & _).
  assert (Hplain : forall k, In k ["t"; "value"] ->
            json_plain python (value k) = true
            /\ depth (value k) + 2 <= dumps_room python
            /\ depth (value k) + 2 <= loads_room python).
  { intros k [Hk | [Hk | []]]; subst k; repeat split; cbn; lia. }
  assert (Hd : 2 <= dumps_room python) by (cbn; lia).
  assert (Hl : 2 <= loads_room python) by (cbn; lia).
  exact (conj eq_refl (conj eq_refl (conj Hhas (conj Hmsg (Hback Hd Hl Hplain))))).
Defined.

End Concrete.

(** * Further properties of the module *)

Section ListenerProperties.
Context {World Liaison : Type}.
Implicit Types (self : DeviceClass World Liaison) (st : State World Liaison).
Implicit Types (lsnr : ListenerModule World Liaison) (h : Handle World).

Lemma bind_returns_then {A B} (m : M World Liaison A) (k : A -> M World Liaison B)
    st a st' calls :
  m st = mkOut (Return a) st' calls ->
  bind m k st = mkOut (out_res (k a st')) (out_state (k a st')) (calls ++ out_calls (k a st')).
Proof. intros Hm. unfold bind. now rewrite Hm. Qed.

(** *** What [addListener] makes of its argument *)

Lemma make_listener_object lsnr (l : Listener World) st :
  BaseResponseDevice.make_listener lsnr (HListener l) st = mkOut (Return (HListener l)) st [].
Proof.
  unfold BaseResponseDevice.make_listener.
  destruct (negb (issubclass (handle_type (HListener l)) BaseListener)); [|reflexivity].
  cbn [handle_eq_str]. cbv iota. now rewrite !bind_ret_l.
Qed.

Lemma make_listener_print lsnr st :
  BaseResponseDevice.make_listener lsnr (HValue (VStr "print")) st
  = mkOut (Return (HListener (PrintListener lsnr))) st [].
Proof.
  unfold BaseResponseDevice.make_listener.
  change (negb (issubclass (handle_type (@HValue World (VStr "print"))) BaseListener)) with true.
  change (handle_eq_str (@HValue World (VStr "print")) "liaison") with false.
  cbv iota. rewrite bind_ret_l.
  change (handle_eq_str (@HValue World (VStr "print")) "print") with true.
  cbv iota. rewrite bind_ret_l. cbn [handle_eq_str]. cbv iota. now rewrite bind_ret_l.
Qed.

Lemma make_listener_log lsnr st :
  BaseResponseDevice.make_listener lsnr (HValue (VStr "log")) st
  = mkOut (Return (HListener (LoggingListener lsnr))) st [].
Proof.
  unfold BaseResponseDevice.make_listener.
  change (negb (issubclass (handle_type (@HValue World (VStr "log"))) BaseListener)) with true.
  change (handle_eq_str (@HValue World (VStr "log")) "liaison") with false.
  cbv iota. rewrite bind_ret_l.
  change (handle_eq_str (@HValue World (VStr "log")) "print") with false.
  cbv iota. rewrite bind_ret_l.
  change (handle_eq_str (@HValue World (VStr "log")) "log") with true.
  cbv iota. now rewrite bind_ret_l.
Qed.

Lemma make_listener_liaison_some lsnr st server :
  DeviceManager_liaison st = Some server ->
  BaseResponseDevice.make_listener lsnr (HValue (VStr "liaison")) st
  = mkOut (Return (HListener (LiaisonListener lsnr server))) st [].
Proof.
  intros Hsome. unfold BaseResponseDevice.make_listener.
  change (negb (issubclass (handle_type (@HValue World (VStr "liaison"))) BaseListener))
    with true.
  change (handle_eq_str (@HValue World (VStr "liaison")) "liaison") with true.
  cbv iota.
  rewrite (bind_returns _ _ st (HListener (LiaisonListener lsnr server))).
  - cbn [handle_eq_str]. cbv iota. now rewrite !bind_ret_l.
  - rewrite bind_gets_l, Hsome. reflexivity.
Qed.

Lemma handle_eq_str_true h s : handle_eq_str h s = true -> h = HValue (VStr s).
Proof.
  destruct h as [l | v]; [discriminate|]. destruct v; try discriminate.
  cbn. intros Heq. apply String.eqb_eq in Heq. now subst.
Qed.

(** [make_listener] raises in one case only. *)
Lemma make_listener_cases lsnr h st :
  (h = HValue (VStr "liaison") /\ DeviceManager_liaison st = None)
  \/ exists h', BaseResponseDevice.make_listener lsnr h st = mkOut (Return h') st [].
Proof.
  destruct (handle_eq_str h "liaison") eqn:Hliaison.
  - apply handle_eq_str_true in Hliaison. subst h.
    destruct (DeviceManager_liaison st) as [server|] eqn:Hserver.
    + right. eexists. exact (make_listener_liaison_some lsnr st server Hserver).
    + now left.
  - right. unfold BaseResponseDevice.make_listener.
    destruct (negb (issubclass (handle_type h) BaseListener)); [|eexists; reflexivity].
    rewrite Hliaison. cbv iota. rewrite bind_ret_l.
    destruct (handle_eq_str h "print"); cbv iota; rewrite bind_ret_l.
    + cbn [handle_eq_str]. cbv iota. rewrite bind_ret_l. eexists. reflexivity.
    + destruct (handle_eq_str h "log"); cbv iota; rewrite bind_ret_l; eexists; reflexivity.
Qed.

(** [addListener] once its first block has settled on [h']. *)
Lemma addListener_resolved lsnr self h h' startLoop st :
  BaseResponseDevice.make_listener lsnr h st = mkOut (Return h') st [] ->
  let st1 := set_listeners (listeners st ++ [h']) st in
  BaseResponseDevice.addListener lsnr self h startLoop st
  = if startLoop then
      let o := BaseResponseDevice.call_startLoop h' st1 in
      mkOut (rbind (out_res o) (fun _ => Return h')) (out_state o) (out_calls o)
    else mkOut (Return h') st1 [].
Proof.
  intros Hmake st1. unfold BaseResponseDevice.addListener.
  rewrite (bind_returns _ _ _ _ Hmake), bind_modify_l. fold st1.
  destruct startLoop; cbv iota.
  - unfold bind. destruct (BaseResponseDevice.call_startLoop h' st1) as [[[]|e] s c];
      cbn [out_res out_state out_calls rbind ret]; [now rewrite app_nil_r | reflexivity].
  - now rewrite bind_ret_l.
Qed.

Lemma call_startLoop_frame h st :
  responses (out_state (BaseResponseDevice.call_startLoop (Liaison := Liaison) h st))
  = responses st
  /\ listeners (out_state (BaseResponseDevice.call_startLoop (Liaison := Liaison) h st))
     = listeners st
  /\ DeviceManager_liaison
       (out_state (BaseResponseDevice.call_startLoop (Liaison := Liaison) h st))
     = DeviceManager_liaison st.
Proof.
  destruct h as [l | v]; cbn [BaseResponseDevice.call_startLoop]; [|now repeat split].
  destruct (l_startLoop l) as [f|]; [|now repeat split].
  unfold call_out. destruct (f (world st)). now repeat split.
Qed.

(** X1.  A listener object given to [addListener] is attached as it is:
    it is appended to [listeners] and returned, nothing is built in its
    place, and without [startLoop] no method of it is called. *)
Theorem addListener_listener_object lsnr self (l : Listener World) st :
  BaseResponseDevice.addListener lsnr self (HListener l) false st
  = mkOut (Return (HListener l)) (set_listeners (listeners st ++ [HListener l]) st) [].
Proof.
  exact (addListener_resolved lsnr self (HListener l) (HListener l) false st
           (make_listener_object lsnr l st)).
Qed.

(** X2.  The tags ["print"] and ["log"] make [addListener] build a
    [PrintListener] and a [LoggingListener]: the new listener, not the
    string, is appended to [listeners] and returned. *)
Theorem addListener_print_log lsnr self st :
  BaseResponseDevice.addListener lsnr self (HValue (VStr "print")) false st
  = mkOut (Return (HListener (PrintListener lsnr)))
      (set_listeners (listeners st ++ [HListener (PrintListener lsnr)]) st) []
  /\ BaseResponseDevice.addListener lsnr self (HValue (VStr "log")) false st
     = mkOut (Return (HListener (LoggingListener lsnr)))
         (set_listeners (listeners st ++ [HListener (LoggingListener lsnr)]) st) [].
Proof.
  split.
  - exact (addListener_resolved lsnr self _ _ false st (make_listener_print lsnr st)).
  - exact (addListener_resolved lsnr self _ _ false st (make_listener_log lsnr st)).
Qed.

(** X3.  With a liaison server connected, [addListener("liaison")]
    builds a [LiaisonListener] on that server, appends it to [listeners]
    and returns it. *)
Theorem addListener_liaison_connected lsnr self st server :
  DeviceManager_liaison st = Some server ->
  BaseResponseDevice.addListener lsnr self (HValue (VStr "liaison")) false st
  = mkOut (Return (HListener (LiaisonListener lsnr server)))
      (set_listeners (listeners st ++ [HListener (LiaisonListener lsnr server)]) st) [].
Proof.
  intros Hsome.
  exact (addListener_resolved lsnr self _ _ false st
           (make_listener_liaison_some lsnr st server Hsome)).
Qed.

(** X4.  An unrecognised string given with [startLoop=True] is appended
    to [listeners] first; the call of its [startLoop] then raises
    [AttributeError], and the string stays in [listeners]. *)
Theorem addListener_string_startLoop lsnr self s st :
  s <> "liaison" -> s <> "print" -> s <> "log" ->
  BaseResponseDevice.addListener lsnr self (HValue (VStr s)) true st
  = mkOut (Raise (AttributeError "'str' object has no attribute 'startLoop'"))
      (set_listeners (listeners st ++ [HValue (VStr s)]) st) [].
Proof.
  intros Hliaison Hprint Hlog.
  rewrite (addListener_resolved lsnr self _ _ true st
             (make_listener_unrecognised lsnr s st Hliaison Hprint Hlog)).
  reflexivity.
Qed.

(** X5.  With [startLoop=True], a listener object is appended to
    [listeners] and then its [startLoop] is called, once: [addListener]
    returns the listener when that call returns and raises what it raises
    otherwise, and in both cases the listener stays in [listeners]. *)
Theorem addListener_startLoop lsnr self (l : Listener World) (f : Effect World) st r w' :
  l_startLoop l = Some f ->
  f (world st) = (r, w') ->
  BaseResponseDevice.addListener lsnr self (HListener l) true st
  = mkOut (rbind r (fun _ => Return (HListener l)))
      (set_world w' (set_listeners (listeners st ++ [HListener l]) st))
      [CallStartLoop l].
Proof.
  intros Hstart Hf.
  rewrite (addListener_resolved lsnr self _ _ true st (make_listener_object lsnr l st)).
  cbv zeta. cbn [BaseResponseDevice.call_startLoop]. rewrite Hstart.
  unfold call_out. cbn [world set_listeners]. rewrite Hf. reflexivity.
Qed.

(** X6.  [addListener] never removes or reorders a listener and never
    touches [responses]: either it is ["liaison"] with no server
    connected, and the state is unchanged, or exactly one handle is
    appended to [listeners], also when [startLoop] raises. *)
Theorem addListener_extends_listeners lsnr self h startLoop st :
  let o := BaseResponseDevice.addListener lsnr self h startLoop st in
  (h = HValue (VStr "liaison") /\ DeviceManager_liaison st = None
   /\ is_return (out_res o) = false /\ out_state o = st)
  \/ (exists h',
        listeners (out_state o) = listeners st ++ [h']
        /\ responses (out_state o) = responses st
        /\ DeviceManager_liaison (out_state o) = DeviceManager_liaison st
        /\ (out_res o = Return h' \/ (startLoop = true /\ is_return (out_res o) = false))).
Proof.
  intros o. subst o.
  destruct (make_listener_cases lsnr h st) as [[Hh Hnone] | [h' Hmake]].
  - left. subst h. unfold BaseResponseDevice.addListener.
    rewrite (bind_raises _ _ _ _ _ _ (make_listener_liaison_none lsnr st Hnone)).
    now repeat split.
  - right. exists h'. rewrite (addListener_resolved lsnr self h h' startLoop st Hmake).
    destruct startLoop; cbv zeta iota; [|now repeat split; left].
    destruct (call_startLoop_frame h' (set_listeners (listeners st ++ [h']) st))
      as (Hresp & Hls & Hliaison).
    cbn [out_state out_res]. rewrite Hresp, Hls, Hliaison.
    repeat split.
    destruct (out_res (BaseResponseDevice.call_startLoop h' _)) as [[]|e];
      cbn [rbind]; [now left | right; now split].
Qed.

End ListenerProperties.

Section DetachProperties.
Context {World Liaison : Type}.
Implicit Types (self : DeviceClass World Liaison) (st : State World Liaison).
Implicit Types (lsnr : ListenerModule World Liaison) (h : Handle World).

(** *** [clearListeners] *)

Lemma removal_run_returns ls w w' :
  removal_returns ls w w' ->
  forall st, world st = w ->
    for_each ls BaseResponseDevice.call_removeDevice st
    = mkOut (Return tt) (set_world (Liaison := Liaison) w' st) (remove_calls ls).
Proof.
  induction 1 as [w | l loop ls w w1 w' Hloop Hl Hrest IH]; intros st Hw.
  - subst w. cbn. unfold ret. now rewrite set_world_same.
  - subst w. cbn [for_each]. unfold bind.
    cbn [BaseResponseDevice.call_removeDevice]. rewrite Hloop. unfold call_out. rewrite Hl.
    cbn [out_res out_state out_calls].
    rewrite (IH (set_world w1 st) eq_refl). reflexivity.
Qed.

Lemma removal_run_raises pre h post w w1 e w2 calls :
  removal_returns pre w w1 ->
  removal_raises h w1 e w2 calls ->
  forall st, world st = w ->
    for_each (pre ++ h :: post) BaseResponseDevice.call_removeDevice st
    = mkOut (Raise e) (set_world (Liaison := Liaison) w2 st) (remove_calls pre ++ calls).
Proof.
  induction 1 as [w | l loop ls w w0 w1 Hloop Hl Hrest IH]; intros Hh st Hw.
  - cbn [app for_each remove_calls flat_map]. unfold bind.
    destruct Hh as [l loop w e w2 Hloop Hl | l w Hloop | v w]; subst w;
      cbn [BaseResponseDevice.call_removeDevice].
    + rewrite Hloop. unfold call_out. rewrite Hl. reflexivity.
    + rewrite Hloop. unfold raise. cbn. now rewrite set_world_same.
    + unfold raise. cbn. now rewrite set_world_same.
  - subst w. cbn [app for_each]. unfold bind.
    cbn [BaseResponseDevice.call_removeDevice]. rewrite Hloop. unfold call_out. rewrite Hl.
    cbn [out_res out_state out_calls].
    rewrite (IH Hh (set_world w0 st) eq_refl). reflexivity.
Qed.

(** X7.  When every attached listener has a loop whose [removeDevice]
    returns, [clearListeners] calls [removeDevice] once for each listener,
    in the order of [listeners], then empties [listeners] and returns
    [True]; [responses] is left as it is. *)
Theorem clearListeners_detaches_all self st w' :
  removal_returns (listeners st) (world st) w' ->
  BaseResponseDevice.clearListeners self st
  = mkOut (Return true) (set_world w' (set_listeners [] st)) (remove_calls (listeners st))
  /\ exists objs : list (Listener World),
       listeners st = map HListener objs
       /\ remove_calls (listeners st) = map CallRemoveDevice objs.
Proof.
  intros Hrem. split.
  - unfold BaseResponseDevice.clearListeners. rewrite bind_gets_l.
    rewrite (bind_returns_then _ _ _ _ _ _ (removal_run_returns _ _ _ Hrem st eq_refl)).
    rewrite bind_modify_l. cbn [ret out_res out_state out_calls].
    now rewrite app_nil_r.
  - clear self. induction Hrem as [w | l loop ls w w1 w' Hloop Hl Hrest [objs [Hls Hcalls]]].
    + now exists [].
    + exists (l :: objs). split; [cbn [map]; now rewrite Hls|].
      change (remove_calls (HListener l :: ls)) with (CallRemoveDevice l :: remove_calls ls).
      now rewrite Hcalls.
Qed.

(** X8.  When the removal of a listener raises, or a handle in
    [listeners] has no [loop] (a string, say), [clearListeners] raises
    that exception and [listeners] is left whole: the listeners already
    removed from their loops are still attached, and those after the
    failing one have not been asked. *)
Theorem clearListeners_failure_keeps_listeners self st pre h post w1 e w2 calls :
  listeners st = pre ++ h :: post ->
  removal_returns pre (world st) w1 ->
  removal_raises h w1 e w2 calls ->
  BaseResponseDevice.clearListeners self st
  = mkOut (Raise e) (set_world w2 st) (remove_calls pre ++ calls)
  /\ listeners (out_state (BaseResponseDevice.clearListeners self st)) = pre ++ h :: post.
Proof.
  intros Hls Hpre Hh.
  assert (Hrun : BaseResponseDevice.clearListeners self st
                 = mkOut (Raise e) (set_world w2 st) (remove_calls pre ++ calls)).
  { unfold BaseResponseDevice.clearListeners. rewrite bind_gets_l, Hls.
    apply bind_raises. exact (removal_run_raises pre h post _ _ _ _ _ Hpre Hh st eq_refl). }
  split; [exact Hrun|]. rewrite Hrun. exact Hls.
Qed.

(** *** [makeResponse] and [receiveMessage] *)

Lemma makeResponse_constructor_raises self args kwargs e st :
  construct (responseClass self) args kwargs = Raise e ->
  BaseResponseDevice.makeResponse self args kwargs st = mkOut (Raise e) st [].
Proof.
  intros Hnew. unfold BaseResponseDevice.makeResponse.
  apply bind_raises. unfold lift. now rewrite Hnew.
Qed.

Lemma receiveMessage_invalid_state self message st :
  isinstance message (rc_class (responseClass self)) = false ->
  out_state (BaseResponseDevice.receiveMessage self message st) = st.
Proof.
  intros Hty. unfold BaseResponseDevice.receiveMessage, bind, py_assert. now rewrite Hty.
Qed.

(** X9.  When the response class refuses the arguments, [makeResponse]
    raises the exception of the constructor: nothing is stored and no
    listener is called. *)
Theorem makeResponse_rejected self args kwargs e st :
  construct (responseClass self) args kwargs = Raise e ->
  BaseResponseDevice.makeResponse self args kwargs st = mkOut (Raise e) st [].
Proof.
  exact (makeResponse_constructor_raises self args kwargs e st).
Qed.

Lemma call_receiveMessage_liaison message h st :
  DeviceManager_liaison (out_state (BaseResponseDevice.call_receiveMessage h message st))
  = DeviceManager_liaison st.
Proof.
  destruct h; cbn [BaseResponseDevice.call_receiveMessage]; [|reflexivity].
  unfold call_out. now destruct (l_receiveMessage l message (world st)).
Qed.

(** X10.  [receiveMessage] writes [responses] only: whatever the message
    is and whatever the listeners do, [listeners] and
    [DeviceManager.liaison] are as before, and [responses] is as before
    or has the message appended.  With no listener attached a valid
    message is stored, [True] is returned, and the world is untouched. *)
Theorem receiveMessage_frame self message st :
  let o := BaseResponseDevice.receiveMessage self message st in
  listeners (out_state o) = listeners st
  /\ DeviceManager_liaison (out_state o) = DeviceManager_liaison st
  /\ responses (out_state o)
     = (if isinstance message (rc_class (responseClass self))
        then responses st ++ [message] else responses st)
  /\ (listeners st = [] -> isinstance message (rc_class (responseClass self)) = true ->
      o = mkOut (Return true) (set_responses (responses st ++ [message]) st) []).
Proof.
  intros o. subst o.
  split; [apply receiveMessage_listeners|].
  destruct (isinstance message (rc_class (responseClass self))) eqn:Hty.
  - split.
    { rewrite (receiveMessage_unfold _ _ _ Hty). cbn [out_state].
      rewrite (for_each_preserves DeviceManager_liaison); [reflexivity|].
      intros; apply call_receiveMessage_liaison. }
    split; [now apply receiveMessage_responses|].
    intros Hnone _. rewrite (receiveMessage_unfold _ _ _ Hty). cbv zeta.
    rewrite listeners_set_responses, Hnone. reflexivity.
  - unfold BaseResponseDevice.receiveMessage, bind, py_assert. rewrite Hty.
    repeat split. intros _ Hfalse. discriminate Hfalse.
Qed.

(** X11.  The response log only grows, except by [clearResponses]: each
    of the other operations of this module (the [dispatchMessages] of a
    class that does not override it among them) leaves [responses] as it
    was or with one record appended. *)
Theorem responses_append_only lsnr self op st :
  op <> OpClearResponses ->
  override_dispatchMessages self = None ->
  exists added,
    responses (run_op lsnr self op st) = responses st ++ added
    /\ length added <= 1.
Proof.
  intros Hop Hnone.
  destruct op as [message | args kwargs | | | h startLoop | ]; cbn [run_op].
  - destruct (isinstance message (rc_class (responseClass self))) eqn:Hty.
    + exists [message]. split; [now apply receiveMessage_responses | cbn; lia].
    + exists []. rewrite (receiveMessage_invalid_state _ _ _ Hty).
      split; [now rewrite app_nil_r | cbn; lia].
  - destruct (construct (responseClass self) args kwargs) as [resp | e] eqn:Hnew.
    + exists [resp]. split; [|cbn; lia].
      unfold BaseResponseDevice.makeResponse, bind at 1, lift. rewrite Hnew.
      cbn [out_res out_state]. unfold bind.
      pose proof (receiveMessage_responses self resp st
                    (isinstance_construct _ _ _ _ Hnew)) as Hresp.
      destruct (out_res (BaseResponseDevice.receiveMessage self resp st));
        cbn [out_state ret]; exact Hresp.
    + exists []. rewrite (makeResponse_constructor_raises self args kwargs e st Hnew).
      split; [now rewrite app_nil_r | cbn; lia].
  - now contradiction Hop.
  - exists []. unfold dispatchMessages_of. rewrite Hnone.
    split; [now rewrite app_nil_r | cbn; lia].
  - exists []. rewrite addListener_responses. split; [now rewrite app_nil_r | cbn; lia].
  - exists []. rewrite clearListeners_responses. split; [now rewrite app_nil_r | cbn; lia].
Qed.

(** X12.  [addListener] does not look for a listener that is attached
    already: a listener added twice is twice in [listeners], and a message
    is then relayed to it twice. *)
Theorem addListener_twice_relays_twice lsnr self (l : Listener World) message st w1 w2 :
  isinstance message (rc_class (responseClass self)) = true ->
  listeners st = [] ->
  l_receiveMessage l message (world st) = (Return tt, w1) ->
  l_receiveMessage l message w1 = (Return tt, w2) ->
  let st1 := out_state (BaseResponseDevice.addListener lsnr self (HListener l) false st) in
  let st2 := out_state (BaseResponseDevice.addListener lsnr self (HListener l) false st1) in
  listeners st2 = [HListener l; HListener l]
  /\ BaseResponseDevice.receiveMessage self message st2
     = mkOut (Return true)
         (set_world w2 (set_responses (responses st ++ [message]) st2))
         [CallReceiveMessage l message; CallReceiveMessage l message].
Proof.
  intros Hty Hnone Hfirst Hsecond st1 st2. subst st2 st1.
  rewrite !(fun s => addListener_resolved lsnr self (HListener l) (HListener l) false s
                       (make_listener_object lsnr l s)).
  cbv zeta iota. cbn [out_state listeners set_listeners].
  rewrite Hnone. split; [reflexivity|].
  rewrite (receiveMessage_unfold _ _ _ Hty). cbv zeta.
  rewrite listeners_set_responses. cbn [listeners set_listeners app].
  rewrite (relay_run_returns message [HListener l; HListener l] (world st) w2).
  - reflexivity.
  - apply (relay_cons message l [HListener l] (world st) w1 w2 Hfirst).
    apply (relay_cons message l [] w1 w2 w2 Hsecond). apply relay_nil.
  - reflexivity.
Qed.

(** X13.  On a class that does not override [dispatchMessages],
    [clearResponses] only empties [responses] (listeners, liaison and world
    are as before, no listener is called), and a second [clearResponses]
    changes nothing more. *)
Theorem clearResponses_plain_idempotent self st :
  override_dispatchMessages self = None ->
  let o := BaseResponseDevice.clearResponses self st in
  o = mkOut (Return true) (set_responses [] st) [CallDispatchMessages []]
  /\ BaseResponseDevice.clearResponses self (out_state o) = o.
Proof.
  intros Hnone o.
  assert (Hrun : forall s, BaseResponseDevice.clearResponses self s
                 = mkOut (Return true) (set_responses [] s) [CallDispatchMessages []]).
  { intros s. unfold BaseResponseDevice.clearResponses, bind, try_except_pass,
      BaseResponseDevice.call_dispatchMessages. rewrite Hnone. reflexivity. }
  subst o. split; [apply Hrun|]. rewrite !Hrun. reflexivity.
Qed.

End DetachProperties.

(** ** Further properties of [BaseResponse] *)

Lemma add_fields_app py self a b stop message :
  BaseResponse.add_fields py self (a ++ b) stop message
  = rbind (BaseResponse.add_fields py self a None message)
      (BaseResponse.add_fields py self b stop).
Proof.
  revert message. induction a as [|k a IH]; intros message; cbn [app BaseResponse.add_fields].
  - reflexivity.
  - destruct (attribute_name k) as [name|e]; cbn [rbind]; [|reflexivity].
    destruct (py_getattr py self name) as [v|e]; cbn [rbind]; [|reflexivity].
    destruct (BaseResponse.setitem_data message name v) as [m|e]; cbn [rbind];
      [apply IH | reflexivity].
Qed.

Lemma getJSON_message_missing py self fields pre k post stop value e :
  py_getattr py self "fields" = Return fields ->
  py_iter py fields = Return (map VStr (pre ++ k :: post), stop) ->
  (forall k', In k' pre -> py_getattr py self k' = Return (value k')) ->
  py_getattr py self k = Raise e ->
  BaseResponse.getJSON_message py self = Raise e.
Proof.
  intros Hfields Hiter Hpre Hk. unfold BaseResponse.getJSON_message.
  rewrite Hfields. cbn [rbind]. rewrite Hiter. cbn [rbind fst snd].
  rewrite map_app, add_fields_app.
  pose proof (add_fields_envelope py self (cls_name (type_of self)) value pre [] Hpre) as Hrun.
  change (field_items value []) with (@nil (string * PyVal)) in Hrun.
  unfold envelope in Hrun at 1. rewrite Hrun.
  cbn [rbind map BaseResponse.add_fields attribute_name]. now rewrite Hk.
Qed.

Lemma repr_attrs_present py self keys value text : forall acc,
  (forall k, In k keys -> py_getattr py self k = Return (value k)) ->
  (forall k, In k keys -> format_value py (value k) = Return (text k)) ->
  BaseResponse.repr_attrs py self (map VStr keys) None acc
  = Return (acc ++ map (fun k => (k ++ "=" ++ text k)%string) keys).
Proof.
  induction keys as [|k keys IH]; intros acc Hhas Htext;
    cbn [map BaseResponse.repr_attrs format_value rbind].
  - now rewrite app_nil_r.
  - unfold getattr. cbn [attribute_name rbind].
    rewrite (Hhas k (or_introl eq_refl)). cbn [rbind].
    rewrite (Htext k (or_introl eq_refl)). cbn [rbind].
    rewrite IH; [now rewrite <- app_assoc | |];
      intros k' Hin; [apply Hhas | apply Htext]; now right.
Qed.

Lemma repr_attrs_app py self a b stop : forall acc,
  BaseResponse.repr_attrs py self (a ++ b) stop acc
  = rbind (BaseResponse.repr_attrs py self a None acc)
      (BaseResponse.repr_attrs py self b stop).
Proof.
  induction a as [|k a IH]; intros acc; cbn [app BaseResponse.repr_attrs].
  - reflexivity.
  - destruct (format_value py k) as [kt|e]; cbn [rbind]; [|reflexivity].
    destruct (getattr py self k) as [v|e]; cbn [rbind]; [|reflexivity].
    destruct (format_value py v) as [vt|e]; cbn [rbind]; [apply IH | reflexivity].
Qed.

(** X14.  For a record whose [fields] runs through the names [keys],
    that has a value for each of them, each of which can be formatted,
    [__repr__] returns ["<Name: f1=v1, f2=v2, ...>"]: the name of the
    record's class, then the names in their order, each with the
    formatted text of its value (a name listed twice is written twice). *)
Theorem repr_lists_fields (py : Interpreter) (self fields : PyVal) (keys : list string)
    (value : string -> PyVal) (text : string -> string) :
  py_getattr py self "fields" = Return fields ->
  py_iter py fields = Return (map VStr keys, None) ->
  (forall k, In k keys -> py_getattr py self k = Return (value k)) ->
  (forall k, In k keys -> format_value py (value k) = Return (text k)) ->
  BaseResponse.__repr__ py self
  = Return ("<" ++ cls_name (type_of self) ++ ": "
            ++ String.concat ", " (map (fun k => (k ++ "=" ++ text k)%string) keys)
            ++ ">")%string.
Proof.
  intros Hfields Hiter Hhas Htext. unfold BaseResponse.__repr__.
  rewrite Hfields. cbn [rbind]. rewrite Hiter. cbn [rbind fst snd].
  now rewrite (repr_attrs_present py self keys value text [] Hhas Htext).
Qed.

(** X15.  When [getattr] raises for one of the names [fields] runs
    through (an [AttributeError] when neither the record nor its class has
    the attribute), [getJSON] raises that exception for the first such
    name, whatever comes after it and before [json.dumps] is reached;
    [__repr__] raises it too when the values before it can be
    formatted. *)
Theorem missing_field_raises (py : Interpreter) (self fields : PyVal)
    (pre : list string) (k : string) (post : list string) (stop : option Exn)
    (value : string -> PyVal) (e : Exn) :
  py_getattr py self "fields" = Return fields ->
  py_iter py fields = Return (map VStr (pre ++ k :: post), stop) ->
  (forall k', In k' pre -> py_getattr py self k' = Return (value k')) ->
  py_getattr py self k = Raise e ->
  BaseResponse.getJSON py self = Raise e
  /\ ((forall k', In k' pre -> is_return (format_value py (value k')) = true) ->
      BaseResponse.__repr__ py self = Raise e).
Proof.
  intros Hfields Hiter Hpre Hk. split.
  - unfold BaseResponse.getJSON.
    now rewrite (getJSON_message_missing py self fields pre k post stop value e).
  - intros Hfmt. unfold BaseResponse.__repr__.
    rewrite Hfields. cbn [rbind]. rewrite Hiter. cbn [rbind fst snd].
    rewrite map_app, repr_attrs_app.
    set (text := fun k' => match format_value py (value k') with
                           | Return s => s
                           | Raise _ => EmptyString
                           end).
    rewrite (repr_attrs_present py self pre value text [] Hpre).
    + cbn [rbind map BaseResponse.repr_attrs format_value]. unfold getattr.
      cbn [attribute_name rbind]. now rewrite Hk.
    + intros k' Hin. specialize (Hfmt k' Hin). unfold text.
      destruct (format_value py (value k')); [reflexivity | discriminate].
Qed.

Lemma bind_params_t_value args kwargs bound :
  bind_params ["t"; "value"] args kwargs = Return bound ->
  exists t value, bound = [("t", t); ("value", value)].
Proof.
  cbn [bind_params].
  destruct args as [|a0 [|a1 [|a2 args]]].
  - destruct (dict_get "t" kwargs) as [t|]; [|discriminate].
    destruct (dict_get "value" (dict_remove "t" kwargs)) as [v|]; cbn [rbind]; [|discriminate].
    destruct (dict_remove "value" (dict_remove "t" kwargs)) as [|[k x] rest];
      cbn [rbind]; [|discriminate].
    intros H. inversion H. eauto.
  - destruct (dict_get "t" kwargs) as [t|]; [discriminate|].
    destruct (dict_get "value" kwargs) as [v|]; cbn [rbind]; [|discriminate].
    destruct (dict_remove "value" kwargs) as [|[k x] rest]; cbn [rbind]; [|discriminate].
    intros H. inversion H. eauto.
  - destruct (dict_get "t" kwargs) as [t|]; [discriminate|].
    destruct (dict_get "value" kwargs) as [v|]; cbn [rbind]; [discriminate|].
    destruct kwargs as [|[k x] rest]; cbn [rbind]; [|discriminate].
    intros H. inversion H. eauto.
  - destruct (dict_get "t" kwargs) as [t|]; [discriminate|].
    destruct (dict_get "value" kwargs) as [v|]; cbn [rbind]; discriminate.
Qed.

(** X17.  Every record [BaseResponse(...)] builds has the two attributes
    [t] and [value] and no other.  Where attribute access on the
    instances of [BaseResponse] finds the class attribute [fields] and
    the two instance attributes, [getJSON] on the record gives the text
    [{"type": "hardware_response", "class": "BaseResponse", "data": {"t": T, "value": V}}]
    with [T] and [V] the JSON texts of the two values, or the exception
    of the first of them that [json.dumps] cannot encode. *)
Theorem BaseResponse_wire_format (py : Interpreter) (room : nat) args kwargs resp :
  reads_record py BaseResponse.cls ->
  dumps_room py = S (S room) ->
  construct BaseResponse.class args kwargs = Return resp ->
  exists t value,
    resp = VInstance BaseResponse.cls [("t", t); ("value", value)]
    /\ BaseResponse.getJSON py resp
       = rbind (json_encode room t) (fun T =>
         rbind (json_encode room value) (fun V =>
         Return (with_dquotes "{'type': 'hardware_response', 'class': 'BaseResponse', 'data': {'t': "
                 ++ T ++ with_dquotes ", 'value': " ++ V ++ "}}")%string)).
Proof.
  intros Hreads Hroom.
  unfold construct. cbn [BaseResponse.class rc_init rc_class]. unfold BaseResponse.__init__.
  destruct (bind_params ["t"; "value"] args kwargs) as [bound | e] eqn:Hbind;
    cbn [rbind]; [|discriminate].
  destruct (bind_params_t_value _ _ _ Hbind) as (t & value & Hbound). subst bound.
  cbn. intros H. inversion H; subst resp. clear H.
  exists t, value. split; [reflexivity|].
  set (attrs := [("t", t); ("value", value)]).
  destruct (Hreads attrs eq_refl) as [Hfields Hattrs].
  set (val := fun k => if String.eqb k "t" then t else value).
  assert (Hmsg : BaseResponse.getJSON_message py (VInstance BaseResponse.cls attrs)
                 = Return (envelope "BaseResponse" (field_items val ["t"; "value"]))).
  { apply (getJSON_message_envelope py _ _ ["t"; "value"] val Hfields eq_refl).
    intros k [<-|[<-|[]]]; apply Hattrs; cbn; auto. }
  unfold BaseResponse.getJSON. rewrite Hmsg. cbn [rbind]. unfold json_dumps.
  rewrite Hroom, json_encode_envelope, json_encode_dict.
  cbn [field_items map]. rewrite !json_pairs_cons. change (val "t") with t.
  change (val "value") with value.
  destruct (json_encode room t) as [T|e]; cbn [rbind]; [|reflexivity].
  destruct (json_encode room value) as [V|e]; cbn [rbind]; [|reflexivity].
  cbn [json_pairs rbind String.concat]. unfold envelope_text. f_equal.
  rewrite !string_app_assoc. reflexivity.
Qed.

(** ** The registration of device classes *)

Section RegistrationProperties.
Context {Aliases : Type}.
Variable registerClassAlias : PyVal -> string -> Aliases -> Result unit * Aliases.
Variable getmodule : pyclass -> option string.

Lemma register_aliases_returns mro items a a' :
  BaseDevice.registered registerClassAlias mro items a a' ->
  BaseDevice.register_aliases registerClassAlias items mro a
  = (Return tt, a', map (fun alias => (alias, mro)) items).
Proof.
  induction 1 as [a | alias rest a a1 a' Hcall Hrest IH]; cbn [BaseDevice.register_aliases map].
  - reflexivity.
  - now rewrite Hcall, IH.
Qed.

Lemma register_aliases_raises mro pre alias post a a1 e a2 :
  BaseDevice.registered registerClassAlias mro pre a a1 ->
  registerClassAlias alias mro a1 = (Raise e, a2) ->
  BaseDevice.register_aliases registerClassAlias (pre ++ alias :: post) mro a
  = (Raise e, a2, map (fun alias => (alias, mro)) (pre ++ [alias])).
Proof.
  induction 1 as [a | alias0 rest a a0 a1 Hcall Hrest IH]; intros Hraise;
    cbn [app BaseDevice.register_aliases map].
  - now rewrite Hraise.
  - now rewrite Hcall, (IH Hraise).
Qed.

Lemma registered_total mro :
  (forall alias a, exists a', registerClassAlias alias mro a = (Return tt, a')) ->
  forall items a, exists a', BaseDevice.registered registerClassAlias mro items a a'.
Proof.
  intros Hok items. induction items as [|alias rest IH]; intros a.
  - exists a. constructor.
  - destruct (Hok alias a) as [a1 Hcall]. destruct (IH a1) as [a' Hrest].
    exists a'. now apply (BaseDevice.registered_cons _ _ alias rest a a1 a').
Qed.

(** X18.  Declaring a subclass of [BaseDevice] whose module
    [inspect.getmodule] finds registers each alias, in the order given,
    under the string made of the module's name, a point and the name of
    the class, then appends that string to [DeviceManager.deviceClasses],
    and gives back the class; with no [aliases] argument only the append
    is made.  A single string given as [aliases] is registered character
    by character. *)
Theorem init_subclass_registers (cls : pyclass) (arg : BaseDevice.AliasesArg)
    (dm : BaseDevice.DeviceManager) (module_name : string) (a' : Aliases) :
  getmodule cls = Some module_name ->
  BaseDevice.registered registerClassAlias (module_name ++ "." ++ cls_name cls)%string
    (BaseDevice.aliases_items arg) (BaseDevice.aliases dm) a' ->
  BaseDevice.__init_subclass__ registerClassAlias getmodule cls arg dm
  = BaseDevice.mkDeclared (Return cls)
      {| BaseDevice.deviceClasses :=
           BaseDevice.deviceClasses dm ++ [(module_name ++ "." ++ cls_name cls)%string];
         BaseDevice.aliases := a' |}
      (map (fun alias => (alias, (module_name ++ "." ++ cls_name cls)%string))
         (BaseDevice.aliases_items arg))
  /\ BaseDevice.__init_subclass__ registerClassAlias getmodule cls BaseDevice.AliasesNone dm
     = BaseDevice.mkDeclared (Return cls)
         {| BaseDevice.deviceClasses :=
              BaseDevice.deviceClasses dm ++ [(module_name ++ "." ++ cls_name cls)%string];
            BaseDevice.aliases := BaseDevice.aliases dm |} []
  /\ (forall s, arg = BaseDevice.AliasesStr s ->
        length (BaseDevice.decl_calls
                  (BaseDevice.__init_subclass__ registerClassAlias getmodule cls arg dm))
        = String.length s).
Proof.
  intros Hmod Hreg. unfold BaseDevice.__init_subclass__, BaseDevice.class_string.
  rewrite Hmod, (register_aliases_returns _ _ _ _ Hreg).
  split; [reflexivity|]. split; [reflexivity|].
  intros s Harg. subst arg. cbn [BaseDevice.decl_calls BaseDevice.aliases_items].
  rewrite !length_map. clear Hreg.
  induction s as [|ch s IH]; cbn; [reflexivity | now rewrite IH].
Qed.

(** X19.  When the registration of an alias raises, the declaration
    raises that exception: the class string is not appended to
    [deviceClasses] and the aliases after the failing one are not
    registered, while those before it stay registered. *)
Theorem init_subclass_alias_failure (cls : pyclass) (arg : BaseDevice.AliasesArg)
    (dm : BaseDevice.DeviceManager) (module_name : string) pre alias post a1 e a2 :
  getmodule cls = Some module_name ->
  BaseDevice.aliases_items arg = pre ++ alias :: post ->
  BaseDevice.registered registerClassAlias (module_name ++ "." ++ cls_name cls)%string pre
    (BaseDevice.aliases dm) a1 ->
  registerClassAlias alias (module_name ++ "." ++ cls_name cls)%string a1 = (Raise e, a2) ->
  BaseDevice.__init_subclass__ registerClassAlias getmodule cls arg dm
  = BaseDevice.mkDeclared (Raise e)
      {| BaseDevice.deviceClasses := BaseDevice.deviceClasses dm; BaseDevice.aliases := a2 |}
      (map (fun alias => (alias, (module_name ++ "." ++ cls_name cls)%string))
         (pre ++ [alias])).
Proof.
  intros Hmod Hitems Hpre Hraise. unfold BaseDevice.__init_subclass__, BaseDevice.class_string.
  now rewrite Hmod, Hitems, (register_aliases_raises _ _ _ post _ _ _ _ Hpre Hraise).
Qed.

(** X20.  With a manager whose [registerClassAlias] does not raise and
    classes whose modules [inspect.getmodule] finds, [deviceClasses]
    lists the declared classes in the order of their declaration, one
    entry per declaration: a class declared again (a module loaded twice)
    is listed again. *)
Theorem declare_all_lists_classes (decls : list (pyclass * BaseDevice.AliasesArg))
    (module_name : pyclass -> string) (dm : BaseDevice.DeviceManager) :
  (forall alias mro a, exists a', registerClassAlias alias mro a = (Return tt, a')) ->
  (forall d, In d decls -> getmodule (fst d) = Some (module_name (fst d))) ->
  BaseDevice.deviceClasses (BaseDevice.declare_all registerClassAlias getmodule decls dm)
  = BaseDevice.deviceClasses dm
    ++ map (fun d => (module_name (fst d) ++ "." ++ cls_name (fst d))%string) decls.
Proof.
  intros Hok. revert dm.
  induction decls as [|[cls arg] rest IH]; intros dm Hmod;
    cbn [BaseDevice.declare_all map fst].
  - now rewrite app_nil_r.
  - pose proof (Hmod (cls, arg) (or_introl eq_refl)) as Hcls. cbn [fst] in Hcls.
    destruct (registered_total (module_name cls ++ "." ++ cls_name cls)%string
                (fun alias a => Hok alias _ a)
                (BaseDevice.aliases_items arg) (BaseDevice.aliases dm)) as [a' Hreg].
    rewrite IH by (intros d Hin; apply Hmod; now right).
    unfold BaseDevice.__init_subclass__, BaseDevice.class_string.
    rewrite Hcls, (register_aliases_returns _ _ _ _ Hreg).
    cbn [BaseDevice.decl_manager BaseDevice.deviceClasses].
    now rewrite <- app_assoc.
Qed.

(** X22.  When [inspect.getmodule] finds no module for the class, the
    declaration raises the [AttributeError] of [None.__name__] before
    anything is registered: no alias is registered and [deviceClasses]
    is left as it was. *)
Theorem init_subclass_no_module (cls : pyclass) (arg : BaseDevice.AliasesArg)
    (dm : BaseDevice.DeviceManager) :
  getmodule cls = None ->
  BaseDevice.__init_subclass__ registerClassAlias getmodule cls arg dm
  = BaseDevice.mkDeclared
      (Raise (AttributeError "'NoneType' object has no attribute '__name__'")) dm [].
Proof.
  intros Hmod. unfold BaseDevice.__init_subclass__, BaseDevice.class_string.
  now rewrite Hmod.
Qed.

End RegistrationProperties.

(** ** Records of subclasses *)

Lemma issubclass_base (c b target : pyclass) :
  In b (cls_bases c) -> issubclass b target = true -> issubclass c target = true.
Proof.
  intros Hin Hb. destruct c as [m n bases fs]. cbn [issubclass].
  apply orb_true_iff. right. apply existsb_exists. exists b. now split.
Qed.

(** X21.  [receiveMessage] takes the records of subclasses: a record
    whose class has the device's [responseClass], or a subclass of it,
    among its bases is stored like a record of [responseClass] itself. *)
Theorem receiveMessage_accepts_subclass {World Liaison : Type}
    (self : DeviceClass World Liaison) (c b : pyclass) attrs (st : State World Liaison) :
  In b (cls_bases c) ->
  issubclass b (rc_class (responseClass self)) = true ->
  responses (out_state (BaseResponseDevice.receiveMessage self (VInstance c attrs) st))
  = responses st ++ [VInstance c attrs]
  /\ (listeners st = [] ->
      out_res (BaseResponseDevice.receiveMessage self (VInstance c attrs) st) = Return true).
Proof.
  intros Hin Hb.
  assert (Hty : isinstance (VInstance c attrs) (rc_class (responseClass self)) = true).
  { exact (issubclass_base c b _ Hin Hb). }
  split; [now apply receiveMessage_responses|].
  intros Hnone. rewrite (receiveMessage_unfold _ _ _ Hty). cbv zeta.
  rewrite listeners_set_responses, Hnone. reflexivity.
Qed.

(** * The further properties at concrete devices *)

Section MoreConcrete.
Import Examples MoreExamples.

(** X3 at a device with a liaison server connected. *)
Lemma addListener_liaison_connected_witness :
  DeviceManager_liaison connected = Some tt
  /\ BaseResponseDevice.addListener lsnr device (HValue (VStr "liaison")) false connected
     = mkOut (Return (HListener (recorder "LiaisonListener")))
         (set_listeners [HListener (recorder "LiaisonListener")] connected) [].
Proof.
  exact (conj eq_refl (addListener_liaison_connected lsnr device connected tt eq_refl)).
Defined.

(** X4 at the string ["prnt"]. *)
Lemma addListener_string_startLoop_witness :
  "prnt" <> "liaison" /\ "prnt" <> "print" /\ "prnt" <> "log"
  /\ BaseResponseDevice.addListener lsnr device (HValue (VStr "prnt")) true fresh
     = mkOut (Raise (AttributeError "'str' object has no attribute 'startLoop'"))
         (with_listeners [HValue (VStr "prnt")]) [].
Proof.
  assert (H1 : "prnt" <> "liaison") by discriminate.
  assert (H2 : "prnt" <> "print") by discriminate.
  assert (H3 : "prnt" <> "log") by discriminate.
  exact (conj H1 (conj H2 (conj H3
           (addListener_string_startLoop lsnr device "prnt" fresh H1 H2 H3)))).
Defined.

(** X5 at a listener whose [startLoop] returns, and at one whose
    [startLoop] raises. *)
Lemma addListener_startLoop_witness :
  l_startLoop looping = Some (fun w => (Return tt, w ++ ["started"]))
  /\ BaseResponseDevice.addListener lsnr device (HListener looping) true fresh
     = mkOut (Return (HListener looping))
         (set_world ["started"] (with_listeners [HListener looping]))
         [CallStartLoop looping]
  /\ BaseResponseDevice.addListener lsnr device (HListener stuck) true fresh
     = mkOut (Raise (OtherError "RuntimeError" "no loop"))
         (with_listeners [HListener stuck])
         [CallStartLoop stuck].
Proof.
  exact (conj eq_refl
          (conj (addListener_startLoop lsnr device looping _ fresh _ _ eq_refl eq_refl)
                (addListener_startLoop lsnr device stuck _ fresh _ _ eq_refl eq_refl))).
Defined.

(** X7 at a device with two listeners. *)
Lemma clearListeners_detaches_all_witness :
  removal_returns (listeners (with_listeners [HListener looping; HListener printer]))
    (world (with_listeners [HListener looping; HListener printer])) ["removed"]
  /\ BaseResponseDevice.clearListeners device (with_listeners [HListener looping; HListener printer])
     = mkOut (Return true) (set_world ["removed"] fresh)
         [CallRemoveDevice looping; CallRemoveDevice printer].
Proof.
  assert (Hrem : removal_returns
                   (listeners (with_listeners [HListener looping; HListener printer]))
                   (world (with_listeners [HListener looping; HListener printer]))
                   ["removed"]).
  { apply (removal_cons looping _ [HListener printer] [] ["removed"] ["removed"] eq_refl eq_refl).
    apply (removal_cons printer _ [] ["removed"] ["removed"] ["removed"] eq_refl eq_refl).
    apply removal_nil. }
  exact (conj Hrem (proj1 (clearListeners_detaches_all device
                             (with_listeners [HListener looping; HListener printer])
                             ["removed"] Hrem))).
Defined.

(** X8 at a device whose second listener cannot be removed, and at one
    that holds a string. *)
Lemma clearListeners_failure_keeps_listeners_witness :
  listeners (with_listeners [HListener looping; HListener stuck; HListener printer])
  = [HListener looping] ++ HListener stuck :: [HListener printer]
  /\ removal_returns [HListener looping] [] ["removed"]
  /\ removal_raises (HListener stuck) ["removed"]
       (OtherError "RuntimeError" "still running") ["removed"] [CallRemoveDevice stuck]
  /\ BaseResponseDevice.clearListeners device
       (with_listeners [HListener looping; HListener stuck; HListener printer])
     = mkOut (Raise (OtherError "RuntimeError" "still running"))
         (set_world ["removed"]
            (with_listeners [HListener looping; HListener stuck; HListener printer]))
         [CallRemoveDevice looping; CallRemoveDevice stuck]
  /\ BaseResponseDevice.clearListeners device (with_listeners [HValue (VStr "prnt")])
     = mkOut (Raise (AttributeError "'str' object has no attribute 'loop'"))
         (with_listeners [HValue (VStr "prnt")]) [].
Proof.
  assert (Hpre : removal_returns (World := World) [HListener looping] [] ["removed"]).
  { apply (removal_cons looping _ [] [] ["removed"] ["removed"] eq_refl eq_refl).
    apply removal_nil. }
  assert (Hraise : removal_raises (HListener stuck) ["removed"]
                     (OtherError "RuntimeError" "still running") ["removed"]
                     [CallRemoveDevice stuck]).
  { exact (removal_raises_loop stuck _ ["removed"] _ ["removed"] eq_refl eq_refl). }
  exact (conj eq_refl (conj Hpre (conj Hraise
          (conj (proj1 (clearListeners_failure_keeps_listeners device
                          (with_listeners [HListener looping; HListener stuck; HListener printer])
                          [HListener looping] (HListener stuck) [HListener printer]
                          ["removed"] _ ["removed"] _ eq_refl Hpre Hraise))
                (proj1 (clearListeners_failure_keeps_listeners device
                          (with_listeners [HValue (VStr "prnt")])
                          [] (HValue (VStr "prnt")) [] [] _ [] _ eq_refl
                          (removal_nil []) (removal_value (VStr "prnt") []))))))).
Defined.

(** X9 at [makeResponse(5, 42, None)]. *)
Lemma makeResponse_rejected_witness :
  construct (responseClass device) [VInt 5; VInt 42; VNone] []
  = Raise (TypeError "too many positional arguments")
  /\ BaseResponseDevice.makeResponse device [VInt 5; VInt 42; VNone] [] only_printer
     = mkOut (Raise (TypeError "too many positional arguments")) only_printer [].
Proof.
  exact (conj eq_refl (makeResponse_rejected device [VInt 5; VInt 42; VNone] [] _
                         only_printer eq_refl)).
Defined.

(** X11 at [makeResponse(5, value=42)] on a device that holds a response. *)
Lemma responses_append_only_witness :
  OpMakeResponse (World := World) [VInt 5] [("value", VInt 42)] <> OpClearResponses
  /\ override_dispatchMessages device = None
  /\ exists added,
       responses (run_op lsnr device (OpMakeResponse [VInt 5] [("value", VInt 42)])
                    (set_responses [resp_a] only_faulty))
       = responses (set_responses [resp_a] only_faulty) ++ added
       /\ length added <= 1.
Proof.
  assert (Hop : OpMakeResponse (World := World) [VInt 5] [("value", VInt 42)]
                <> OpClearResponses) by discriminate.
  exact (conj Hop (conj eq_refl
           (responses_append_only lsnr device _ (set_responses [resp_a] only_faulty)
              Hop eq_refl))).
Defined.

(** X12 at the listener that writes its name. *)
Lemma addListener_twice_relays_twice_witness :
  isinstance resp_a (rc_class (responseClass device)) = true
  /\ listeners fresh = []
  /\ l_receiveMessage printer resp_a (world fresh) = (Return tt, ["PrintListener"])
  /\ l_receiveMessage printer resp_a ["PrintListener"]
     = (Return tt, ["PrintListener"; "PrintListener"])
  /\ BaseResponseDevice.receiveMessage device resp_a
       (with_listeners [HListener printer; HListener printer])
     = mkOut (Return true)
         (set_world ["PrintListener"; "PrintListener"]
            (set_responses [resp_a] (with_listeners [HListener printer; HListener printer])))
         [CallReceiveMessage printer resp_a; CallReceiveMessage printer resp_a].
Proof.
  exact (conj eq_refl (conj eq_refl (conj eq_refl (conj eq_refl
           (proj2 (addListener_twice_relays_twice lsnr device printer resp_a fresh
                     ["PrintListener"] ["PrintListener"; "PrintListener"]
                     eq_refl eq_refl eq_refl eq_refl)))))).
Defined.

(** X13 at a plain device that holds two responses. *)
Lemma clearResponses_plain_idempotent_witness :
  override_dispatchMessages device = None
  /\ BaseResponseDevice.clearResponses device (set_responses [resp_a; resp_b] only_printer)
     = mkOut (Return true) only_printer [CallDispatchMessages []]
  /\ BaseResponseDevice.clearResponses device only_printer
     = mkOut (Return true) only_printer [CallDispatchMessages []].
Proof.
  exact (conj eq_refl
           (conj (proj1 (clearResponses_plain_idempotent device
                           (set_responses [resp_a; resp_b] only_printer) eq_refl))
                 (proj1 (clearResponses_plain_idempotent device only_printer eq_refl)))).
Defined.

(** X14 at [BaseResponse(t=1.0, value="a")]. *)
Lemma repr_lists_fields_witness :
  py_getattr python resp_a "fields" = Return (VList [VStr "t"; VStr "value"])
  /\ py_iter python (VList [VStr "t"; VStr "value"]) = Return (map VStr ["t"; "value"], None)
  /\ (forall k, In k ["t"; "value"] ->
        py_getattr python resp_a k
        = Return (if String.eqb k "t" then VFloat (FFinite "1.0") else VStr "a"))
  /\ (forall k, In k ["t"; "value"] ->
        format_value python (if String.eqb k "t" then VFloat (FFinite "1.0") else VStr "a")
        = Return (if String.eqb k "t" then "1.0" else "a"))
  /\ BaseResponse.__repr__ python resp_a = Return "<BaseResponse: t=1.0, value=a>".
Proof.
  assert (Hhas : forall k, In k ["t"; "value"] ->
            py_getattr python resp_a k
            = Return (if String.eqb k "t" then VFloat (FFinite "1.0") else VStr "a")).
  { intros k [Hk | [Hk | []]]; subst k; reflexivity. }
  assert (Htext : forall k, In k ["t"; "value"] ->
            format_value python (if String.eqb k "t" then VFloat (FFinite "1.0") else VStr "a")
            = Return (if String.eqb k "t" then "1.0" else "a")).
  { intros k [Hk | [Hk | []]]; subst k; reflexivity. }
  exact (conj eq_refl (conj eq_refl (conj Hhas (conj Htext
           (repr_lists_fields python resp_a (VList [VStr "t"; VStr "value"]) ["t"; "value"]
              (fun k => if String.eqb k "t" then VFloat (FFinite "1.0") else VStr "a")
              (fun k => if String.eqb k "t" then "1.0" else "a")
              eq_refl eq_refl Hhas Htext))))).
Defined.

(** X15 at a record of a class that declares [code] and does not set it. *)
Lemma missing_field_raises_witness :
  py_getattr python resp_incomplete "fields"
  = Return (VList [VStr "t"; VStr "value"; VStr "code"])
  /\ py_iter python (VList [VStr "t"; VStr "value"; VStr "code"])
     = Return (map VStr (["t"; "value"] ++ "code" :: []), None)
  /\ (forall k', In k' ["t"; "value"] ->
        py_getattr python resp_incomplete k'
        = Return (if String.eqb k' "t" then VInt 1 else VStr "k"))
  /\ py_getattr python resp_incomplete "code"
     = Raise (AttributeError "'KeyResponse' object has no attribute 'code'")
  /\ BaseResponse.getJSON python resp_incomplete
     = Raise (AttributeError "'KeyResponse' object has no attribute 'code'")
  /\ BaseResponse.__repr__ python resp_incomplete
     = Raise (AttributeError "'KeyResponse' object has no attribute 'code'").
Proof.
  assert (Hpre : forall k', In k' ["t"; "value"] ->
            py_getattr python resp_incomplete k'
            = Return (if String.eqb k' "t" then VInt 1 else VStr "k")).
  { intros k [Hk | [Hk | []]]; subst k; reflexivity. }
  assert (Hfmt : forall k', In k' ["t"; "value"] ->
            is_return (format_value python (if String.eqb k' "t" then VInt 1 else VStr "k"))
            = true).
  { intros k [Hk | [Hk | []]]; subst k; reflexivity. }
  destruct (missing_field_raises python resp_incomplete
              (VList [VStr "t"; VStr "value"; VStr "code"]) ["t"; "value"] "code" [] None
              (fun k' => if String.eqb k' "t" then VInt 1 else VStr "k")
              (AttributeError "'KeyResponse' object has no attribute 'code'")
              eq_refl eq_refl Hpre eq_refl) as [Hjson Hrepr].
  exact (conj eq_refl (conj eq_refl (conj Hpre (conj eq_refl (conj Hjson (Hrepr Hfmt)))))).
Defined.

(** X17 at [BaseResponse(5, value=42)]. *)
Lemma BaseResponse_wire_format_witness :
  reads_record python BaseResponse.cls
  /\ dumps_room python = S (S 98)
  /\ construct BaseResponse.class [VInt 5] [("value", VInt 42)] = Return resp_5_42
  /\ exists t value,
       resp_5_42 = VInstance BaseResponse.cls [("t", t); ("value", value)]
       /\ BaseResponse.getJSON python resp_5_42
          = rbind (json_encode 98 t) (fun T =>
            rbind (json_encode 98 value) (fun V =>
            Return (with_dquotes
                      "{'type': 'hardware_response', 'class': 'BaseResponse', 'data': {'t': "
                    ++ T ++ with_dquotes ", 'value': " ++ V ++ "}}")%string)).
Proof.
  assert (Hreads : reads_record python BaseResponse.cls).
  { intros attrs Hnone. split.
    - cbn [python py_getattr instance_getattr]. now rewrite Hnone.
    - intros k v _ Hk. cbn [python py_getattr instance_getattr]. now rewrite Hk. }
  exact (conj Hreads (conj eq_refl (conj eq_refl
           (BaseResponse_wire_format python 98 [VInt 5] [("value", VInt 42)] resp_5_42
              Hreads eq_refl eq_refl)))).
Defined.

(** X18 at a class declared with two aliases. *)
Lemma init_subclass_registers_witness :
  loaded keyboard_class = Some "psychopy.hardware.keyboard"
  /\ BaseDevice.registered register ("psychopy.hardware.keyboard" ++ "." ++ cls_name keyboard_class)
       (BaseDevice.aliases_items (BaseDevice.AliasesSeq [VStr "keyboard"; VStr "kb"]))
       (BaseDevice.aliases empty_manager)
       [(VStr "keyboard", "psychopy.hardware.keyboard.KeyboardDevice");
        (VStr "kb", "psychopy.hardware.keyboard.KeyboardDevice")]
  /\ BaseDevice.__init_subclass__ register loaded keyboard_class
       (BaseDevice.AliasesSeq [VStr "keyboard"; VStr "kb"]) empty_manager
     = BaseDevice.mkDeclared (Return keyboard_class)
         {| BaseDevice.deviceClasses := ["psychopy.hardware.keyboard.KeyboardDevice"];
            BaseDevice.aliases :=
              [(VStr "keyboard", "psychopy.hardware.keyboard.KeyboardDevice");
               (VStr "kb", "psychopy.hardware.keyboard.KeyboardDevice")] |}
         [(VStr "keyboard", "psychopy.hardware.keyboard.KeyboardDevice");
          (VStr "kb", "psychopy.hardware.keyboard.KeyboardDevice")].
Proof.
  assert (Hreg : BaseDevice.registered register
                   ("psychopy.hardware.keyboard" ++ "." ++ cls_name keyboard_class)
                   (BaseDevice.aliases_items (BaseDevice.AliasesSeq [VStr "keyboard"; VStr "kb"]))
                   (BaseDevice.aliases empty_manager)
                   [(VStr "keyboard", "psychopy.hardware.keyboard.KeyboardDevice");
                    (VStr "kb", "psychopy.hardware.keyboard.KeyboardDevice")]).
  { apply (BaseDevice.registered_cons register _ (VStr "keyboard") [VStr "kb"] []
             [(VStr "keyboard", "psychopy.hardware.keyboard.KeyboardDevice")]);
      [reflexivity|].
    apply (BaseDevice.registered_cons register _ (VStr "kb") []
             [(VStr "keyboard", "psychopy.hardware.keyboard.KeyboardDevice")]
             [(VStr "keyboard", "psychopy.hardware.keyboard.KeyboardDevice");
              (VStr "kb", "psychopy.hardware.keyboard.KeyboardDevice")]);
      [reflexivity | apply BaseDevice.registered_nil]. }
  exact (conj eq_refl (conj Hreg
           (proj1 (init_subclass_registers register loaded keyboard_class _ empty_manager
                     "psychopy.hardware.keyboard" _ eq_refl Hreg)))).
Defined.

(** X19 at a class declared with an alias the manager refuses. *)
Lemma init_subclass_alias_failure_witness :
  loaded keyboard_class = Some "psychopy.hardware.keyboard"
  /\ BaseDevice.aliases_items (BaseDevice.AliasesSeq [VStr "kb"; VStr EmptyString; VStr "keys"])
     = [VStr "kb"] ++ VStr EmptyString :: [VStr "keys"]
  /\ BaseDevice.registered register
       ("psychopy.hardware.keyboard" ++ "." ++ cls_name keyboard_class) [VStr "kb"]
       (BaseDevice.aliases empty_manager)
       [(VStr "kb", "psychopy.hardware.keyboard.KeyboardDevice")]
  /\ register (VStr EmptyString)
       ("psychopy.hardware.keyboard" ++ "." ++ cls_name keyboard_class)
       [(VStr "kb", "psychopy.hardware.keyboard.KeyboardDevice")]
     = (Raise (OtherError "ValueError" "empty alias"),
        [(VStr "kb", "psychopy.hardware.keyboard.KeyboardDevice")])
  /\ BaseDevice.__init_subclass__ register loaded keyboard_class
       (BaseDevice.AliasesSeq [VStr "kb"; VStr EmptyString; VStr "keys"]) empty_manager
     = BaseDevice.mkDeclared (Raise (OtherError "ValueError" "empty alias"))
         {| BaseDevice.deviceClasses := [];
            BaseDevice.aliases := [(VStr "kb", "psychopy.hardware.keyboard.KeyboardDevice")] |}
         [(VStr "kb", "psychopy.hardware.keyboard.KeyboardDevice");
          (VStr EmptyString, "psychopy.hardware.keyboard.KeyboardDevice")].
Proof.
  assert (Hpre : BaseDevice.registered register
                   ("psychopy.hardware.keyboard" ++ "." ++ cls_name keyboard_class)
                   [VStr "kb"] (BaseDevice.aliases empty_manager)
                   [(VStr "kb", "psychopy.hardware.keyboard.KeyboardDevice")]).
  { apply (BaseDevice.registered_cons register _ (VStr "kb") [] []
             [(VStr "kb", "psychopy.hardware.keyboard.KeyboardDevice")]
             [(VStr "kb", "psychopy.hardware.keyboard.KeyboardDevice")]);
      [reflexivity | apply BaseDevice.registered_nil]. }
  exact (conj eq_refl (conj eq_refl (conj Hpre (conj eq_refl
           (init_subclass_alias_failure register loaded keyboard_class
              (BaseDevice.AliasesSeq [VStr "kb"; VStr EmptyString; VStr "keys"])
              empty_manager "psychopy.hardware.keyboard"
              [VStr "kb"] (VStr EmptyString) [VStr "keys"] _ _ _
              eq_refl eq_refl Hpre eq_refl))))).
Defined.

(** X20 at a class declared twice after [BaseResponseDevice]. *)
Lemma declare_all_lists_classes_witness :
  (forall alias mro a, exists a', register_any alias mro a = (Return tt, a'))
  /\ (forall d, In d [(dc_class device, BaseDevice.AliasesNone);
                      (keyboard_class, BaseDevice.AliasesStr "kb");
                      (keyboard_class, BaseDevice.AliasesNone)] ->
        loaded (fst d) = Some (cls_module (fst d)))
  /\ BaseDevice.deviceClasses
       (BaseDevice.declare_all register_any loaded
          [(dc_class device, BaseDevice.AliasesNone);
           (keyboard_class, BaseDevice.AliasesStr "kb");
           (keyboard_class, BaseDevice.AliasesNone)] empty_manager)
     = BaseDevice.deviceClasses empty_manager
       ++ ["psychopy.hardware.base.BaseResponseDevice";
           "psychopy.hardware.keyboard.KeyboardDevice";
           "psychopy.hardware.keyboard.KeyboardDevice"].
Proof.
  assert (Hok : forall alias mro a, exists a', register_any alias mro a = (Return tt, a')).
  { intros alias mro a. eexists. reflexivity. }
  assert (Hmod : forall d, In d [(dc_class device, BaseDevice.AliasesNone);
                                 (keyboard_class, BaseDevice.AliasesStr "kb");
                                 (keyboard_class, BaseDevice.AliasesNone)] ->
                   loaded (fst d) = Some (cls_module (fst d))).
  { intros d _. reflexivity. }
  exact (conj Hok (conj Hmod
           (declare_all_lists_classes register_any loaded _ cls_module empty_manager Hok Hmod))).
Defined.

(** X22 at a class of a module that is not loaded, declared with an
    alias. *)
Lemma init_subclass_no_module_witness :
  loaded_but_tests (dc_class broken_drain) = None
  /\ BaseDevice.__init_subclass__ register loaded_but_tests (dc_class broken_drain)
       (BaseDevice.AliasesSeq [VStr "broken"]) empty_manager
     = BaseDevice.mkDeclared
         (Raise (AttributeError "'NoneType' object has no attribute '__name__'"))
         empty_manager [].
Proof.
  exact (conj eq_refl
           (init_subclass_no_module register loaded_but_tests (dc_class broken_drain)
              (BaseDevice.AliasesSeq [VStr "broken"]) empty_manager eq_refl)).
Defined.

(** X21 at a [KeyPress] record given to a plain device. *)
Lemma receiveMessage_accepts_subclass_witness :
  In BaseResponse.cls (cls_bases KeyPress)
  /\ issubclass BaseResponse.cls (rc_class (responseClass device)) = true
  /\ responses (out_state (BaseResponseDevice.receiveMessage device
                             (VInstance KeyPress [("t", VInt 1); ("value", VStr "a")]) fresh))
     = responses fresh ++ [VInstance KeyPress [("t", VInt 1); ("value", VStr "a")]].
Proof.
  exact (conj (or_introl eq_refl) (conj eq_refl
           (proj1 (receiveMessage_accepts_subclass device KeyPress BaseResponse.cls
                     [("t", VInt 1); ("value", VStr "a")] fresh
                     (or_introl eq_refl) eq_refl)))).
Defined.

End MoreConcrete.
